(** * wger-mcp: routine composition and aggregation handlers

    A shallow embedding of the tool handlers of the wger MCP server:
    [addDayToRoutineHandler], [updateDayHandler] and [deleteDayHandler]
    (tools/manage-day.ts), [addExerciseToRoutineHandler]
    (tools/add-exercise-to-routine.ts), [deleteSlotHandler]
    (tools/delete-slot.ts), [getRoutineDetailsHandler]
    (tools/get-routine-details.ts) and [updateExerciseInRoutineHandler]
    (tools/update-exercise.ts).

    Every handler is an [async] function that talks to the wger REST API
    through [wgerClient].  A handler is embedded as a program of the free
    monad [Prog] over the requests it issues; [run] executes a program
    against an arbitrary remote, threading the remote's state and logging
    every exchange.  Logger calls have no effect on the results and are
    left out. *)

From Stdlib Require Import ZArith List String Ascii Bool Lia.
From Stdlib Require Import Sorted Permutation.
Import ListNotations.

Local Open Scope string_scope.
Local Open Scope list_scope.
Local Open Scope Z_scope.

Set Implicit Arguments.

(** ** JSON values and object literals *)

(** Scalars that occur in tool arguments, query parameters and request
    bodies.  JavaScript numbers are modelled by [Z]: the handlers only
    pass them along, compare them with [===], subtract two [order]s and
    add one to an array length. *)
Inductive JVal : Type :=
| JNum (z : Z)
| JStr (s : string)
| JBool (b : bool)
| JNull.

(** An object with scalar properties, e.g. [{ routine: 1, limit: 100 }]. *)
Definition JObj : Type := list (string * JVal).

(** Property read [o.k]; [None] is [undefined]. *)
Fixpoint prop (o : JObj) (k : string) : option JVal :=
  match o with
  | [] => None
  | (k', v) :: rest => if String.eqb k' k then Some v else prop rest k
  end.

(** An object literal whose property values may be [undefined]; such
    properties are dropped when the object is serialised as JSON. *)
Definition obj (fields : list (string * option JVal)) : JObj :=
  flat_map (fun kv => match snd kv with
                      | Some v => [(fst kv, v)]
                      | None => []
                      end) fields.

(** ** Entities (types/wger) *)

(** Modelled from the spec: types/wger is not among the sources.  The
    fields of the entities are those of section 3 of the spec, which are
    also the ones the handlers read and write. *)
Record Routine : Type := mkRoutine {
  routine_id : Z;
  routine_name : string;
  routine_description : string }.

(** Modelled from the spec: as [Routine]; [type] is the field that
    [addExerciseToRoutineHandler] sets to custom. *)
Record Day : Type := mkDay {
  day_id : Z;
  day_routine : Z;
  day_order : Z;
  day_type : string;
  day_name : string;
  day_description : string;
  day_is_rest : bool }.

(** Modelled from the spec: as [Routine]. *)
Record Slot : Type := mkSlot {
  slot_id : Z;
  slot_day : Z;
  slot_order : Z }.

(** Modelled from the spec: as [Routine]. *)
Record SlotEntry : Type := mkSlotEntry {
  entry_id : Z;
  entry_slot : Z;
  entry_exercise : Z;
  entry_order : Z;
  entry_comment : string }.

(** Modelled from the spec: as [Routine].  SetsConfig, RepetitionsConfig
    and WeightConfig share one shape; the value is a number for sets and
    repetitions and a string for weight. *)
Record Config : Type := mkConfig {
  config_id : Z;
  config_slot_entry : Z;
  config_iteration : Z;
  config_value : JVal }.

Inductive ConfigKind : Type := Sets | Repetitions | Weight.

Definition ConfigKind_eqb (a b : ConfigKind) : bool :=
  match a, b with
  | Sets, Sets | Repetitions, Repetitions | Weight, Weight => true
  | _, _ => false
  end.

(** ** Requests, responses and errors *)

(** The collections [/routine/], [/day/], [/slot/], [/slot-entry/],
    [/sets-config/], [/repetitions-config/] and [/weight-config/]. *)
Inductive Collection : Type :=
| c_routine
| c_day
| c_slot
| c_slot_entry
| c_config (k : ConfigKind).

Inductive Request : Type :=
| Token                                              (* authManager.getToken() *)
| Get (c : Collection) (params : JObj)               (* GET /c/?params *)
| GetOne (c : Collection) (id : Z)                   (* GET /c/id/ *)
| Post (c : Collection) (body : JObj)                (* POST /c/ *)
| Patch (c : Collection) (id : Z) (body : JObj)      (* PATCH /c/id/ *)
| Delete (c : Collection) (id : Z).                  (* DELETE /c/id/ *)

(** A payload element as it arrives from the remote, before decoding. *)
Inductive Raw : Type :=
| RawRoutine (r : Routine)
| RawDay (d : Day)
| RawSlot (s : Slot)
| RawSlotEntry (e : SlotEntry)
| RawConfig (c : Config)
| RawJunk.

Inductive Response : Type :=
| RList (results : list Raw)     (* the envelope { results: [...] } *)
| RItem (item : Raw)
| REmpty.

Inductive Error : Type :=
| AuthenticationError (message : string)
| ValidationError (message : string)
| ZodError
| TypeError
| ApiError (status : Z) (message : string).

(** ** The handler monad *)

Inductive Prog (A : Type) : Type :=
| Ret (a : A)
| Throw (e : Error)
| Call (r : Request) (k : Response -> Prog A).

Arguments Ret {A} a.
Arguments Throw {A} e.
Arguments Call {A} r k.

Fixpoint bind {A B : Type} (p : Prog A) (f : A -> Prog B) : Prog B :=
  match p with
  | Ret a => f a
  | Throw e => Throw e
  | Call r k => Call r (fun resp => bind (k resp) f)
  end.

Declare Scope prog_scope.
Delimit Scope prog_scope with prog.
Notation "x <- p ;; q" := (bind p (fun x => q))
  (at level 61, p at next level, right associativity) : prog_scope.
Notation "p ;; q" := (bind p (fun _ => q))
  (at level 61, right associativity) : prog_scope.
Local Open Scope prog_scope.

(** [await wgerClient.get/post/patch/delete(...)]. *)
Definition await (r : Request) : Prog Response := Call r Ret.

(** [Promise.all(xs.map(async x => f x))]: the results come back in the
    order of [xs].  The fan-out is embedded as an in-order traversal. *)
Fixpoint Promise_all {A B : Type} (f : A -> Prog B) (xs : list A) : Prog (list B) :=
  match xs with
  | [] => Ret []
  | x :: rest =>
      y <- f x ;;
      ys <- Promise_all f rest ;;
      Ret (y :: ys)
  end.

(** Result of a run: what the handler's promise settles to. *)
Inductive Outcome (A : Type) : Type :=
| Returned (a : A)
| Thrown (e : Error).

Arguments Returned {A} a.
Arguments Thrown {A} e.

(** One logged exchange: the request and what the remote answered. *)
Definition Exchange : Type := (Request * (Error + Response))%type.

Section Run.
Variable World : Type.
Variable respond : World -> Request -> (Error + Response) * World.

(** A rejected call throws at the [await]; no handler catches an error
    other than to log and rethrow it, so the run stops there. *)
Fixpoint run {A : Type} (p : Prog A) (w : World)
  : Outcome A * World * list Exchange :=
  match p with
  | Ret a => (Returned a, w, [])
  | Throw e => (Thrown e, w, [])
  | Call r k =>
      match respond w r with
      | (inl e, w') => (Thrown e, w', [(r, inl e)])
      | (inr resp, w') =>
          match run (k resp) w' with
          | (o, w'', log) => (o, w'', (r, inr resp) :: log)
          end
      end
  end.
End Run.

(** ** Input schemas (zod) *)

(** [z.number()] on property [k]. *)
Definition zNumber (args : JObj) (k : string) : option Z :=
  match prop args k with
  | Some (JNum z) => Some z
  | _ => None
  end.

(** [z.number().optional()]: the outer [None] is a rejected value, the
    inner one an absent property. *)
Definition zNumberOptional (args : JObj) (k : string) : option (option Z) :=
  match prop args k with
  | None => Some None
  | Some (JNum z) => Some (Some z)
  | Some _ => None
  end.

(** [z.string().optional()]. *)
Definition zStringOptional (args : JObj) (k : string) : option (option string) :=
  match prop args k with
  | None => Some None
  | Some (JStr s) => Some (Some s)
  | Some _ => None
  end.

(** [z.boolean().optional()]. *)
Definition zBooleanOptional (args : JObj) (k : string) : option (option bool) :=
  match prop args k with
  | None => Some None
  | Some (JBool b) => Some (Some b)
  | Some _ => None
  end.

(** [z.boolean().optional().default(false)]. *)
Definition zBooleanDefaultFalse (args : JObj) (k : string) : option bool :=
  match zBooleanOptional args k with
  | Some (Some b) => Some b
  | Some None => Some false
  | None => None
  end.

Declare Scope zod_scope.
Delimit Scope zod_scope with zod.
Notation "x <-? c ;; k" :=
  (match c with Some x => k | None => None end)
  (at level 61, c at next level, right associativity) : zod_scope.

Record AddDayInput : Type := mkAddDayInput {
  ad_routineId : Z;
  ad_description : option string;
  ad_is_rest : bool }.

Definition AddDaySchema (args : JObj) : option AddDayInput :=
  (routineId <-? zNumber args "routineId" ;;
   description <-? zStringOptional args "description" ;;
   is_rest <-? zBooleanDefaultFalse args "is_rest" ;;
   Some (mkAddDayInput routineId description is_rest))%zod.

Record UpdateDayInput : Type := mkUpdateDayInput {
  ud_dayId : Z;
  ud_description : option string;
  ud_is_rest : option bool;
  ud_name : option string }.

Definition UpdateDaySchema (args : JObj) : option UpdateDayInput :=
  (dayId <-? zNumber args "dayId" ;;
   description <-? zStringOptional args "description" ;;
   is_rest <-? zBooleanOptional args "is_rest" ;;
   name <-? zStringOptional args "name" ;;
   Some (mkUpdateDayInput dayId description is_rest name))%zod.

Definition DeleteDaySchema (args : JObj) : option Z := zNumber args "dayId".

Definition DeleteSlotSchema (args : JObj) : option Z := zNumber args "slotId".

Definition GetRoutineDetailsSchema (args : JObj) : option Z :=
  zNumber args "routineId".

Record UpdateExerciseInput : Type := mkUpdateExerciseInput {
  ue_slotEntryId : Z;
  ue_sets : option Z;
  ue_reps : option Z;
  ue_weight : option Z }.

Definition UpdateExerciseSchema (args : JObj) : option UpdateExerciseInput :=
  (slotEntryId <-? zNumber args "slotEntryId" ;;
   sets <-? zNumberOptional args "sets" ;;
   reps <-? zNumberOptional args "reps" ;;
   weight <-? zNumberOptional args "weight" ;;
   Some (mkUpdateExerciseInput slotEntryId sets reps weight))%zod.

Record AddExerciseToRoutineInput : Type := mkAddExerciseToRoutineInput {
  ae_routineId : Z;
  ae_exerciseId : Z;
  ae_sets : Z;
  ae_reps : Z;
  ae_weight : option Z;
  ae_dayName : option string;
  ae_comment : option string }.

Definition between (lo hi x : Z) : option Z :=
  if (lo <=? x) && (x <=? hi) then Some x else None.

(** Modelled from the spec: schemas/tools (AddExerciseToRoutineSchema) is
    not among the sources.  The constraints are the ones the tool
    declares in [addExerciseToRoutineTool.inputSchema]: four required
    numbers, sets in 1..10, reps in 1..100, a non-negative optional
    weight, an optional day name and an optional comment of at most 100
    characters. *)
Definition AddExerciseToRoutineSchema (args : JObj)
  : option AddExerciseToRoutineInput :=
  (routineId <-? zNumber args "routineId" ;;
   exerciseId <-? zNumber args "exerciseId" ;;
   sets0 <-? zNumber args "sets" ;;
   sets <-? between 1 10 sets0 ;;
   reps0 <-? zNumber args "reps" ;;
   reps <-? between 1 100 reps0 ;;
   weight <-? zNumberOptional args "weight" ;;
   weight <-? match weight with
              | Some w => if 0 <=? w then Some (Some w) else None
              | None => Some None
              end ;;
   dayName <-? zStringOptional args "dayName" ;;
   comment <-? zStringOptional args "comment" ;;
   comment <-? match comment with
               | Some c => if (String.length c <=? 100)%nat then Some (Some c) else None
               | None => Some None
               end ;;
   Some (mkAddExerciseToRoutineInput
           routineId exerciseId sets reps weight dayName comment))%zod.

(** ** Response schemas (schemas/api) *)

(** Modelled from the spec: schemas/api is not among the sources.
    The decoder "parses raw payloads into typed entities, rejecting
    malformed ones" (spec, section 2): a payload decodes as a Day exactly
    when it is one. *)
Definition DaySchema (r : Raw) : option Day :=
  match r with RawDay d => Some d | _ => None end.

(** Modelled from the spec: as [DaySchema], for Slot. *)
Definition SlotSchema (r : Raw) : option Slot :=
  match r with RawSlot s => Some s | _ => None end.

(** Modelled from the spec: as [DaySchema], for SlotEntry. *)
Definition SlotEntrySchema (r : Raw) : option SlotEntry :=
  match r with RawSlotEntry e => Some e | _ => None end.

(** Modelled from the spec: as [DaySchema], for the three config kinds;
    "value (numeric for Sets/Repetitions, numeric-as-string for Weight)"
    (spec, section 3). *)
Definition ConfigSchema (k : ConfigKind) (r : Raw) : option Config :=
  match r with
  | RawConfig c =>
      match k, config_value c with
      | Sets, JNum _ | Repetitions, JNum _ | Weight, JStr _ => Some c
      | _, _ => None
      end
  | _ => None
  end.

Definition SetsConfigSchema := ConfigSchema Sets.
Definition RepetitionsConfigSchema := ConfigSchema Repetitions.
Definition WeightConfigSchema := ConfigSchema Weight.

(** The static types [Slot], [SlotEntry], ... that [wgerClient.get<T>]
    asserts without checking. *)
Definition as_Slot (r : Raw) : option Slot :=
  match r with RawSlot x => Some x | _ => None end.
Definition as_SlotEntry (r : Raw) : option SlotEntry :=
  match r with RawSlotEntry x => Some x | _ => None end.
Definition as_Config (r : Raw) : option Config :=
  match r with RawConfig x => Some x | _ => None end.

(** ** Helpers shared by the handlers *)

(** [Schema.parse(args)]: throws the schema library's own error. *)
Definition zod_parse {A : Type} (schema : JObj -> option A) (args : JObj) : Prog A :=
  match schema args with
  | Some input => Ret input
  | None => Throw ZodError
  end.

(** [XSchema.parse(response)] on the payload of a single-item response. *)
Definition parse {A : Type} (schema : Raw -> option A) (resp : Response) : Prog A :=
  match resp with
  | RItem item =>
      match schema item with
      | Some a => Ret a
      | None => Throw ZodError
      end
  | _ => Throw ZodError
  end.

(** [response.results]; reading [.length] or [.map] of a missing
    [results] is a TypeError. *)
Definition results (resp : Response) : Prog (list Raw) :=
  match resp with
  | RList rs => Ret rs
  | _ => Throw TypeError
  end.

Fixpoint decode_all {A : Type} (decode : Raw -> option A) (rs : list Raw)
  : option (list A) :=
  match rs with
  | [] => Some []
  | r :: rest =>
      match decode r, decode_all decode rest with
      | Some a, Some l => Some (a :: l)
      | _, _ => None
      end
  end.

(** [schema.parse] mapped over an array: the first failure throws. *)
Definition parse_all {A : Type} (schema : Raw -> option A) (rs : list Raw)
  : Prog (list A) :=
  match decode_all schema rs with
  | Some l => Ret l
  | None => Throw ZodError
  end.

(** The elements of a [get<{ results: T[] }>] response at their declared
    type [T].  The declaration is unchecked; a payload that is not of the
    declared type is outside the contract of the client and the embedding
    throws. *)
Definition results_as {A : Type} (decode : Raw -> option A) (resp : Response)
  : Prog (list A) :=
  rs <- results resp ;;
  match decode_all decode rs with
  | Some l => Ret l
  | None => Throw TypeError
  end.

(** [a || b] on strings: the empty string and [undefined] are falsy. *)
Definition or_else (a : option string) (b : string) : string :=
  match a with
  | Some s => if String.eqb s "" then b else s
  | None => b
  end.

(** Decimal digits of a non-negative integer, most significant first. *)
Fixpoint digits (fuel : nat) (n : Z) (acc : string) : string :=
  match fuel with
  | O => acc
  | S fuel' =>
      let acc' := String (ascii_of_nat (48 + Z.to_nat (n mod 10))) acc in
      if n / 10 =? 0 then acc' else digits fuel' (n / 10) acc'
  end.

(** [Number.prototype.toString()] and template interpolation of an
    integral number. *)
Definition Number_toString (n : Z) : string :=
  let m := Z.abs n in
  let ds := digits (S (Z.to_nat (Z.log2 m))) m "" in
  if n <? 0 then String.append "-" ds else ds.

(** [Array.prototype.sort(compare)]: the sort is stable, so for a
    consistent comparator the result is the one of a stable insertion
    sort. *)
Fixpoint sort_insert {A : Type} (compare : A -> A -> Z) (x : A) (l : list A) : list A :=
  match l with
  | [] => [x]
  | y :: rest =>
      if compare x y <=? 0 then x :: y :: rest
      else y :: sort_insert compare x rest
  end.

Fixpoint Array_sort {A : Type} (compare : A -> A -> Z) (l : list A) : list A :=
  match l with
  | [] => []
  | x :: rest => sort_insert compare x (Array_sort compare rest)
  end.

Definition fmap {A B : Type} (f : A -> B) (p : Prog A) : Prog B :=
  x <- p ;; Ret (f x).

(** ** tools/manage-day.ts *)

(** [hasCredentials] is the value of [authManager.hasCredentials()]. *)
Definition addDayToRoutineHandler (hasCredentials : bool) (args : JObj) : Prog Day :=
  if negb hasCredentials then Throw (AuthenticationError "Authentication required.") else
  input <- zod_parse AddDaySchema args ;;
  await Token ;;
  (* Get current days to determine order *)
  daysRes <- await (Get c_day [("routine", JNum (ad_routineId input))]) ;;
  rs <- results daysRes ;;
  let currentCount := Z.of_nat (List.length rs) in
  day <- await (Post c_day (obj [
    ("routine", Some (JNum (ad_routineId input)));
    ("description", option_map JStr (ad_description input));
    ("is_rest", Some (JBool (ad_is_rest input)));
    ("order", Some (JNum (currentCount + 1)));
    ("name", Some (JStr
       (or_else (option_map (substring 0 50) (ad_description input))
                (String.append "Day " (Number_toString (currentCount + 1))))))
  ])) ;;
  parse DaySchema day.

Definition updateDayHandler (hasCredentials : bool) (args : JObj) : Prog Day :=
  if negb hasCredentials then Throw (AuthenticationError "Authentication required.") else
  input <- zod_parse UpdateDaySchema args ;;
  await Token ;;
  day <- await (Patch c_day (ud_dayId input) (obj [
    ("description", option_map JStr (ud_description input));
    ("is_rest", option_map JBool (ud_is_rest input));
    ("name", option_map JStr (ud_name input))
  ])) ;;
  parse DaySchema day.

Record Deleted : Type := mkDeleted {
  deleted_success : bool;
  deleted_id : Z }.

Definition deleteDayHandler (hasCredentials : bool) (args : JObj) : Prog Deleted :=
  if negb hasCredentials then Throw (AuthenticationError "Authentication required.") else
  dayId <- zod_parse DeleteDaySchema args ;;
  await Token ;;
  await (Delete c_day dayId) ;;
  Ret (mkDeleted true dayId).

(** ** tools/delete-slot.ts *)

Definition deleteSlotHandler (hasCredentials : bool) (args : JObj) : Prog Deleted :=
  if negb hasCredentials then Throw (AuthenticationError "Authentication required.") else
  slotId <- zod_parse DeleteSlotSchema args ;;
  await Token ;;
  await (Delete c_slot slotId) ;;
  Ret (mkDeleted true slotId).

(** ** tools/add-exercise-to-routine.ts *)

Record AddExerciseResult : Type := mkAddExerciseResult {
  ar_slotEntry : SlotEntry;
  ar_setsConfigId : Z;
  ar_repsConfigId : Z;
  ar_weightConfigId : option Z }.

(** Step 1 of the handler: find or create a day for this routine. *)
Definition findOrCreateDay (routineId : Z) (dayNameToUse : string) : Prog Day :=
  (* Try to find existing day *)
  daysResponse <- await (Get c_day [("routine", JNum routineId)]) ;;
  rs <- results daysResponse ;;
  parsed <- parse_all DaySchema rs ;;
  let existingDays := filter (fun d => day_routine d =? routineId) parsed in
  let existingDay :=
    find (fun d => String.eqb (day_name d) dayNameToUse) existingDays in
  match existingDay with
  | Some d => Ret d
  | None =>
      (* Create new day *)
      dayResponse <- await (Post c_day [
        ("routine", JNum routineId);
        ("type", JStr "custom");
        ("name", JStr dayNameToUse);
        ("is_rest", JBool false);
        ("order", JNum (Z.of_nat (List.length existingDays) + 1))
      ]) ;;
      parse DaySchema dayResponse
  end.

(** Steps 2 to 6: slot, slot entry and the configs. *)
Definition createExerciseChain (input : AddExerciseToRoutineInput) (day : Day)
  : Prog AddExerciseResult :=
  (* Step 2: Create a slot for this day *)
  slotResponse <- await (Post c_slot [("day", JNum (day_id day)); ("order", JNum 1)]) ;;
  slot <- parse SlotSchema slotResponse ;;
  (* Step 3: Create slot entry (link exercise to slot) *)
  slotEntryResponse <- await (Post c_slot_entry [
    ("slot", JNum (slot_id slot));
    ("exercise", JNum (ae_exerciseId input));
    ("order", JNum 1);
    ("comment", JStr (or_else (ae_comment input) ""))
  ]) ;;
  slotEntry <- parse SlotEntrySchema slotEntryResponse ;;
  (* Step 4: Create sets config *)
  setsConfigResponse <- await (Post (c_config Sets) [
    ("slot_entry", JNum (entry_id slotEntry));
    ("iteration", JNum 1);
    ("value", JNum (ae_sets input))
  ]) ;;
  setsConfig <- parse SetsConfigSchema setsConfigResponse ;;
  (* Step 5: Create repetitions config *)
  repsConfigResponse <- await (Post (c_config Repetitions) [
    ("slot_entry", JNum (entry_id slotEntry));
    ("iteration", JNum 1);
    ("value", JNum (ae_reps input))
  ]) ;;
  repsConfig <- parse RepetitionsConfigSchema repsConfigResponse ;;
  (* Step 6: Create weight config (if provided) *)
  weightConfig <-
    match ae_weight input with
    | Some weight =>
        weightConfigResponse <- await (Post (c_config Weight) [
          ("slot_entry", JNum (entry_id slotEntry));
          ("iteration", JNum 1);
          ("value", JStr (Number_toString weight))
        ]) ;;
        c <- parse WeightConfigSchema weightConfigResponse ;;
        Ret (Some c)
    | None => Ret None
    end ;;
  Ret (mkAddExerciseResult slotEntry (config_id setsConfig) (config_id repsConfig)
         (option_map config_id weightConfig)).

(** The [try { ... } catch (error) { ...; throw error; }] around the steps
    rethrows what it caught and is the identity on outcomes. *)
Definition addExerciseToRoutineHandler (hasCredentials : bool) (args : JObj)
  : Prog AddExerciseResult :=
  (* Validate authentication *)
  if negb hasCredentials then
    Throw (AuthenticationError "Authentication required to add exercises. Please set WGER_API_KEY or WGER_USERNAME and WGER_PASSWORD environment variables.")
  else
  (* Validate input *)
  validatedInput <-
    match AddExerciseToRoutineSchema args with
    | Some input => Ret input
    | None => Throw (ValidationError "Invalid input for add_exercise_to_routine")
    end ;;
  (* Ensure we have a valid authentication token *)
  await Token ;;
  let dayNameToUse := or_else (ae_dayName validatedInput) "Workout Day" in
  day <- findOrCreateDay (ae_routineId validatedInput) dayNameToUse ;;
  createExerciseChain validatedInput day.

(** ** tools/update-exercise.ts *)

Record UpdateResult : Type := mkUpdateResult {
  ur_success : bool;
  ur_updates : list string }.

Definition updateExerciseInRoutineHandler (hasCredentials : bool) (args : JObj)
  : Prog UpdateResult :=
  if negb hasCredentials then Throw (AuthenticationError "Authentication required.") else
  input <- zod_parse UpdateExerciseSchema args ;;
  await Token ;;
  let updates : list string := [] in
  (* 1. Handle SETS *)
  updates <-
    match ue_sets input with
    | Some sets =>
        (* Find existing config *)
        setsRes <- await (Get (c_config Sets) [("slot_entry", JNum (ue_slotEntryId input))]) ;;
        rs <- results setsRes ;;
        match rs with
        | r0 :: _ =>
            (* Update existing *)
            match as_Config r0 with
            | Some c0 =>
                await (Patch (c_config Sets) (config_id c0) [("value", JNum sets)]) ;;
                Ret (updates ++ ["sets (updated)"])
            | None => Throw TypeError
            end
        | [] =>
            (* Create new *)
            await (Post (c_config Sets) [
              ("slot_entry", JNum (ue_slotEntryId input));
              ("iteration", JNum 1);
              ("value", JNum sets)
            ]) ;;
            Ret (updates ++ ["sets (created)"])
        end
    | None => Ret updates
    end ;;
  (* 2. Handle REPS *)
  updates <-
    match ue_reps input with
    | Some reps =>
        repsRes <- await (Get (c_config Repetitions) [("slot_entry", JNum (ue_slotEntryId input))]) ;;
        rs <- results repsRes ;;
        match rs with
        | r0 :: _ =>
            match as_Config r0 with
            | Some c0 =>
                await (Patch (c_config Repetitions) (config_id c0) [("value", JNum reps)]) ;;
                Ret (updates ++ ["reps (updated)"])
            | None => Throw TypeError
            end
        | [] =>
            await (Post (c_config Repetitions) [
              ("slot_entry", JNum (ue_slotEntryId input));
              ("iteration", JNum 1);
              ("value", JNum reps)
            ]) ;;
            Ret (updates ++ ["reps (created)"])
        end
    | None => Ret updates
    end ;;
  (* 3. Handle WEIGHT *)
  updates <-
    match ue_weight input with
    | Some weight =>
        weightRes <- await (Get (c_config Weight) [("slot_entry", JNum (ue_slotEntryId input))]) ;;
        rs <- results weightRes ;;
        match rs with
        | r0 :: _ =>
            match as_Config r0 with
            | Some c0 =>
                await (Patch (c_config Weight) (config_id c0)
                         [("value", JStr (Number_toString weight))]) ;;
                Ret (updates ++ ["weight (updated)"])
            | None => Throw TypeError
            end
        | [] =>
            await (Post (c_config Weight) [
              ("slot_entry", JNum (ue_slotEntryId input));
              ("iteration", JNum 1);
              ("value", JStr (Number_toString weight))
            ]) ;;
            Ret (updates ++ ["weight (created)"])
        end
    | None => Ret updates
    end ;;
  Ret (mkUpdateResult true updates).

(** ** tools/get-routine-details.ts *)

Record EntryNode : Type := mkEntryNode {
  en_entry : SlotEntry;
  en_sets : option JVal;
  en_reps : option JVal;
  en_weight : option JVal }.

Record SlotNode : Type := mkSlotNode {
  sn_slot : Slot;
  sn_entries : list EntryNode }.

Record DayNode : Type := mkDayNode {
  dn_day : Day;
  dn_slots : list SlotNode }.

(** [{ ...routine, days }]: the routine payload is spread as it came. *)
Record DetailedRoutine : Type := mkDetailedRoutine {
  dr_routine : Response;
  dr_days : list DayNode }.

(** [results.filter(d => d.routine === routineId)]: an element without a
    [routine] property compares [undefined] with the number and is
    dropped, so what remains are days of the routine. *)
Definition days_of_routine (routineId : Z) (rs : list Raw) : list Day :=
  flat_map (fun r => match r with
                     | RawDay d => if day_routine d =? routineId then [d] else []
                     | _ => []
                     end) rs.

(** [res.results[0]?.value]. *)
Definition first_value (resp : Response) : Prog (option JVal) :=
  rs <- results resp ;;
  Ret match rs with
      | RawConfig c :: _ => Some (config_value c)
      | _ => None
      end.

Definition populateEntry (entry : SlotEntry) : Prog EntryNode :=
  setsRes <- await (Get (c_config Sets) [("slot_entry", JNum (entry_id entry))]) ;;
  repsRes <- await (Get (c_config Repetitions) [("slot_entry", JNum (entry_id entry))]) ;;
  weightRes <- await (Get (c_config Weight) [("slot_entry", JNum (entry_id entry))]) ;;
  sets <- first_value setsRes ;;
  reps <- first_value repsRes ;;
  weight <- first_value weightRes ;;
  Ret (mkEntryNode entry sets reps weight).

Definition populateSlot (slot : Slot) : Prog SlotNode :=
  (* Get Entries for Slot *)
  entriesResponse <- await (Get c_slot_entry [("slot", JNum (slot_id slot)); ("limit", JNum 100)]) ;;
  es <- results_as as_SlotEntry entriesResponse ;;
  let entries := Array_sort (fun a b => entry_order a - entry_order b) es in
  populatedEntries <- Promise_all populateEntry entries ;;
  Ret (mkSlotNode slot populatedEntries).

Definition populateDay (day : Day) : Prog DayNode :=
  (* Get Slots for Day *)
  slotsResponse <- await (Get c_slot [("day", JNum (day_id day)); ("limit", JNum 100)]) ;;
  ss <- results_as as_Slot slotsResponse ;;
  let slots := Array_sort (fun a b => slot_order a - slot_order b) ss in
  populatedSlots <- Promise_all populateSlot slots ;;
  Ret (mkDayNode day populatedSlots).

Definition getRoutineDetailsHandler (hasCredentials : bool) (args : JObj)
  : Prog DetailedRoutine :=
  if negb hasCredentials then
    Throw (AuthenticationError "Authentication required to view routine details.")
  else
  routineId <- zod_parse GetRoutineDetailsSchema args ;;
  await Token ;;
  (* 1. Fetch Routine *)
  routine <- await (GetOne c_routine routineId) ;;
  (* 2. Fetch Days *)
  daysResponse <- await (Get c_day [("routine", JNum routineId); ("limit", JNum 100)]) ;;
  rs <- results daysResponse ;;
  (* Manually filter by routine ID as API might return all days *)
  let days :=
    Array_sort (fun a b => day_order a - day_order b) (days_of_routine routineId rs) in
  populatedDays <- Promise_all populateDay days ;;
  Ret (mkDetailedRoutine routine populatedDays).

(** ** server.ts: the registered tools *)

Inductive Operation : Type :=
| addDay
| updateDay
| deleteDay
| addExerciseToRoutine
| updateExerciseInRoutine
| deleteSlot
| getRoutineDetails.

(** [ToolHandler = (args) => Promise<unknown>]. *)
Inductive ToolResult : Type :=
| TDay (d : Day)
| TDeleted (r : Deleted)
| TAdded (r : AddExerciseResult)
| TUpdated (r : UpdateResult)
| TDetails (r : DetailedRoutine).

Definition handler (op : Operation) (hasCredentials : bool) (args : JObj)
  : Prog ToolResult :=
  match op with
  | addDay => fmap TDay (addDayToRoutineHandler hasCredentials args)
  | updateDay => fmap TDay (updateDayHandler hasCredentials args)
  | deleteDay => fmap TDeleted (deleteDayHandler hasCredentials args)
  | addExerciseToRoutine => fmap TAdded (addExerciseToRoutineHandler hasCredentials args)
  | updateExerciseInRoutine =>
      fmap TUpdated (updateExerciseInRoutineHandler hasCredentials args)
  | deleteSlot => fmap TDeleted (deleteSlotHandler hasCredentials args)
  | getRoutineDetails => fmap TDetails (getRoutineDetailsHandler hasCredentials args)
  end.

(** Whether the input schema of an operation accepts the arguments. *)
Definition accepts (op : Operation) (args : JObj) : bool :=
  let ok {A : Type} (o : option A) := match o with Some _ => true | None => false end in
  match op with
  | addDay => ok (AddDaySchema args)
  | updateDay => ok (UpdateDaySchema args)
  | deleteDay => ok (DeleteDaySchema args)
  | addExerciseToRoutine => ok (AddExerciseToRoutineSchema args)
  | updateExerciseInRoutine => ok (UpdateExerciseSchema args)
  | deleteSlot => ok (DeleteSlotSchema args)
  | getRoutineDetails => ok (GetRoutineDetailsSchema args)
  end.

(** ** The remote store *)

(** Modelled from the spec: client/wger-client and the service behind it
    are not among the sources.  Section 6 of the spec gives the
    interface: collections supporting [GET collection?filter=...]
    (returning [{results: T[]}]), [GET collection/{id}/],
    [POST collection/], [PATCH collection/{id}/] (partial update,
    unspecified fields untouched) and [DELETE collection/{id}/]; ids are
    assigned by the store; deleting a slot cascades to its slot entries. *)
Record Store : Type := mkStore {
  st_routines : list Routine;
  st_days : list Day;
  st_slots : list Slot;
  st_entries : list SlotEntry;
  st_sets : list Config;
  st_reps : list Config;
  st_weights : list Config;
  st_next_id : Z }.

(** Modelled from the spec: whether [GET /day/?routine=r] applies its
    filter.  "The remote list endpoint is not trusted to filter
    correctly" (spec, section 4.2); get-routine-details.ts filters again
    "as API might return all days". *)
Inductive DayListing : Type :=
| ByRoutine
| AllDays.

Definition st_configs (k : ConfigKind) (st : Store) : list Config :=
  match k with
  | Sets => st_sets st
  | Repetitions => st_reps st
  | Weight => st_weights st
  end.

Definition set_days (l : list Day) (st : Store) : Store :=
  mkStore (st_routines st) l (st_slots st) (st_entries st)
          (st_sets st) (st_reps st) (st_weights st) (st_next_id st).

Definition set_slots (l : list Slot) (es : list SlotEntry) (st : Store) : Store :=
  mkStore (st_routines st) (st_days st) l es
          (st_sets st) (st_reps st) (st_weights st) (st_next_id st).

Definition set_configs (k : ConfigKind) (l : list Config) (st : Store) : Store :=
  match k with
  | Sets =>
      mkStore (st_routines st) (st_days st) (st_slots st) (st_entries st)
              l (st_reps st) (st_weights st) (st_next_id st)
  | Repetitions =>
      mkStore (st_routines st) (st_days st) (st_slots st) (st_entries st)
              (st_sets st) l (st_weights st) (st_next_id st)
  | Weight =>
      mkStore (st_routines st) (st_days st) (st_slots st) (st_entries st)
              (st_sets st) (st_reps st) l (st_next_id st)
  end.

Definition bump (st : Store) : Store :=
  mkStore (st_routines st) (st_days st) (st_slots st) (st_entries st)
          (st_sets st) (st_reps st) (st_weights st) (st_next_id st + 1).

(** Body fields: a missing optional field takes the default, a field of
    the wrong type is rejected. *)
Definition field_num (body : JObj) (k : string) (dflt : Z) : option Z :=
  match prop body k with
  | None => Some dflt
  | Some (JNum z) => Some z
  | Some _ => None
  end.

Definition field_str (body : JObj) (k : string) (dflt : string) : option string :=
  match prop body k with
  | None => Some dflt
  | Some (JStr s) => Some s
  | Some _ => None
  end.

Definition field_bool (body : JObj) (k : string) (dflt : bool) : option bool :=
  match prop body k with
  | None => Some dflt
  | Some (JBool b) => Some b
  | Some _ => None
  end.

Definition field_val (body : JObj) (k : string) (dflt : JVal) : option JVal :=
  match prop body k with
  | None => Some dflt
  | Some (JNum z) => Some (JNum z)
  | Some (JStr s) => Some (JStr s)
  | Some _ => None
  end.

(** The query [?k=v] keeps the elements whose field equals [v]; without
    the parameter the collection is listed whole. *)
Definition where_ {A : Type} (params : JObj) (k : string) (field : A -> Z) (l : list A)
  : list A :=
  match prop params k with
  | Some (JNum v) => filter (fun x => field x =? v) l
  | _ => l
  end.

(** [?limit=n] truncates the page. *)
Definition limited {A : Type} (params : JObj) (l : list A) : list A :=
  match prop params "limit" with
  | Some (JNum n) => firstn (Z.to_nat n) l
  | _ => l
  end.

(** A partial update of a day: the fields present in the body replace the
    stored ones. *)
Definition patch_day (body : JObj) (d : Day) : option Day :=
  (routine <-? field_num body "routine" (day_routine d) ;;
   order <-? field_num body "order" (day_order d) ;;
   type <-? field_str body "type" (day_type d) ;;
   name <-? field_str body "name" (day_name d) ;;
   description <-? field_str body "description" (day_description d) ;;
   is_rest <-? field_bool body "is_rest" (day_is_rest d) ;;
   Some (mkDay (day_id d) routine order type name description is_rest))%zod.

Definition patch_config (body : JObj) (c : Config) : option Config :=
  (slot_entry <-? field_num body "slot_entry" (config_slot_entry c) ;;
   iteration <-? field_num body "iteration" (config_iteration c) ;;
   value <-? field_val body "value" (config_value c) ;;
   Some (mkConfig (config_id c) slot_entry iteration value))%zod.

Definition bad_request : Error := ApiError 400 "Bad Request".
Definition not_found : Error := ApiError 404 "Not Found".
Definition not_allowed : Error := ApiError 405 "Method Not Allowed".

Definition serve (listing : DayListing) (st : Store) (r : Request)
  : (Error + Response) * Store :=
  match r with
  | Token => (inr REmpty, st)
  | GetOne c_routine id =>
      match find (fun x => routine_id x =? id) (st_routines st) with
      | Some x => (inr (RItem (RawRoutine x)), st)
      | None => (inl not_found, st)
      end
  | Get c_day params =>
      let ds := match listing with
                | ByRoutine => where_ params "routine" day_routine (st_days st)
                | AllDays => st_days st
                end in
      (inr (RList (map RawDay (limited params ds))), st)
  | Get c_slot params =>
      (inr (RList (map RawSlot
         (limited params (where_ params "day" slot_day (st_slots st))))), st)
  | Get c_slot_entry params =>
      (inr (RList (map RawSlotEntry
         (limited params (where_ params "slot" entry_slot (st_entries st))))), st)
  | Get (c_config k) params =>
      (inr (RList (map RawConfig
         (limited params (where_ params "slot_entry" config_slot_entry (st_configs k st))))), st)
  | Post c_day body =>
      match zNumber body "routine", zNumber body "order",
            patch_day body (mkDay (st_next_id st) 0 0 "custom" "" "" false) with
      | Some _, Some _, Some d =>
          (inr (RItem (RawDay d)), bump (set_days (st_days st ++ [d]) st))
      | _, _, _ => (inl bad_request, st)
      end
  | Post c_slot body =>
      match zNumber body "day", zNumber body "order" with
      | Some day, Some order =>
          let s := mkSlot (st_next_id st) day order in
          (inr (RItem (RawSlot s)),
           bump (set_slots (st_slots st ++ [s]) (st_entries st) st))
      | _, _ => (inl bad_request, st)
      end
  | Post c_slot_entry body =>
      match zNumber body "slot", zNumber body "exercise", zNumber body "order",
            field_str body "comment" "" with
      | Some slot, Some exercise, Some order, Some comment =>
          let e := mkSlotEntry (st_next_id st) slot exercise order comment in
          (inr (RItem (RawSlotEntry e)),
           bump (set_slots (st_slots st) (st_entries st ++ [e]) st))
      | _, _, _, _ => (inl bad_request, st)
      end
  | Post (c_config k) body =>
      match zNumber body "slot_entry", prop body "value",
            patch_config body (mkConfig (st_next_id st) 0 1 JNull) with
      | Some _, Some _, Some c =>
          (inr (RItem (RawConfig c)),
           bump (set_configs k (st_configs k st ++ [c]) st))
      | _, _, _ => (inl bad_request, st)
      end
  | Patch c_day id body =>
      match find (fun d => day_id d =? id) (st_days st) with
      | Some d =>
          match patch_day body d with
          | Some d' =>
              (inr (RItem (RawDay d')),
               set_days (map (fun x => if day_id x =? id then d' else x) (st_days st)) st)
          | None => (inl bad_request, st)
          end
      | None => (inl not_found, st)
      end
  | Patch (c_config k) id body =>
      match find (fun c => config_id c =? id) (st_configs k st) with
      | Some c =>
          match patch_config body c with
          | Some c' =>
              (inr (RItem (RawConfig c')),
               set_configs k
                 (map (fun x => if config_id x =? id then c' else x) (st_configs k st)) st)
          | None => (inl bad_request, st)
          end
      | None => (inl not_found, st)
      end
  | Delete c_day id =>
      match find (fun d => day_id d =? id) (st_days st) with
      | Some _ =>
          (inr REmpty, set_days (filter (fun d => negb (day_id d =? id)) (st_days st)) st)
      | None => (inl not_found, st)
      end
  | Delete c_slot id =>
      match find (fun s => slot_id s =? id) (st_slots st) with
      | Some _ =>
          (inr REmpty,
           set_slots (filter (fun s => negb (slot_id s =? id)) (st_slots st))
                     (filter (fun e => negb (entry_slot e =? id)) (st_entries st)) st)
      | None => (inl not_found, st)
      end
  | _ => (inl not_allowed, st)
  end.

(** ** Predicates on programs *)

(** Every request that a program can issue satisfies [P]. *)
Inductive AllCalls (P : Request -> Prop) (A : Type) : Prog A -> Prop :=
| AllCalls_Ret (a : A) : AllCalls P (Ret a)
| AllCalls_Throw (e : Error) : AllCalls P (Throw e)
| AllCalls_Call (r : Request) (k : Response -> Prog A) :
    P r -> (forall resp, AllCalls P (k resp)) -> AllCalls P (Call r k).

(** A program that aborts as soon as a reply fails the check [ok]. *)
Inductive Guarded (ok : Request -> Response -> bool) (A : Type) : Prog A -> Prop :=
| Guarded_Ret (a : A) : Guarded ok (Ret a)
| Guarded_Throw (e : Error) : Guarded ok (Throw e)
| Guarded_Call (r : Request) (k : Response -> Prog A) :
    (forall resp, ok r resp = false ->
                  k resp = Throw ZodError \/ k resp = Throw TypeError) ->
    (forall resp, ok r resp = true -> Guarded ok (k resp)) ->
    Guarded ok (Call r k).


(** ** Vocabulary of the statements *)

(** The stored value of a field after a partial update that may or may
    not supply it. *)
Definition supplied {A : Type} (new : option A) (old : A) : A :=
  match new with
  | Some a => a
  | None => old
  end.

Definition is_some {A : Type} (o : option A) : bool :=
  match o with
  | Some _ => true
  | None => false
  end.

(** A create, update or delete on the day collection. *)
Definition day_write (r : Request) : bool :=
  match r with
  | Post c_day _ | Patch c_day _ _ | Delete c_day _ => true
  | _ => false
  end.

Definition is_delete (r : Request) : bool :=
  match r with
  | Delete _ _ => true
  | _ => false
  end.

(** Whether the reply to a request of [addExerciseToRoutine] passes the
    schema the handler parses it with. *)
Definition decodes (r : Request) (resp : Response) : bool :=
  match r, resp with
  | Get c_day _, RList rs => is_some (decode_all DaySchema rs)
  | Get c_day _, _ => false
  | Post c_day _, RItem x => is_some (DaySchema x)
  | Post c_slot _, RItem x => is_some (SlotSchema x)
  | Post c_slot_entry _, RItem x => is_some (SlotEntrySchema x)
  | Post (c_config k) _, RItem x => is_some (ConfigSchema k x)
  | Post _ _, _ => false
  | _, _ => true
  end.

(** ** The config upsert in the words of the spec (section 4.3) *)

Definition metric_name (k : ConfigKind) : string :=
  match k with
  | Sets => "sets"
  | Repetitions => "reps"
  | Weight => "weight"
  end.

(** "Weight values are serialized to their string representation before
    transmission; Sets/Repetitions are transmitted as numbers." *)
Definition wire_value (k : ConfigKind) (value : Z) : JVal :=
  match k with
  | Weight => JStr (Number_toString value)
  | _ => JNum value
  end.

(** [upsertMetric(slotEntryId, kind, value)]: fetch the configs filtered
    by [slot_entry]; if the result is non-empty issue a partial update of
    the value of the first element and report updated; else issue a
    create with [{slot_entry, iteration: 1, value}] and report created. *)
Definition upsertMetric (slotEntryId : Z) (k : ConfigKind) (value : Z) : Prog string :=
  res <- await (Get (c_config k) [("slot_entry", JNum slotEntryId)]) ;;
  rs <- results res ;;
  match rs with
  | r0 :: _ =>
      match as_Config r0 with
      | Some c0 =>
          await (Patch (c_config k) (config_id c0) [("value", wire_value k value)]) ;;
          Ret (String.append (metric_name k) " (updated)")
      | None => Throw TypeError
      end
  | [] =>
      await (Post (c_config k) [
        ("slot_entry", JNum slotEntryId);
        ("iteration", JNum 1);
        ("value", wire_value k value)
      ]) ;;
      Ret (String.append (metric_name k) " (created)")
  end.

(** The upsert is performed once per requested metric; each outcome is
    appended to the report. *)
Definition upsertSupplied (slotEntryId : Z) (k : ConfigKind) (value : option Z)
           (updates : list string) : Prog (list string) :=
  match value with
  | Some v =>
      label <- upsertMetric slotEntryId k v ;;
      Ret (updates ++ [label])
  | None => Ret updates
  end.

Definition updateExerciseInRoutine_spec (hasCredentials : bool) (args : JObj)
  : Prog UpdateResult :=
  if negb hasCredentials then Throw (AuthenticationError "Authentication required.") else
  input <- zod_parse UpdateExerciseSchema args ;;
  await Token ;;
  updates <- upsertSupplied (ue_slotEntryId input) Sets (ue_sets input) [] ;;
  updates <- upsertSupplied (ue_slotEntryId input) Repetitions (ue_reps input) updates ;;
  updates <- upsertSupplied (ue_slotEntryId input) Weight (ue_weight input) updates ;;
  Ret (mkUpdateResult true updates).

(** Two programs that behave alike against every remote. *)
Definition same_runs {A : Type} (p q : Prog A) : Prop :=
  forall (World : Type) (respond : World -> Request -> (Error + Response) * World)
         (w : World),
    run respond p w = run respond q w.

(** ** Vocabulary for sequences of upserts against the store *)

Definition created_label (k : ConfigKind) : string :=
  String.append (metric_name k) " (created)".

Definition updated_label (k : ConfigKind) : string :=
  String.append (metric_name k) " (updated)".

Definition metric_of (k : ConfigKind) (input : UpdateExerciseInput) : option Z :=
  match k with
  | Sets => ue_sets input
  | Repetitions => ue_reps input
  | Weight => ue_weight input
  end.

(** The stored configs of one kind that belong to a slot entry. *)
Definition configs_of (slotEntryId : Z) (k : ConfigKind) (st : Store) : list Config :=
  filter (fun c => config_slot_entry c =? slotEntryId) (st_configs k st).

(** The ids in use lie below the next id the store hands out. *)
Definition fresh_ids (k : ConfigKind) (st : Store) : Prop :=
  Forall (fun c => config_id c < st_next_id st) (st_configs k st).

(** The slot entry has one config of the kind, it holds [value], and no
    other config of the kind shares its id. *)
Definition sole_config (slotEntryId : Z) (k : ConfigKind) (value : JVal) (st : Store)
  : Prop :=
  exists c0 : Config,
    configs_of slotEntryId k st = [c0] /\
    config_value c0 = value /\
    forall x, In x (st_configs k st) -> config_id x = config_id c0 -> x = c0.

(** The arguments pass the schema, name the slot entry and supply the
    metric with value [v]. *)
Definition supplies (slotEntryId : Z) (k : ConfigKind) (args : JObj) (v : Z) : Prop :=
  exists input : UpdateExerciseInput,
    UpdateExerciseSchema args = Some input /\
    ue_slotEntryId input = slotEntryId /\
    metric_of k input = Some v.

Definition reports_created (k : ConfigKind) (r : UpdateResult) : Prop :=
  In (created_label k) (ur_updates r) /\ ~ In (updated_label k) (ur_updates r).

Definition reports_updated (k : ConfigKind) (r : UpdateResult) : Prop :=
  In (updated_label k) (ur_updates r) /\ ~ In (created_label k) (ur_updates r).

(** Sequential calls of [updateExerciseInRoutine] against the store. *)
Fixpoint run_calls (listing : DayListing) (calls : list JObj) (st : Store)
  : list (Outcome UpdateResult) * Store :=
  match calls with
  | [] => ([], st)
  | args :: rest =>
      match run (serve listing) (updateExerciseInRoutineHandler true args) st with
      | (o, st1, _) =>
          match run_calls listing rest st1 with
          | (os, st2) => (o :: os, st2)
          end
      end
  end.

(** What one upsert does to the store and to the report. *)
Inductive upsert_effect (slotEntryId : Z) (k : ConfigKind)
  : option Z -> Store -> list string -> Store -> list string -> Prop :=
| effect_none (st : Store) (u : list string) :
    upsert_effect slotEntryId k None st u st u
| effect_created (v : Z) (st st1 : Store) (u : list string) :
    configs_of slotEntryId k st = [] ->
    st_configs k st1
    = st_configs k st ++ [mkConfig (st_next_id st) slotEntryId 1 (wire_value k v)] ->
    (forall k', k' <> k -> st_configs k' st1 = st_configs k' st) ->
    st_next_id st <= st_next_id st1 ->
    upsert_effect slotEntryId k (Some v) st u st1 (u ++ [created_label k])
| effect_updated (v : Z) (st st1 : Store) (u : list string)
                 (c0 c1 : Config) (rest : list Config) :
    configs_of slotEntryId k st = c0 :: rest ->
    find (fun c => config_id c =? config_id c0) (st_configs k st) = Some c1 ->
    st_configs k st1
    = map (fun x => if config_id x =? config_id c0
                    then mkConfig (config_id c1) (config_slot_entry c1)
                                  (config_iteration c1) (wire_value k v)
                    else x)
          (st_configs k st) ->
    (forall k', k' <> k -> st_configs k' st1 = st_configs k' st) ->
    st_next_id st <= st_next_id st1 ->
    upsert_effect slotEntryId k (Some v) st u st1 (u ++ [updated_label k]).

(** ** Sample data *)

Definition empty_store : Store := mkStore [] [] [] [] [] [] [] 1.

(** What an operation throws on arguments its schema rejects. *)
Definition rejection (op : Operation) : Error :=
  match op with
  | addExerciseToRoutine => ValidationError "Invalid input for add_exercise_to_routine"
  | _ => ZodError
  end.

(** Two routines; the only day belongs to routine 2. *)
Definition store_two_routines : Store :=
  mkStore [mkRoutine 1 "Upper" ""; mkRoutine 2 "Lower" ""]
          [mkDay 7 2 1 "custom" "Squats" "Heavy" false]
          [] [] [] [] [] 100.

(** Routine 1 with one day whose name is the empty string. *)
Definition store_unnamed_day : Store :=
  mkStore [mkRoutine 1 "Upper" ""]
          [mkDay 5 1 1 "custom" "" "" false]
          [] [] [] [] [] 100.

Definition args_empty_dayName : JObj :=
  [("routineId", JNum 1); ("exerciseId", JNum 12); ("sets", JNum 3);
   ("reps", JNum 10); ("dayName", JStr "")].

(** Routine 1 with three days that the store lists in the order of the
    ids 3, 1, 2; day 1 has two slots, the first listed with the higher
    order, and its second slot has two entries listed out of order. *)
Definition store_shuffled : Store :=
  mkStore [mkRoutine 1 "Upper" ""]
          [mkDay 3 1 3 "custom" "C" "" false;
           mkDay 1 1 1 "custom" "A" "" false;
           mkDay 9 2 1 "custom" "Z" "" false;
           mkDay 2 1 2 "custom" "B" "" false]
          [mkSlot 11 1 2; mkSlot 12 1 1]
          [mkSlotEntry 21 12 40 2 ""; mkSlotEntry 22 12 41 1 ""]
          [mkConfig 31 22 1 (JNum 3)] [] [mkConfig 32 22 1 (JStr "50")]
          100.

Definition args_leg_day : JObj :=
  [("routineId", JNum 1); ("exerciseId", JNum 12); ("sets", JNum 3);
   ("reps", JNum 10); ("weight", JNum 50); ("dayName", JStr "Leg Day")].

Definition Collection_eqb (a b : Collection) : bool :=
  match a, b with
  | c_routine, c_routine | c_day, c_day | c_slot, c_slot
  | c_slot_entry, c_slot_entry => true
  | c_config k, c_config k' => ConfigKind_eqb k k'
  | _, _ => false
  end.

(** The store behind a remote that rejects every create on one
    collection. *)
Definition serve_rejecting (c : Collection) (st : Store) (r : Request)
  : (Error + Response) * Store :=
  match r with
  | Post c' _ =>
      if Collection_eqb c c'
      then (inl (ApiError 500 "Internal Server Error"), st)
      else serve ByRoutine st r
  | _ => serve ByRoutine st r
  end.

(** The remote listed [raws] in reply to [request] during the run. *)
Definition listed (log : list Exchange) (request : Request) (raws : list Raw) : Prop :=
  In (request, inr (RList raws)) log.

(** ** Vocabulary for further properties of the handlers *)

(** A request that reads: the token request or a GET. *)
Definition is_read (r : Request) : bool :=
  match r with
  | Token | Get _ _ | GetOne _ _ => true
  | _ => false
  end.

(** A request of [updateExerciseInRoutine] on the configs of one slot
    entry: a fetch filtered by it, a create for it, or a partial update of
    a value. *)
Definition config_request (slotEntryId : Z) (r : Request) : Prop :=
  r = Token \/
  exists k : ConfigKind,
    r = Get (c_config k) [("slot_entry", JNum slotEntryId)] \/
    (exists value : JVal,
        r = Post (c_config k)
              [("slot_entry", JNum slotEntryId); ("iteration", JNum 1);
               ("value", value)]) \/
    (exists (id : Z) (value : JVal), r = Patch (c_config k) id [("value", value)]).

(** The report of one metric: nothing when it was not supplied, else one
    of its two labels. *)
Definition metric_report (k : ConfigKind) (value : option Z) (l : list string) : Prop :=
  match value with
  | None => l = []
  | Some _ => l = [created_label k] \/ l = [updated_label k]
  end.

Definition count_supplied (input : UpdateExerciseInput) : nat :=
  (if is_some (ue_sets input) then 1 else 0)
  + (if is_some (ue_reps input) then 1 else 0)
  + (if is_some (ue_weight input) then 1 else 0).

(** The requests behind a tree: the token, the routine and the day list,
    one slot list per day, one entry list per slot and three config lists
    per entry. *)
Definition slot_requests (sn : SlotNode) : nat :=
  1 + 3 * List.length (sn_entries sn).

Definition day_requests (dn : DayNode) : nat :=
  1 + list_sum (map slot_requests (dn_slots dn)).

Definition tree_requests (tree : DetailedRoutine) : nat :=
  3 + list_sum (map day_requests (dr_days tree)).

(** The days of a routine in the store, by the name that
    [addExerciseToRoutine] looks for. *)
Definition days_in (routineId : Z) (st : Store) : list Day :=
  filter (fun d => day_routine d =? routineId) (st_days st).

Definition day_named (name : string) (routineId : Z) (st : Store) : option Day :=
  find (fun d => String.eqb (day_name d) name) (days_in routineId st).

(** The slot that [addExerciseToRoutine] creates in a store, under a
    given day. *)
Definition new_slot (st : Store) (day : Day) : Slot :=
  mkSlot (st_next_id st) (day_id day) 1.

(** ** The tool definitions *)

Inductive SchemaType : Type := TNumber | TString | TBoolean.

(** One entry of [inputSchema.properties]; the description texts of the
    properties are documentation and are left out. *)
Record PropertySchema : Type := mkProperty {
  ps_type : SchemaType;
  ps_minimum : option Z;
  ps_maximum : option Z;
  ps_maxLength : option nat }.

Definition number_property : PropertySchema := mkProperty TNumber None None None.
Definition string_property : PropertySchema := mkProperty TString None None None.
Definition boolean_property : PropertySchema := mkProperty TBoolean None None None.

(** A [Tool]: name, description and the object schema of its input. *)
Record Tool : Type := mkTool {
  tool_name : string;
  tool_description : string;
  tool_properties : list (string * PropertySchema);
  tool_required : list string }.

Definition addDayToRoutineTool : Tool :=
  mkTool "add_day_to_routine"
         "Add a new day to an existing workout routine."
         [("routineId", number_property);
          ("description", string_property);
          ("is_rest", boolean_property)]
         ["routineId"; "description"].

Definition updateDayTool : Tool :=
  mkTool "update_day"
         "Update the details of a specific day in a routine."
         [("dayId", number_property);
          ("description", string_property);
          ("is_rest", boolean_property);
          ("name", string_property)]
         ["dayId"].

Definition deleteDayTool : Tool :=
  mkTool "delete_day"
         "Remove a day from a routine."
         [("dayId", number_property)]
         ["dayId"].

Definition addExerciseToRoutineTool : Tool :=
  mkTool "add_exercise_to_routine"
         "Add an exercise to an existing workout routine with specified sets, reps, weight, and order. Automatically creates a day and slot if needed. Returns the created slot entry details."
         [("routineId", number_property);
          ("exerciseId", number_property);
          ("sets", mkProperty TNumber (Some 1) (Some 10) None);
          ("reps", mkProperty TNumber (Some 1) (Some 100) None);
          ("weight", mkProperty TNumber (Some 0) None None);
          ("dayName", string_property);
          ("comment", mkProperty TString None None (Some 100%nat))]
         ["routineId"; "exerciseId"; "sets"; "reps"].

Definition deleteSlotTool : Tool :=
  mkTool "delete_slot"
         "Remove a slot (containing an exercise) from a routine day."
         [("slotId", number_property)]
         ["slotId"].

Definition getRoutineDetailsTool : Tool :=
  mkTool "get_routine_details"
         "Fetch detailed information about a routine, including its days, slots, and exercises (slot entries). Useful for understanding the full schedule of a routine."
         [("routineId", number_property)]
         ["routineId"].

Definition updateExerciseInRoutineTool : Tool :=
  mkTool "update_exercise_in_routine"
         "Update the configuration (sets, reps, weight) for an exercise already in a routine."
         [("slotEntryId", number_property);
          ("sets", number_property);
          ("reps", number_property);
          ("weight", number_property)]
         ["slotEntryId"].

(** The tool that goes with each handler. *)
Definition tool_of (op : Operation) : Tool :=
  match op with
  | addDay => addDayToRoutineTool
  | updateDay => updateDayTool
  | deleteDay => deleteDayTool
  | addExerciseToRoutine => addExerciseToRoutineTool
  | updateExerciseInRoutine => updateExerciseInRoutineTool
  | deleteSlot => deleteSlotTool
  | getRoutineDetails => getRoutineDetailsTool
  end.

(** Whether a value is an instance of a property schema (JSON Schema:
    [type], [minimum], [maximum], [maxLength]). *)
Definition instance_of (ps : PropertySchema) (v : JVal) : bool :=
  match ps_type ps, v with
  | TNumber, JNum z =>
      match ps_minimum ps with Some lo => lo <=? z | None => true end
      && match ps_maximum ps with Some hi => z <=? hi | None => true end
  | TString, JStr s =>
      match ps_maxLength ps with
      | Some n => (String.length s <=? n)%nat
      | None => true
      end
  | TBoolean, JBool _ => true
  | _, _ => false
  end.

(** Whether an argument object is an instance of the input schema of a
    tool: the required properties are present and every declared
    property that is present is an instance of its schema. *)
Definition conforms (tool : Tool) (args : JObj) : bool :=
  forallb (fun k => is_some (prop args k)) (tool_required tool)
  && forallb (fun kp => match prop args (fst kp) with
                        | Some v => instance_of (snd kp) v
                        | None => true
                        end) (tool_properties tool).

(** ** server.ts: [WgerMCPServer] *)

(** [content: [{ type: 'text', text }]] and the optional [isError]. *)
Record CallToolResult : Type := mkCallToolResult {
  result_text : string;
  result_isError : option bool }.

Section Server.
(** What a handler resolves to ([Promise<unknown>]), and the two
    functions the server applies to an outcome: [JSON.stringify(result,
    null, 2)] and [getUserFriendlyMessage] of utils/errors, which is not
    among the sources. *)
Variable R : Type.
Variable stringify : R -> string.
Variable getUserFriendlyMessage : Error -> string.

Definition ToolHandler : Type := JObj -> Prog R.

Record Registered : Type := mkRegistered {
  definition : Tool;
  tool_handler : ToolHandler }.

(** [Map<string, {definition, handler}>]: the entries in insertion order. *)
Definition ToolMap : Type := list (string * Registered).

(** [Map.prototype.set]: a present key keeps its place and takes the new
    value, a new key goes to the end. *)
Fixpoint Map_set (m : ToolMap) (k : string) (v : Registered) : ToolMap :=
  match m with
  | [] => [(k, v)]
  | (k', v') :: rest =>
      if String.eqb k' k then (k, v) :: rest else (k', v') :: Map_set rest k v
  end.

Fixpoint Map_get (m : ToolMap) (k : string) : option Registered :=
  match m with
  | [] => None
  | (k', v) :: rest => if String.eqb k' k then Some v else Map_get rest k
  end.

Definition registerTool (tools : ToolMap) (tool : Tool) (handler : ToolHandler)
  : ToolMap :=
  Map_set tools (tool_name tool) (mkRegistered tool handler).

(** The [list_tools] request. *)
Definition list_tools (tools : ToolMap) : list Tool :=
  map (fun kv => definition (snd kv)) tools.

Definition getToolCount (tools : ToolMap) : nat := List.length tools.

Variable World : Type.
Variable respond : World -> Request -> (Error + Response) * World.

(** The [call_tool] request.  [arguments] may be missing, in which case
    the handler gets the empty object; the [try]/[catch] turns whatever
    the handler throws into an error result. *)
Definition call_tool (tools : ToolMap) (toolName : string) (arguments : option JObj)
           (w : World) : CallToolResult * World * list Exchange :=
  match Map_get tools toolName with
  | None =>
      (mkCallToolResult (String.append "Unknown tool: " toolName) (Some true), w, [])
  | Some tool =>
      let args := match arguments with Some a => a | None => [] end in
      match run respond (tool_handler tool args) w with
      | (Returned result, w', log) =>
          (mkCallToolResult (stringify result) None, w', log)
      | (Thrown error, w', log) =>
          (mkCallToolResult (String.append "Error: " (getUserFriendlyMessage error))
                            (Some true), w', log)
      end
  end.
End Server.

Section CreateServer.
(** The eight tools whose modules are not among the sources, each as the
    pair of definition and handler that server.ts imports, and what their
    handlers resolve to. *)
Variable Other : Type.
Variable listCategories listMuscles listEquipment searchExercises
         getExerciseDetails createWorkout getUserRoutines diagnose
  : Tool * (JObj -> Prog Other).

Definition absent_tools : list (Tool * (JObj -> Prog Other)) :=
  [listCategories; listMuscles; listEquipment; searchExercises;
   getExerciseDetails; createWorkout; getUserRoutines; diagnose].

Definition register_absent (tools : ToolMap (ToolResult + Other))
           (t : Tool * (JObj -> Prog Other)) : ToolMap (ToolResult + Other) :=
  registerTool tools (fst t) (fun args => fmap inr (snd t args)).

Definition register_present (hasCredentials : bool)
           (tools : ToolMap (ToolResult + Other)) (op : Operation)
  : ToolMap (ToolResult + Other) :=
  registerTool tools (tool_of op) (fun args => fmap inl (handler op hasCredentials args)).

(** [createServer()]: the registrations in the order of the source. *)
Definition createServer (hasCredentials : bool) : ToolMap (ToolResult + Other) :=
  let server := [] in
  (* Register exercise discovery tools *)
  let server := register_absent server listCategories in
  let server := register_absent server listMuscles in
  let server := register_absent server listEquipment in
  let server := register_absent server searchExercises in
  let server := register_absent server getExerciseDetails in
  (* Register workout routine management tools *)
  let server := register_absent server createWorkout in
  let server := register_present hasCredentials server addExerciseToRoutine in
  let server := register_absent server getUserRoutines in
  let server := register_present hasCredentials server getRoutineDetails in
  let server := register_present hasCredentials server addDay in
  let server := register_present hasCredentials server updateDay in
  let server := register_present hasCredentials server deleteDay in
  let server := register_present hasCredentials server updateExerciseInRoutine in
  (* Register diagnostic tool *)
  let server := register_absent server diagnose in
  server.
End CreateServer.

(** The names under which README.md lists the tools of the absent
    modules, with handlers that do nothing. *)
Definition named_tool (name : string) : Tool * (JObj -> Prog unit) :=
  (mkTool name "" [] [], fun _ => Ret tt).

Definition sample_server (hasCredentials : bool) : ToolMap (ToolResult + unit) :=
  createServer (named_tool "list_categories") (named_tool "list_muscles")
               (named_tool "list_equipment") (named_tool "search_exercises")
               (named_tool "get_exercise_details") (named_tool "create_workout")
               (named_tool "get_user_routines") (named_tool "diagnose")
               hasCredentials.

(** ** Sample calls *)

Definition args_update_sets_weight : JObj :=
  [("slotEntryId", JNum 22); ("sets", JNum 4); ("weight", JNum 60)].

Definition args_update_sets_reps : JObj :=
  [("slotEntryId", JNum 21); ("sets", JNum 3); ("reps", JNum 10)].


Definition sample_stringify (r : ToolResult + unit) : string := "{}".

Definition sample_message (e : Error) : string :=
  match e with
  | AuthenticationError message => message
  | ValidationError message => message
  | ApiError _ message => message
  | ZodError => "ZodError"
  | TypeError => "TypeError"
  end.
(** * Properties *)

Unset Implicit Arguments.

(** ** Running programs *)

Section RunFacts.
Variable World : Type.
Variable respond : World -> Request -> (Error + Response) * World.

Lemma run_bind (A B : Type) (p : Prog A) (f : A -> Prog B) (w : World) :
  run respond (bind p f) w =
  match run respond p w with
  | (Returned a, w1, l1) =>
      match run respond (f a) w1 with
      | (o, w2, l2) => (o, w2, l1 ++ l2)
      end
  | (Thrown e, w1, l1) => (Thrown e, w1, l1)
  end.
Proof.
  revert w; induction p as [a | e | r k IH]; intro w; simpl.
  - destruct (run respond (f a) w) as [[o w2] l2]; reflexivity.
  - reflexivity.
  - destruct (respond w r) as [[e | resp] w1]; [reflexivity|].
    rewrite IH.
    destruct (run respond (k resp) w1) as [[[a | e] w2] l1]; [|reflexivity].
    destruct (run respond (f a) w2) as [[o w3] l2]; reflexivity.
Qed.

Lemma run_bind_Returned (A B : Type) (p : Prog A) (f : A -> Prog B)
      (w w2 : World) (b : B) (log : list Exchange) :
  run respond (bind p f) w = (Returned b, w2, log) ->
  exists a w1 l1 l2,
    run respond p w = (Returned a, w1, l1) /\
    run respond (f a) w1 = (Returned b, w2, l2) /\
    log = l1 ++ l2.
Proof.
  rewrite run_bind.
  destruct (run respond p w) as [[[a | e] w1] l1]; [|discriminate].
  destruct (run respond (f a) w1) as [[o w3] l2] eqn:E.
  intro H; inversion H; subst.
  exists a, w1, l1, l2; auto.
Qed.

Lemma run_await (r : Request) (w : World) :
  run respond (await r) w =
  match respond w r with
  | (inl e, w1) => (Thrown e, w1, [(r, inl e)])
  | (inr resp, w1) => (Returned resp, w1, [(r, inr resp)])
  end.
Proof.
  unfold await; simpl. destruct (respond w r) as [[e | resp] w1]; reflexivity.
Qed.

(** A rejected call is the last exchange of a run, and the run throws
    exactly the error of the rejection. *)
Lemma rejected_is_last (A : Type) (p : Prog A) :
  forall (w w' : World) (o : Outcome A) (log : list Exchange),
    run respond p w = (o, w', log) ->
    forall (i : nat) (r : Request) (e : Error),
      nth_error log i = Some (r, inl e) ->
      o = Thrown e /\ List.length log = S i.
Proof.
  induction p as [a | e0 | r0 k IH]; intros w w' o log Hrun i r e Hnth; simpl in Hrun.
  - inversion Hrun; subst. destruct i; discriminate.
  - inversion Hrun; subst. destruct i; discriminate.
  - destruct (respond w r0) as [[e1 | resp] w1].
    + inversion Hrun; subst.
      destruct i as [|i]; simpl in Hnth.
      * inversion Hnth; subst; auto.
      * destruct i; discriminate.
    + destruct (run respond (k resp) w1) as [[o1 w2] l1] eqn:E.
      inversion Hrun; subst.
      destruct i as [|i]; simpl in Hnth; [discriminate|].
      destruct (IH resp _ _ _ _ E _ _ _ Hnth) as [Ho Hlen].
      split; [assumption | simpl; congruence].
Qed.

Lemma AllCalls_bind (P : Request -> Prop) (A B : Type)
      (p : Prog A) (f : A -> Prog B) :
  AllCalls P p -> (forall a, AllCalls P (f a)) -> AllCalls P (bind p f).
Proof.
  intros Hp Hf; induction Hp; simpl; auto using AllCalls_Throw, AllCalls_Call.
Qed.

Lemma AllCalls_run (P : Request -> Prop) (A : Type) (p : Prog A) :
  AllCalls P p ->
  forall (w w' : World) (o : Outcome A) (log : list Exchange),
    run respond p w = (o, w', log) ->
    Forall (fun x => P (fst x)) log.
Proof.
  induction 1 as [a | e | r k Hr Hk IH]; intros w w' o log Hrun; simpl in Hrun.
  - inversion Hrun; constructor.
  - inversion Hrun; constructor.
  - destruct (respond w r) as [[e | resp] w1].
    + inversion Hrun; subst. repeat constructor; assumption.
    + destruct (run respond (k resp) w1) as [[o1 w2] l1] eqn:E.
      inversion Hrun; subst. constructor; [assumption | eauto].
Qed.

Lemma Guarded_run (ok : Request -> Response -> bool) (A : Type) (p : Prog A) :
  Guarded ok p ->
  forall (w w' : World) (o : Outcome A) (log : list Exchange),
    run respond p w = (o, w', log) ->
    forall (i : nat) (r : Request) (resp : Response),
      nth_error log i = Some (r, inr resp) ->
      ok r resp = false ->
      (o = Thrown ZodError \/ o = Thrown TypeError) /\ List.length log = S i.
Proof.
  induction 1 as [a | e | r0 k Hbad Hgood IH];
    intros w w' o log Hrun i r resp Hnth Hok; simpl in Hrun.
  - inversion Hrun; subst. destruct i; discriminate.
  - inversion Hrun; subst. destruct i; discriminate.
  - destruct (respond w r0) as [[e1 | resp0] w1].
    + inversion Hrun; subst.
      destruct i as [|[|i]]; simpl in Hnth; discriminate.
    + destruct (run respond (k resp0) w1) as [[o1 w2] l1] eqn:E.
      inversion Hrun; subst.
      destruct i as [|i]; simpl in Hnth.
      * inversion Hnth; subst.
        destruct (Hbad _ Hok) as [Hk | Hk]; rewrite Hk in E; simpl in E;
          inversion E; subst; auto.
      * destruct (ok r0 resp0) eqn:Hok0.
        -- destruct (IH _ Hok0 _ _ _ _ E _ _ _ Hnth Hok) as [Ho Hlen].
           split; [assumption | simpl; congruence].
        -- destruct (Hbad _ Hok0) as [Hk | Hk]; rewrite Hk in E; simpl in E;
             inversion E; subst; destruct i; discriminate.
Qed.

(** What [Promise.all] returns lines up with its inputs. *)
Lemma Promise_all_Returned (A B : Type) (f : A -> Prog B) (xs : list A) :
  forall (w w' : World) (ys : list B) (log : list Exchange),
    run respond (Promise_all f xs) w = (Returned ys, w', log) ->
    Forall2 (fun x y => exists w1 w2 l, run respond (f x) w1 = (Returned y, w2, l))
            xs ys.
Proof.
  induction xs as [|x rest IH]; intros w w' ys log Hrun; simpl in Hrun.
  - inversion Hrun; constructor.
  - apply run_bind_Returned in Hrun.
    destruct Hrun as (y & w1 & l1 & l2 & Hx & Hrest & _).
    apply run_bind_Returned in Hrest.
    destruct Hrest as (ys' & w2 & l3 & l4 & Hys & Hret & _).
    simpl in Hret; inversion Hret; subst.
    constructor; eauto.
Qed.
End RunFacts.

(** ** Authentication and validation come first *)

(** C7: for each of the seven operations and every input, when
    [hasCredentials()] is false the handler throws an AuthenticationError;
    the log of the run is empty, so no remote call (not even the token
    request) was issued, and the remote is left in the state it was in. *)
Theorem no_credentials_no_remote_call :
  forall (World : Type) (respond : World -> Request -> (Error + Response) * World)
         (op : Operation) (args : JObj) (w : World),
  exists message : string,
    run respond (handler op false args) w
    = (Thrown (AuthenticationError message), w, []).
Proof.
  intros World respond op args w.
  destruct op; simpl; eexists; reflexivity.
Qed.

(** C8, as stated, fails: with credentials present, [addDay] on the empty
    argument object (no [routineId]) is rejected by its schema, and what
    it throws is the schema library's error, not a ValidationError. *)
Lemma addDay_rejection_is_not_ValidationError :
  accepts addDay [] = false /\
  fst (fst (run (serve ByRoutine) (handler addDay true []) empty_store))
  = Thrown ZodError /\
  ~ (exists message : string,
        fst (fst (run (serve ByRoutine) (handler addDay true []) empty_store))
        = Thrown (ValidationError message)).
Proof.
  split; [reflexivity|]. split; [reflexivity|].
  intros [message H]. vm_compute in H. discriminate H.
Qed.

(** C8, amended: with credentials present, arguments that fail the schema
    of an operation make it throw before any remote call (empty log,
    remote unchanged); [addExerciseToRoutine] throws a ValidationError,
    the six other operations throw the schema library's ZodError. *)
Theorem invalid_input_no_remote_call :
  forall (World : Type) (respond : World -> Request -> (Error + Response) * World)
         (op : Operation) (args : JObj) (w : World),
    accepts op args = false ->
    run respond (handler op true args) w = (Thrown (rejection op), w, []).
Proof.
  intros World respond op args w Hrej.
  destruct op; simpl in *; unfold fmap.
  - unfold addDayToRoutineHandler, zod_parse; simpl.
    destruct (AddDaySchema args); [discriminate | reflexivity].
  - unfold updateDayHandler, zod_parse; simpl.
    destruct (UpdateDaySchema args); [discriminate | reflexivity].
  - unfold deleteDayHandler, zod_parse; simpl.
    destruct (DeleteDaySchema args); [discriminate | reflexivity].
  - unfold addExerciseToRoutineHandler; simpl.
    destruct (AddExerciseToRoutineSchema args); [discriminate | reflexivity].
  - unfold updateExerciseInRoutineHandler, zod_parse; simpl.
    destruct (UpdateExerciseSchema args); [discriminate | reflexivity].
  - unfold deleteSlotHandler, zod_parse; simpl.
    destruct (DeleteSlotSchema args); [discriminate | reflexivity].
  - unfold getRoutineDetailsHandler, zod_parse; simpl.
    destruct (GetRoutineDetailsSchema args); [discriminate | reflexivity].
Qed.

Lemma invalid_input_no_remote_call_witness :
  accepts updateDay [("dayId", JStr "seven")] = false /\
  run (serve ByRoutine) (handler updateDay true [("dayId", JStr "seven")]) empty_store
  = (Thrown ZodError, empty_store, []).
Proof.
  split; [reflexivity|].
  apply (invalid_input_no_remote_call Store (serve ByRoutine) updateDay
           [("dayId", JStr "seven")] empty_store).
  reflexivity.
Defined.

(** ** Strings *)


Lemma substring_prefix_empty (s : string) (m : nat) :
  substring 0 (S m) s = "" -> s = "".
Proof.
  destruct s; simpl; [reflexivity | discriminate].
Qed.

Lemma or_else_nonempty (s d : string) :
  s <> "" -> or_else (Some s) d = s.
Proof.
  intro Hs; unfold or_else.
  destruct (String.eqb_spec s ""); [contradiction | reflexivity].
Qed.




(** ** Adding a day *)



(** Against a store whose day listing applies the [routine] filter,
    [addDay] appends: the new day gets the number of days of the routine
    plus one. *)
Lemma addDay_appends_when_listing_filters :
  forall (st : Store) (args : JObj) (input : AddDayInput),
    AddDaySchema args = Some input ->
    exists (d : Day) (log : list Exchange),
      run (serve ByRoutine) (addDayToRoutineHandler true args) st
      = (Returned d, bump (set_days (st_days st ++ [d]) st), log) /\
      day_routine d = ad_routineId input /\
      day_order d =
        Z.of_nat (List.length
          (filter (fun x => day_routine x =? ad_routineId input) (st_days st))) + 1.
Proof.
  intros st args input Hschema.
  unfold addDayToRoutineHandler, zod_parse; rewrite Hschema.
  destruct (ad_description input) as [descr|] eqn:Hd.
  - cbn. rewrite Hd. cbn. rewrite length_map.
    eexists; eexists; split; [reflexivity|]. split; reflexivity.
  - cbn. rewrite Hd. cbn. rewrite length_map.
    eexists; eexists; split; [reflexivity|]. split; reflexivity.
Qed.

Lemma addDay_twice_when_listing_filters :
  forall (st : Store) (args1 args2 : JObj) (input1 input2 : AddDayInput),
    AddDaySchema args1 = Some input1 ->
    AddDaySchema args2 = Some input2 ->
    ad_routineId input2 = ad_routineId input1 ->
    exists (d1 d2 : Day) (st1 st2 : Store) (log1 log2 : list Exchange),
      run (serve ByRoutine) (addDayToRoutineHandler true args1) st
      = (Returned d1, st1, log1) /\
      run (serve ByRoutine) (addDayToRoutineHandler true args2) st1
      = (Returned d2, st2, log2) /\
      day_order d1 =
        Z.of_nat (List.length
          (filter (fun x => day_routine x =? ad_routineId input1) (st_days st))) + 1 /\
      day_order d2 = day_order d1 + 1.
Proof.
  intros st args1 args2 input1 input2 H1 H2 Hsame.
  destruct (addDay_appends_when_listing_filters st args1 input1 H1)
    as (d1 & log1 & Hrun1 & Hr1 & Ho1).
  destruct (addDay_appends_when_listing_filters
              (bump (set_days (st_days st ++ [d1]) st)) args2 input2 H2)
    as (d2 & log2 & Hrun2 & Hr2 & Ho2).
  exists d1, d2; do 2 eexists; exists log1, log2.
  split; [exact Hrun1|]. split; [exact Hrun2|]. split; [exact Ho1|].
  rewrite Ho2, Ho1, Hsame. cbn [bump set_days st_days].
  rewrite filter_app, length_app. cbn [filter].
  rewrite Hr1, Z.eqb_refl. cbn [List.length]. lia.
Qed.

(** C4, at a store where routine 1 holds no day and the day listing
    returns the days of every routine (the behaviour the sibling handlers
    filter against): [addDay] on routine 1 counts the foreign day and
    creates the first day of the routine with order 2. *)
Theorem addDay_counts_days_of_other_routines :
  List.length (filter (fun d => day_routine d =? 1) (st_days store_two_routines))
  = 0%nat /\
  exists (d : Day) (st' : Store) (log : list Exchange),
    run (serve AllDays)
        (addDayToRoutineHandler true [("routineId", JNum 1); ("description", JStr "Push")])
        store_two_routines
    = (Returned d, st', log) /\
    day_routine d = 1 /\
    day_order d = 2.
Proof.
  split; [reflexivity|].
  do 3 eexists. split; [vm_compute; reflexivity|]. split; reflexivity.
Qed.

(** ** Updating a day *)

(** C9: [updateDay] sends a partial update whose body holds exactly the
    fields that were supplied, and on a stored day the store replaces
    exactly those; with only a name supplied the stored description and
    is_rest (and routine, order and type) are what they were, and every
    other day is untouched. *)
Theorem updateDay_keeps_unsupplied_fields :
  forall (listing : DayListing) (st : Store) (args : JObj)
         (input : UpdateDayInput) (d : Day),
    UpdateDaySchema args = Some input ->
    find (fun x => day_id x =? ud_dayId input) (st_days st) = Some d ->
    exists (d' : Day) (st' : Store) (log : list Exchange) (body : JObj),
      run (serve listing) (updateDayHandler true args) st = (Returned d', st', log) /\
      map fst log = [Token; Patch c_day (ud_dayId input) body] /\
      prop body "name" = option_map JStr (ud_name input) /\
      prop body "description" = option_map JStr (ud_description input) /\
      prop body "is_rest" = option_map JBool (ud_is_rest input) /\
      st_days st' = map (fun x => if day_id x =? ud_dayId input then d' else x) (st_days st) /\
      day_id d' = day_id d /\
      day_routine d' = day_routine d /\
      day_order d' = day_order d /\
      day_type d' = day_type d /\
      day_name d' = supplied (ud_name input) (day_name d) /\
      day_description d' = supplied (ud_description input) (day_description d) /\
      day_is_rest d' = supplied (ud_is_rest input) (day_is_rest d).
Proof.
  intros listing st args [dayId description is_rest name] d Hschema Hfind.
  unfold updateDayHandler, zod_parse; rewrite Hschema.
  cbn [ud_dayId] in Hfind.
  destruct description, is_rest, name; cbn; rewrite Hfind; cbn;
    do 4 eexists; (split; [reflexivity|]); (split; [reflexivity|]);
    cbn; repeat split; reflexivity.
Qed.

(** ** Adding an exercise *)

Lemma AllCalls_await (P : Request -> Prop) (r : Request) :
  P r -> AllCalls P (await r).
Proof.
  intro H; unfold await; constructor; [assumption | intro; constructor].
Qed.

Lemma AllCalls_parse (P : Request -> Prop) (A : Type)
      (schema : Raw -> option A) (resp : Response) :
  AllCalls P (parse schema resp).
Proof.
  destruct resp as [rs | item |]; simpl; try constructor.
  destruct (schema item); constructor.
Qed.

Lemma AllCalls_results (P : Request -> Prop) (resp : Response) :
  AllCalls P (results resp).
Proof. destruct resp; simpl; constructor. Qed.

Lemma AllCalls_parse_all (P : Request -> Prop) (A : Type)
      (schema : Raw -> option A) (rs : list Raw) :
  AllCalls P (parse_all schema rs).
Proof. unfold parse_all; destruct (decode_all schema rs); constructor. Qed.

Lemma createExerciseChain_calls (P : Request -> Prop)
      (input : AddExerciseToRoutineInput) (day : Day) :
  (forall body, P (Post c_slot body)) ->
  (forall body, P (Post c_slot_entry body)) ->
  (forall k body, P (Post (c_config k) body)) ->
  AllCalls P (createExerciseChain input day).
Proof.
  intros Hslot Hentry Hconfig. unfold createExerciseChain.
  repeat first
    [ apply AllCalls_Ret
    | apply AllCalls_parse
    | apply AllCalls_await; auto
    | apply AllCalls_bind; [|intro]
    | match goal with
      | |- AllCalls _ (match ?x with _ => _ end) => destruct x
      end ].
Qed.

Lemma addExercise_calls (P : Request -> Prop) (hasCredentials : bool) (args : JObj) :
  P Token ->
  (forall params, P (Get c_day params)) ->
  (forall c body, P (Post c body)) ->
  AllCalls P (addExerciseToRoutineHandler hasCredentials args).
Proof.
  intros Htoken Hget Hpost. unfold addExerciseToRoutineHandler.
  destruct hasCredentials; cbn [negb]; [|constructor].
  apply AllCalls_bind;
    [destruct (AddExerciseToRoutineSchema args); constructor | intro input].
  apply AllCalls_bind; [apply AllCalls_await; assumption | intros _].
  apply AllCalls_bind.
  - unfold findOrCreateDay.
    repeat first
      [ apply AllCalls_Ret
      | apply AllCalls_parse
      | apply AllCalls_results
      | apply AllCalls_parse_all
      | apply AllCalls_await; auto
      | apply AllCalls_bind; [|intro]
      | match goal with
        | |- AllCalls _ (match ?x with _ => _ end) => destruct x
        end ].
  - intro day. apply createExerciseChain_calls; auto.
Qed.

Lemma Guarded_bind (ok : Request -> Response -> bool) (A B : Type)
      (p : Prog A) (f : A -> Prog B) :
  Guarded ok p -> (forall a, Guarded ok (f a)) -> Guarded ok (bind p f).
Proof.
  intros Hp Hf; induction Hp as [a | e | r k Hbad Hgood IH]; simpl.
  - apply Hf.
  - constructor.
  - constructor.
    + intros resp Hresp.
      destruct (Hbad resp Hresp) as [H | H]; rewrite H; simpl; auto.
    + intros resp Hresp. apply IH; assumption.
Qed.

Lemma Guarded_await_parse (ok : Request -> Response -> bool) (r : Request)
      (A B : Type) (schema : Raw -> option A) (rest : A -> Prog B) :
  (forall resp, ok r resp = match resp with
                            | RItem x => is_some (schema x)
                            | _ => false
                            end) ->
  (forall a, Guarded ok (rest a)) ->
  Guarded ok (bind (await r) (fun x => bind (parse schema x) rest)).
Proof.
  intros Hok Hrest. unfold await; simpl. constructor.
  - intros resp Hbad. rewrite Hok in Hbad.
    destruct resp as [rs | item |]; simpl; auto.
    destruct (schema item); [discriminate | auto].
  - intros resp Hgood. rewrite Hok in Hgood.
    destruct resp as [rs | item |]; simpl; try discriminate.
    destruct (schema item); [apply Hrest | discriminate].
Qed.

Lemma createExerciseChain_guarded (input : AddExerciseToRoutineInput) (day : Day) :
  Guarded decodes (createExerciseChain input day).
Proof.
  unfold createExerciseChain.
  apply Guarded_await_parse; [intros []; reflexivity | intro slot].
  apply Guarded_await_parse; [intros []; reflexivity | intro slotEntry].
  apply Guarded_await_parse; [intros []; reflexivity | intro setsConfig].
  apply Guarded_await_parse; [intros []; reflexivity | intro repsConfig].
  apply Guarded_bind; [|intro; constructor].
  destruct (ae_weight input) as [weight|]; [|constructor].
  apply Guarded_await_parse; [intros []; reflexivity | intro; constructor].
Qed.

Lemma findOrCreateDay_guarded (routineId : Z) (dayNameToUse : string) :
  Guarded decodes (findOrCreateDay routineId dayNameToUse).
Proof.
  unfold findOrCreateDay, await; simpl. constructor.
  - intros resp Hbad.
    destruct resp as [rs | item |]; simpl in *; auto.
    unfold parse_all. destruct (decode_all DaySchema rs); [discriminate | auto].
  - intros resp Hgood.
    destruct resp as [rs | item |]; simpl in *; try discriminate.
    unfold parse_all. destruct (decode_all DaySchema rs) as [parsed|]; [|discriminate].
    simpl.
    destruct (find _ _); [constructor|].
    constructor.
    + intros resp Hbad. destruct resp as [rs' | item |]; simpl in *; auto.
      destruct (DaySchema item); [discriminate | auto].
    + intros resp Hok. destruct resp as [rs' | item |]; simpl in *; try discriminate.
      destruct (DaySchema item); [constructor | discriminate].
Qed.

Lemma addExercise_guarded (hasCredentials : bool) (args : JObj) :
  Guarded decodes (addExerciseToRoutineHandler hasCredentials args).
Proof.
  unfold addExerciseToRoutineHandler.
  destruct hasCredentials; cbn [negb]; [|constructor].
  apply Guarded_bind;
    [destruct (AddExerciseToRoutineSchema args); constructor | intro input].
  unfold await at 1. cbn [bind]. constructor; [intros resp H; discriminate H|].
  intros t _.
  apply Guarded_bind; [apply findOrCreateDay_guarded | intro day].
  apply createExerciseChain_guarded.
Qed.

(** C6: in every run of [addExerciseToRoutine], a rejected request is the
    last exchange of the run and its error is what the handler throws; a
    reply that fails its schema is the last exchange too and the handler
    throws the decode error; and no delete request is issued at any
    point, so what earlier steps created stays in the store. *)
Theorem addExercise_aborts_without_cleanup :
  forall (World : Type) (respond : World -> Request -> (Error + Response) * World)
         (hasCredentials : bool) (args : JObj) (w w' : World)
         (o : Outcome AddExerciseResult) (log : list Exchange),
    run respond (addExerciseToRoutineHandler hasCredentials args) w = (o, w', log) ->
    (forall (i : nat) (r : Request) (e : Error),
        nth_error log i = Some (r, inl e) ->
        o = Thrown e /\ List.length log = S i) /\
    (forall (i : nat) (r : Request) (resp : Response),
        nth_error log i = Some (r, inr resp) ->
        decodes r resp = false ->
        (o = Thrown ZodError \/ o = Thrown TypeError) /\ List.length log = S i) /\
    (forall x : Exchange, In x log -> is_delete (fst x) = false).
Proof.
  intros World respond creds args w w' o log Hrun.
  split; [|split].
  - intros i r e Hnth. eapply rejected_is_last; eassumption.
  - intros i r resp Hnth Hbad.
    eapply Guarded_run; try eassumption. apply addExercise_guarded.
  - apply Forall_forall.
    apply (AllCalls_run World respond (fun r => is_delete r = false) _ _
             (addExercise_calls _ creds args eq_refl
                (fun _ => eq_refl) (fun _ _ => eq_refl)) w w' o log Hrun).
Qed.

(** How a run of step 1 goes. *)
Lemma findOrCreateDay_run :
  forall (World : Type) (respond : World -> Request -> (Error + Response) * World)
         (routineId : Z) (dayNameToUse : string) (w w' : World)
         (o : Outcome Day) (log : list Exchange),
    run respond (findOrCreateDay routineId dayNameToUse) w = (o, w', log) ->
    exists reply : Error + Response,
      nth_error log 0 = Some (Get c_day [("routine", JNum routineId)], reply) /\
      forall (rs : list Raw) (ds : list Day),
        reply = inr (RList rs) ->
        decode_all DaySchema rs = Some ds ->
        match find (fun d => String.eqb (day_name d) dayNameToUse)
                   (filter (fun d => day_routine d =? routineId) ds) with
        | Some d =>
            o = Returned d /\
            log = [(Get c_day [("routine", JNum routineId)], reply)]
        | None =>
            exists reply2 : Error + Response,
              log = [(Get c_day [("routine", JNum routineId)], reply);
                     (Post c_day [
                        ("routine", JNum routineId);
                        ("type", JStr "custom");
                        ("name", JStr dayNameToUse);
                        ("is_rest", JBool false);
                        ("order", JNum (Z.of_nat (List.length
                           (filter (fun d => day_routine d =? routineId) ds)) + 1))],
                      reply2)] /\
              (forall d, o = Returned d -> reply2 = inr (RItem (RawDay d)))
        end.
Proof.
  intros World respond routineId name w w' o log Hrun.
  unfold findOrCreateDay, await in Hrun; simpl in Hrun.
  destruct (respond w _) as [[e | resp] w1] in Hrun.
  { inversion Hrun; subst. eexists; split; [reflexivity|]. intros; discriminate. }
  destruct resp as [rs0 | item |]; simpl in Hrun.
  2,3: inversion Hrun; subst; eexists; (split; [reflexivity|]); intros; discriminate.
  unfold parse_all in Hrun.
  destruct (decode_all DaySchema rs0) as [parsed|] eqn:Hdec; simpl in Hrun.
  2:{ inversion Hrun; subst. eexists; split; [reflexivity|].
      intros rs ds Hreply Hds. inversion Hreply; subst. congruence. }
  destruct (find _ _) as [d|] eqn:Hfind in Hrun; simpl in Hrun.
  - inversion Hrun; subst. eexists; split; [reflexivity|].
    intros rs ds Hreply Hds. inversion Hreply; subst.
    rewrite Hdec in Hds; inversion Hds; subst.
    rewrite Hfind. split; reflexivity.
  - destruct (respond w1 _) as [[e | resp] w2] in Hrun; simpl in Hrun.
    + inversion Hrun; subst. eexists; split; [reflexivity|].
      intros rs ds Hreply Hds. inversion Hreply; subst.
      rewrite Hdec in Hds; inversion Hds; subst.
      rewrite Hfind. eexists; split; [reflexivity|]. intros; discriminate.
    + destruct (run respond (parse DaySchema resp) w2) as [[o2 w3] l2] eqn:E.
      inversion Hrun; subst. eexists; split; [reflexivity|].
      intros rs ds Hreply Hds. inversion Hreply; subst.
      rewrite Hdec in Hds; inversion Hds; subst.
      rewrite Hfind.
      destruct resp as [rs' | [| d' | | | |] |]; simpl in E; inversion E; subst;
        (eexists; split; [reflexivity|]); intros d0 Hd0; inversion Hd0; reflexivity.
Qed.

Lemma createExerciseChain_first :
  forall (World : Type) (respond : World -> Request -> (Error + Response) * World)
         (input : AddExerciseToRoutineInput) (day : Day) (w w' : World)
         (o : Outcome AddExerciseResult) (log : list Exchange),
    run respond (createExerciseChain input day) w = (o, w', log) ->
    exists (reply : Error + Response) (rest : list Exchange),
      log = (Post c_slot [("day", JNum (day_id day)); ("order", JNum 1)], reply) :: rest.
Proof.
  intros World respond input day w w' o log Hrun.
  unfold createExerciseChain in Hrun.
  rewrite run_bind, run_await in Hrun.
  destruct (respond w _) as [[e | resp] w1] in Hrun.
  - inversion Hrun; subst. eauto.
  - destruct (run respond _ w1) as [[o2 w2] l2] in Hrun.
    inversion Hrun; subst. simpl. eauto.
Qed.

Lemma filter_none (A : Type) (f : A -> bool) (l : list A) :
  Forall (fun x => f x = false) l -> filter f l = [].
Proof.
  induction 1 as [|x l Hx Hl IH]; simpl; [reflexivity|].
  rewrite Hx. exact IH.
Qed.

Lemma filter_day_write_chain :
  forall (World : Type) (respond : World -> Request -> (Error + Response) * World)
         (input : AddExerciseToRoutineInput) (day : Day) (w w' : World)
         (o : Outcome AddExerciseResult) (log : list Exchange),
    run respond (createExerciseChain input day) w = (o, w', log) ->
    filter (fun x => day_write (fst x)) log = [].
Proof.
  intros World respond input day w w' o log Hrun.
  apply filter_none.
  exact (AllCalls_run World respond (fun r => day_write r = false) _ _
           (createExerciseChain_calls _ input day
              (fun _ => eq_refl) (fun _ => eq_refl) (fun _ _ => eq_refl))
           w w' o log Hrun).
Qed.

(** C1, as stated, fails: the day name [""] is supplied and routine 1
    holds a day with exactly that name, yet the handler does not return
    that day; it looks for "Workout Day" and creates it. *)
Lemma addExercise_empty_dayName_creates_a_day :
  (exists input : AddExerciseToRoutineInput,
      AddExerciseToRoutineSchema args_empty_dayName = Some input /\
      ae_dayName input = Some "" /\
      exists d : Day,
        In d (st_days store_unnamed_day) /\
        day_routine d = ae_routineId input /\
        Some (day_name d) = ae_dayName input) /\
  map fst (filter (fun x => day_write (fst x))
             (snd (run (serve ByRoutine)
                       (addExerciseToRoutineHandler true args_empty_dayName)
                       store_unnamed_day)))
  = [Post c_day [("routine", JNum 1); ("type", JStr "custom");
                 ("name", JStr "Workout Day"); ("is_rest", JBool false);
                 ("order", JNum 2)]].
Proof.
  split.
  - eexists; split; [reflexivity|]. split; [reflexivity|].
    eexists; split; [left; reflexivity|]. split; reflexivity.
  - vm_compute. reflexivity.
Qed.

(** C1, amended: the handler fetches the day collection and keeps the
    days whose [routine] equals [routineId]; the name it looks for is
    [dayName] when that is supplied and non-empty, and "Workout Day"
    otherwise.  If a kept day has that name, no create, update or delete
    goes to the day collection and the slot is created under that day;
    otherwise exactly one day is created, with order = number of kept
    days + 1, is_rest = false and that name. *)
Theorem addExercise_finds_or_creates_day :
  forall (World : Type) (respond : World -> Request -> (Error + Response) * World)
         (args : JObj) (input : AddExerciseToRoutineInput) (w w' : World)
         (o : Outcome AddExerciseResult) (log : list Exchange),
    AddExerciseToRoutineSchema args = Some input ->
    run respond (addExerciseToRoutineHandler true args) w = (o, w', log) ->
    exists desired : string,
      (forall n : string, ae_dayName input = Some n -> n <> "" -> desired = n) /\
      (ae_dayName input = None \/ ae_dayName input = Some "" ->
       desired = "Workout Day") /\
      (forall x : Exchange,
          nth_error log 1 = Some x ->
          fst x = Get c_day [("routine", JNum (ae_routineId input))]) /\
      forall (rs : list Raw) (ds : list Day),
        nth_error log 1
        = Some (Get c_day [("routine", JNum (ae_routineId input))], inr (RList rs)) ->
        decode_all DaySchema rs = Some ds ->
        match find (fun d => String.eqb (day_name d) desired)
                   (filter (fun d => day_routine d =? ae_routineId input) ds) with
        | Some d =>
            filter (fun x => day_write (fst x)) log = [] /\
            exists reply : Error + Response,
              nth_error log 2
              = Some (Post c_slot [("day", JNum (day_id d)); ("order", JNum 1)], reply)
        | None =>
            exists reply : Error + Response,
              nth_error log 2
              = Some (Post c_day [
                        ("routine", JNum (ae_routineId input));
                        ("type", JStr "custom");
                        ("name", JStr desired);
                        ("is_rest", JBool false);
                        ("order", JNum (Z.of_nat (List.length
                           (filter (fun d => day_routine d =? ae_routineId input) ds))
                           + 1))],
                      reply) /\
              map fst (filter (fun x => day_write (fst x)) log)
              = [Post c_day [
                   ("routine", JNum (ae_routineId input));
                   ("type", JStr "custom");
                   ("name", JStr desired);
                   ("is_rest", JBool false);
                   ("order", JNum (Z.of_nat (List.length
                      (filter (fun d => day_routine d =? ae_routineId input) ds))
                      + 1))]]
        end.
Proof.
  intros World respond args input w w' o log Hschema Hrun.
  exists (or_else (ae_dayName input) "Workout Day").
  split; [intros n Hn Hne; rewrite Hn; apply or_else_nonempty; exact Hne|].
  split; [intros [Hn | Hn]; rewrite Hn; reflexivity|].
  unfold addExerciseToRoutineHandler in Hrun; cbn [negb] in Hrun.
  rewrite Hschema in Hrun; cbn [bind] in Hrun.
  rewrite run_bind, run_await in Hrun.
  destruct (respond w Token) as [[e | t] w1].
  { inversion Hrun; subst. split; intros; discriminate. }
  rewrite run_bind in Hrun.
  destruct (run respond (findOrCreateDay _ _) w1) as [[od w2] l1] eqn:Eday.
  destruct (findOrCreateDay_run _ _ _ _ _ _ _ _ Eday) as (reply & Hget & Hcases).
  destruct l1 as [|x1 l1]; [discriminate Hget|].
  simpl in Hget; inversion Hget; subst x1; clear Hget.
  assert (Hlog : exists rest, log = (Token, inr t)
            :: (Get c_day [("routine", JNum (ae_routineId input))], reply) :: rest).
  { destruct od as [d | e].
    - destruct (run respond (createExerciseChain input d) w2) as [[o3 w3] l3].
      inversion Hrun; subst. simpl. eauto.
    - inversion Hrun; subst. simpl. eauto. }
  destruct Hlog as [rest Hlog].
  split.
  { intros x Hx. rewrite Hlog in Hx; simpl in Hx. inversion Hx; reflexivity. }
  intros rs ds Hnth Hds.
  rewrite Hlog in Hnth; simpl in Hnth. inversion Hnth; subst reply.
  specialize (Hcases rs ds eq_refl Hds).
  destruct (find _ _) as [d|].
  - destruct Hcases as [Hod Hl1]. subst od. inversion Hl1; subst l1.
    destruct (run respond (createExerciseChain input d) w2) as [[o3 w3] l3] eqn:Echain.
    inversion Hrun; subst.
    split.
    + simpl. eapply filter_day_write_chain; eassumption.
    + destruct (createExerciseChain_first _ _ _ _ _ _ _ _ Echain) as (r3 & rest3 & Hl3).
      subst l3. simpl. eauto.
  - destruct Hcases as (reply2 & Hl1 & Hret). inversion Hl1; subst l1.
    exists reply2.
    destruct od as [d | e].
    + destruct (run respond (createExerciseChain input d) w2) as [[o3 w3] l3] eqn:Echain.
      inversion Hrun; subst.
      split; [reflexivity|]. simpl.
      rewrite (filter_day_write_chain _ _ _ _ _ _ _ _ Echain). reflexivity.
    + inversion Hrun; subst. split; reflexivity.
Qed.

(** ** Updating the metrics of an exercise *)

Lemma same_runs_refl (A : Type) (p : Prog A) : same_runs p p.
Proof. intros World respond w; reflexivity. Qed.

Lemma same_runs_bind (A B : Type) (p p' : Prog A) (f f' : A -> Prog B) :
  same_runs p p' ->
  (forall a, same_runs (f a) (f' a)) ->
  same_runs (bind p f) (bind p' f').
Proof.
  intros Hp Hf World respond w.
  rewrite !run_bind, (Hp World respond w).
  destruct (run respond p' w) as [[[a | e] w1] l1]; [|reflexivity].
  rewrite (Hf a World respond w1). reflexivity.
Qed.

(** Each of the three blocks of the handler is the upsert of its metric. *)
Lemma sets_block_is_upsert (slotEntryId : Z) (value : option Z) (updates : list string) :
  same_runs
    match value with
    | Some sets =>
        setsRes <- await (Get (c_config Sets) [("slot_entry", JNum slotEntryId)]) ;;
        rs <- results setsRes ;;
        match rs with
        | r0 :: _ =>
            match as_Config r0 with
            | Some c0 =>
                await (Patch (c_config Sets) (config_id c0) [("value", JNum sets)]) ;;
                Ret (updates ++ ["sets (updated)"])
            | None => Throw TypeError
            end
        | [] =>
            await (Post (c_config Sets) [
              ("slot_entry", JNum slotEntryId);
              ("iteration", JNum 1);
              ("value", JNum sets)
            ]) ;;
            Ret (updates ++ ["sets (created)"])
        end
    | None => Ret updates
    end
    (upsertSupplied slotEntryId Sets value updates).
Proof.
  intros World respond w. destruct value as [v|]; [|reflexivity].
  simpl. destruct (respond w _) as [[e | [rs | x |]] w1]; simpl; try reflexivity.
  destruct rs as [|r0 rs]; simpl.
  - destruct (respond w1 _) as [[e | resp] w2]; reflexivity.
  - destruct (as_Config r0); simpl; [|reflexivity].
    destruct (respond w1 _) as [[e | resp] w2]; reflexivity.
Qed.

Lemma reps_block_is_upsert (slotEntryId : Z) (value : option Z) (updates : list string) :
  same_runs
    match value with
    | Some reps =>
        repsRes <- await (Get (c_config Repetitions) [("slot_entry", JNum slotEntryId)]) ;;
        rs <- results repsRes ;;
        match rs with
        | r0 :: _ =>
            match as_Config r0 with
            | Some c0 =>
                await (Patch (c_config Repetitions) (config_id c0) [("value", JNum reps)]) ;;
                Ret (updates ++ ["reps (updated)"])
            | None => Throw TypeError
            end
        | [] =>
            await (Post (c_config Repetitions) [
              ("slot_entry", JNum slotEntryId);
              ("iteration", JNum 1);
              ("value", JNum reps)
            ]) ;;
            Ret (updates ++ ["reps (created)"])
        end
    | None => Ret updates
    end
    (upsertSupplied slotEntryId Repetitions value updates).
Proof.
  intros World respond w. destruct value as [v|]; [|reflexivity].
  simpl. destruct (respond w _) as [[e | [rs | x |]] w1]; simpl; try reflexivity.
  destruct rs as [|r0 rs]; simpl.
  - destruct (respond w1 _) as [[e | resp] w2]; reflexivity.
  - destruct (as_Config r0); simpl; [|reflexivity].
    destruct (respond w1 _) as [[e | resp] w2]; reflexivity.
Qed.

Lemma weight_block_is_upsert (slotEntryId : Z) (value : option Z) (updates : list string) :
  same_runs
    match value with
    | Some weight =>
        weightRes <- await (Get (c_config Weight) [("slot_entry", JNum slotEntryId)]) ;;
        rs <- results weightRes ;;
        match rs with
        | r0 :: _ =>
            match as_Config r0 with
            | Some c0 =>
                await (Patch (c_config Weight) (config_id c0)
                         [("value", JStr (Number_toString weight))]) ;;
                Ret (updates ++ ["weight (updated)"])
            | None => Throw TypeError
            end
        | [] =>
            await (Post (c_config Weight) [
              ("slot_entry", JNum slotEntryId);
              ("iteration", JNum 1);
              ("value", JStr (Number_toString weight))
            ]) ;;
            Ret (updates ++ ["weight (created)"])
        end
    | None => Ret updates
    end
    (upsertSupplied slotEntryId Weight value updates).
Proof.
  intros World respond w. destruct value as [v|]; [|reflexivity].
  simpl. destruct (respond w _) as [[e | [rs | x |]] w1]; simpl; try reflexivity.
  destruct rs as [|r0 rs]; simpl.
  - destruct (respond w1 _) as [[e | resp] w2]; reflexivity.
  - destruct (as_Config r0); simpl; [|reflexivity].
    destruct (respond w1 _) as [[e | resp] w2]; reflexivity.
Qed.

Lemma updateExercise_refines_spec (hasCredentials : bool) (args : JObj) :
  same_runs (updateExerciseInRoutineHandler hasCredentials args)
            (updateExerciseInRoutine_spec hasCredentials args).
Proof.
  unfold updateExerciseInRoutineHandler, updateExerciseInRoutine_spec.
  destruct hasCredentials; cbn [negb]; [|apply same_runs_refl].
  apply same_runs_bind; [apply same_runs_refl | intro input].
  apply same_runs_bind; [apply same_runs_refl | intros _].
  apply same_runs_bind; [apply sets_block_is_upsert | intro u1].
  apply same_runs_bind; [apply reps_block_is_upsert | intro u2].
  apply same_runs_bind; [apply weight_block_is_upsert | intro u3].
  apply same_runs_refl.
Qed.

(** C2: the handler is, against every remote, the upsert of each
    supplied metric in the order sets, reps, weight with the reports
    collected.  In an upsert, a fetch (filtered by
    [slot_entry = slotEntryId]) that returns a non-empty list is followed
    by a partial update of the [value] of the first element and the report
    metric (updated); a fetch that returns the empty list is followed by a
    create with [{slot_entry: slotEntryId, iteration: 1, value}] and the
    report metric (created); the weight is sent as its string
    representation, sets and reps as numbers. *)
Theorem updateExercise_upserts_each_metric :
  (forall (hasCredentials : bool) (args : JObj),
      same_runs (updateExerciseInRoutineHandler hasCredentials args)
                (updateExerciseInRoutine_spec hasCredentials args)) /\
  (forall (World : Type) (respond : World -> Request -> (Error + Response) * World)
          (slotEntryId : Z) (k : ConfigKind) (value : Z) (w w1 : World)
          (c0 : Config) (rest : list Raw),
      respond w (Get (c_config k) [("slot_entry", JNum slotEntryId)])
      = (inr (RList (RawConfig c0 :: rest)), w1) ->
      run respond (upsertMetric slotEntryId k value) w
      = match respond w1 (Patch (c_config k) (config_id c0)
                            [("value", wire_value k value)]) with
        | (reply, w2) =>
            (match reply with
             | inl e => Thrown e
             | inr _ => Returned (String.append (metric_name k) " (updated)")
             end,
             w2,
             [(Get (c_config k) [("slot_entry", JNum slotEntryId)],
               inr (RList (RawConfig c0 :: rest)));
              (Patch (c_config k) (config_id c0) [("value", wire_value k value)],
               reply)])
        end) /\
  (forall (World : Type) (respond : World -> Request -> (Error + Response) * World)
          (slotEntryId : Z) (k : ConfigKind) (value : Z) (w w1 : World),
      respond w (Get (c_config k) [("slot_entry", JNum slotEntryId)])
      = (inr (RList []), w1) ->
      run respond (upsertMetric slotEntryId k value) w
      = match respond w1 (Post (c_config k)
                            [("slot_entry", JNum slotEntryId);
                             ("iteration", JNum 1);
                             ("value", wire_value k value)]) with
        | (reply, w2) =>
            (match reply with
             | inl e => Thrown e
             | inr _ => Returned (String.append (metric_name k) " (created)")
             end,
             w2,
             [(Get (c_config k) [("slot_entry", JNum slotEntryId)], inr (RList []));
              (Post (c_config k)
                 [("slot_entry", JNum slotEntryId);
                  ("iteration", JNum 1);
                  ("value", wire_value k value)],
               reply)])
        end) /\
  (forall value : Z,
      wire_value Sets value = JNum value /\
      wire_value Repetitions value = JNum value /\
      wire_value Weight value = JStr (Number_toString value)).
Proof.
  split; [exact updateExercise_refines_spec|].
  split; [|split].
  - intros World respond e k v w w1 c0 rest Hget.
    unfold upsertMetric, await; simpl. rewrite Hget; simpl.
    destruct (respond w1 _) as [[err | resp] w2]; reflexivity.
  - intros World respond e k v w w1 Hget.
    unfold upsertMetric, await; simpl. rewrite Hget; simpl.
    destruct (respond w1 _) as [[err | resp] w2]; reflexivity.
  - intro value. repeat split.
Qed.

(** ** Sorting *)

Section SortByKey.
Variable A : Type.
Variable key : A -> Z.

Lemma sort_insert_perm (x : A) (l : list A) :
  Permutation (sort_insert (fun a b => key a - key b) x l) (x :: l).
Proof.
  induction l as [|y l IH]; simpl; [reflexivity|].
  destruct (key x - key y <=? 0); [reflexivity|].
  rewrite IH. apply perm_swap.
Qed.

Lemma Array_sort_perm (l : list A) :
  Permutation (Array_sort (fun a b => key a - key b) l) l.
Proof.
  induction l as [|x l IH]; simpl; [reflexivity|].
  rewrite sort_insert_perm. now constructor.
Qed.

Lemma sort_insert_sorted (x : A) (l : list A) :
  StronglySorted (fun a b => key a <= key b) l ->
  StronglySorted (fun a b => key a <= key b)
                 (sort_insert (fun a b => key a - key b) x l).
Proof.
  induction 1 as [|y l Hl IH Hy]; simpl.
  - repeat constructor.
  - destruct (Z.leb_spec (key x - key y) 0) as [Hxy | Hxy].
    + constructor; [constructor; assumption|].
      constructor; [lia|].
      eapply Forall_impl; [|exact Hy]. cbn; intros; lia.
    + constructor; [exact IH|].
      eapply Permutation_Forall; [symmetry; apply sort_insert_perm|].
      constructor; [lia | exact Hy].
Qed.

Lemma Array_sort_sorted (l : list A) :
  StronglySorted (fun a b => key a <= key b)
                 (Array_sort (fun a b => key a - key b) l).
Proof.
  induction l as [|x l IH]; simpl; [constructor|].
  apply sort_insert_sorted; exact IH.
Qed.
End SortByKey.

Lemma days_of_routine_In (routineId : Z) (rs : list Raw) (d : Day) :
  In d (days_of_routine routineId rs) <->
  In (RawDay d) rs /\ day_routine d = routineId.
Proof.
  unfold days_of_routine. rewrite in_flat_map. split.
  - intros [r [Hr Hd]].
    destruct r as [| d' | | | |]; try contradiction.
    destruct (Z.eqb_spec (day_routine d') routineId); [|contradiction].
    destruct Hd as [Hd | []]. subst d'. auto.
  - intros [Hr Hd]. exists (RawDay d). split; [assumption|].
    rewrite Hd, Z.eqb_refl. left; reflexivity.
Qed.

Lemma Forall2_map_eq (A B : Type) (f : B -> A) (xs : list A) (ys : list B) :
  Forall2 (fun x y => f y = x) xs ys -> map f ys = xs.
Proof.
  induction 1; simpl; congruence.
Qed.

(** ** Reading a routine back *)

Section Aggregation.
Variable World : Type.
Variable respond : World -> Request -> (Error + Response) * World.

Lemma results_as_Returned (A : Type) (decode : Raw -> option A) (resp : Response)
      (w w' : World) (l : list A) (log : list Exchange) :
  run respond (results_as decode resp) w = (Returned l, w', log) -> log = [].
Proof.
  unfold results_as. destruct resp as [rs | x |]; simpl; try discriminate.
  destruct (decode_all decode rs); simpl; intro H; inversion H; reflexivity.
Qed.

Lemma populateEntry_Returned (entry : SlotEntry) (w w' : World)
      (en : EntryNode) (log : list Exchange) :
  run respond (populateEntry entry) w = (Returned en, w', log) ->
  en_entry en = entry.
Proof.
  unfold populateEntry. intro H.
  repeat (apply run_bind_Returned in H;
          destruct H as (? & ? & ? & ? & _ & H & _)).
  simpl in H. inversion H; reflexivity.
Qed.

Lemma populateSlot_Returned (slot : Slot) (w w' : World)
      (sn : SlotNode) (log : list Exchange) :
  run respond (populateSlot slot) w = (Returned sn, w', log) ->
  sn_slot sn = slot /\
  StronglySorted (fun a b => entry_order a <= entry_order b)
                 (map en_entry (sn_entries sn)).
Proof.
  unfold populateSlot. intro H.
  apply run_bind_Returned in H. destruct H as (resp & w1 & l1 & l2 & _ & H & _).
  apply run_bind_Returned in H. destruct H as (es & w2 & l3 & l4 & _ & H & _).
  apply run_bind_Returned in H. destruct H as (ens & w3 & l5 & l6 & Hall & H & _).
  simpl in H. inversion H; subst; simpl. split; [reflexivity|].
  apply Promise_all_Returned in Hall.
  replace (map en_entry ens)
    with (Array_sort (fun a b => entry_order a - entry_order b) es).
  - apply Array_sort_sorted.
  - symmetry. apply Forall2_map_eq.
    eapply Forall2_impl; [|exact Hall].
    intros entry en (wa & wb & l & Hrun).
    eapply populateEntry_Returned; exact Hrun.
Qed.

Lemma populateDay_Returned (day : Day) (w w' : World)
      (dn : DayNode) (log : list Exchange) :
  run respond (populateDay day) w = (Returned dn, w', log) ->
  dn_day dn = day /\
  StronglySorted (fun a b => slot_order a <= slot_order b)
                 (map sn_slot (dn_slots dn)) /\
  Forall (fun sn =>
            StronglySorted (fun a b => entry_order a <= entry_order b)
                           (map en_entry (sn_entries sn)))
         (dn_slots dn).
Proof.
  unfold populateDay. intro H.
  apply run_bind_Returned in H. destruct H as (resp & w1 & l1 & l2 & _ & H & _).
  apply run_bind_Returned in H. destruct H as (ss & w2 & l3 & l4 & _ & H & _).
  apply run_bind_Returned in H. destruct H as (sns & w3 & l5 & l6 & Hall & H & _).
  simpl in H. inversion H; subst; simpl. split; [reflexivity|].
  apply Promise_all_Returned in Hall.
  split.
  - replace (map sn_slot sns)
      with (Array_sort (fun a b => slot_order a - slot_order b) ss).
    + apply Array_sort_sorted.
    + symmetry. apply Forall2_map_eq.
      eapply Forall2_impl; [|exact Hall].
      intros slot sn (wa & wb & l & Hrun).
      eapply populateSlot_Returned; exact Hrun.
  - clear - Hall.
    induction Hall as [|slot sn slots sns' (wa & wb & l & Hrun) _ IH];
      constructor; [|exact IH].
    eapply populateSlot_Returned; exact Hrun.
Qed.
Lemma Promise_all_Returned_incl (A B : Type) (f : A -> Prog B) (xs : list A) :
  forall (w w' : World) (ys : list B) (log : list Exchange),
    run respond (Promise_all f xs) w = (Returned ys, w', log) ->
    Forall2 (fun x y => exists w1 w2 l,
                 run respond (f x) w1 = (Returned y, w2, l) /\ incl l log)
            xs ys.
Proof.
  induction xs as [|x rest IH]; intros w w' ys log Hrun; simpl in Hrun.
  - inversion Hrun; constructor.
  - apply run_bind_Returned in Hrun.
    destruct Hrun as (y & w1 & l1 & l2 & Hx & Hrest & Hlog).
    apply run_bind_Returned in Hrest.
    destruct Hrest as (ys' & w2 & l3 & l4 & Hys & Hret & Hlog').
    simpl in Hret; inversion Hret; subst.
    constructor.
    + exists w, w1, l1. split; [exact Hx|]. apply incl_appl, incl_refl.
    + eapply Forall2_impl; [|exact (IH _ _ _ _ Hys)].
      intros a b (wa & wb & l & Hrun & Hincl).
      exists wa, wb, l. split; [exact Hrun|].
      apply incl_appr, incl_appl. exact Hincl.
Qed.

Lemma await_exchange (r : Request) (w w' : World) (resp : Response)
      (log : list Exchange) :
  run respond (await r) w = (Returned resp, w', log) -> log = [(r, inr resp)].
Proof.
  rewrite run_await. destruct (respond w r) as [[e | resp'] w1]; [discriminate|].
  intro H; inversion H; reflexivity.
Qed.

Lemma results_as_decoded (A : Type) (decode : Raw -> option A) (resp : Response)
      (w w' : World) (l : list A) (log : list Exchange) :
  run respond (results_as decode resp) w = (Returned l, w', log) ->
  exists raws : list Raw, resp = RList raws /\ decode_all decode raws = Some l.
Proof.
  unfold results_as. destruct resp as [rs | x |]; simpl; try discriminate.
  destruct (decode_all decode rs) as [l'|] eqn:E; simpl; intro H; inversion H.
  subst. exists rs. split; [reflexivity | exact E].
Qed.

Lemma decode_all_as_Slot (raws : list Raw) :
  forall ss : list Slot, decode_all as_Slot raws = Some ss -> raws = map RawSlot ss.
Proof.
  induction raws as [|r raws IH]; simpl; intros ss H.
  - inversion H; reflexivity.
  - destruct r; try discriminate. simpl in H.
    destruct (decode_all as_Slot raws) as [l|]; [|discriminate].
    inversion H; subst; simpl. rewrite (IH l eq_refl). reflexivity.
Qed.

Lemma decode_all_as_SlotEntry (raws : list Raw) :
  forall es : list SlotEntry,
    decode_all as_SlotEntry raws = Some es -> raws = map RawSlotEntry es.
Proof.
  induction raws as [|r raws IH]; simpl; intros es H.
  - inversion H; reflexivity.
  - destruct r; try discriminate. simpl in H.
    destruct (decode_all as_SlotEntry raws) as [l|]; [|discriminate].
    inversion H; subst; simpl. rewrite (IH l eq_refl). reflexivity.
Qed.

(** The entries of a populated slot are the entries that the remote
    listed for that slot, each as often as it was listed. *)
Lemma populateSlot_listed (slot : Slot) (w w' : World)
      (sn : SlotNode) (log : list Exchange) :
  run respond (populateSlot slot) w = (Returned sn, w', log) ->
  sn_slot sn = slot /\
  exists es : list SlotEntry,
    listed log (Get c_slot_entry [("slot", JNum (slot_id slot)); ("limit", JNum 100)])
           (map RawSlotEntry es) /\
    Permutation (map en_entry (sn_entries sn)) es.
Proof.
  unfold populateSlot. intro H.
  apply run_bind_Returned in H. destruct H as (resp & w1 & l1 & l2 & Hget & H & Hlog).
  apply run_bind_Returned in H. destruct H as (es & w2 & l3 & l4 & Hes & H & _).
  apply run_bind_Returned in H. destruct H as (ens & w3 & l5 & l6 & Hall & H & _).
  simpl in H. inversion H; subst sn; simpl. split; [reflexivity|].
  apply await_exchange in Hget.
  apply results_as_decoded in Hes. destruct Hes as (raws & -> & Hdec).
  apply decode_all_as_SlotEntry in Hdec.
  exists es. split.
  - unfold listed. rewrite Hlog, Hget, <- Hdec. left; reflexivity.
  - apply Promise_all_Returned in Hall.
    replace (map en_entry ens)
      with (Array_sort (fun a b => entry_order a - entry_order b) es).
    + apply Array_sort_perm.
    + symmetry. apply Forall2_map_eq.
      eapply Forall2_impl; [|exact Hall].
      intros entry en (wa & wb & l & Hrun).
      eapply populateEntry_Returned; exact Hrun.
Qed.

(** The slots of a populated day are the slots that the remote listed
    for that day, and likewise the entries of each of them. *)
Lemma populateDay_listed (day : Day) (w w' : World)
      (dn : DayNode) (log : list Exchange) :
  run respond (populateDay day) w = (Returned dn, w', log) ->
  dn_day dn = day /\
  exists ss : list Slot,
    listed log (Get c_slot [("day", JNum (day_id day)); ("limit", JNum 100)])
           (map RawSlot ss) /\
    Permutation (map sn_slot (dn_slots dn)) ss /\
    Forall (fun sn =>
              exists es : list SlotEntry,
                listed log
                       (Get c_slot_entry
                            [("slot", JNum (slot_id (sn_slot sn))); ("limit", JNum 100)])
                       (map RawSlotEntry es) /\
                Permutation (map en_entry (sn_entries sn)) es)
           (dn_slots dn).
Proof.
  unfold populateDay. intro H.
  apply run_bind_Returned in H. destruct H as (resp & w1 & l1 & l2 & Hget & H & Hlog).
  apply run_bind_Returned in H. destruct H as (ss & w2 & l3 & l4 & Hss & H & Hlog2).
  apply run_bind_Returned in H. destruct H as (sns & w3 & l5 & l6 & Hall & H & Hlog4).
  simpl in H. inversion H; subst dn; simpl. split; [reflexivity|].
  apply await_exchange in Hget.
  pose proof (results_as_Returned _ _ _ _ _ _ _ Hss) as Hl3.
  apply results_as_decoded in Hss. destruct Hss as (raws & -> & Hdec).
  apply decode_all_as_Slot in Hdec.
  apply Promise_all_Returned_incl in Hall.
  exists ss. split; [|split].
  - unfold listed. rewrite Hlog, Hget, <- Hdec. left; reflexivity.
  - replace (map sn_slot sns)
      with (Array_sort (fun a b => slot_order a - slot_order b) ss).
    + apply Array_sort_perm.
    + symmetry. apply Forall2_map_eq.
      eapply Forall2_impl; [|exact Hall].
      intros slot sn (wa & wb & l & Hrun & _).
      eapply populateSlot_Returned; exact Hrun.
  - assert (Hincl : incl l5 log).
    { rewrite Hlog, Hlog2, Hlog4. apply incl_appr, incl_appr, incl_appl, incl_refl. }
    clear - Hall Hincl.
    induction Hall as [|slot sn slots sns' (wa & wb & l & Hrun & Hl) _ IH];
      constructor; [|exact IH].
    destruct (populateSlot_listed _ _ _ _ _ Hrun) as (Hslot & es & Hlisted & Hperm).
    exists es. split; [|exact Hperm].
    rewrite Hslot. apply Hincl, Hl. exact Hlisted.
Qed.
End Aggregation.

(** C3: whatever the remote returns and in whatever order, the tree that
    [getRoutineDetails] returns has its days sorted ascending by [order]
    and made of exactly the returned days whose [routine] is [routineId],
    the slots of every day sorted ascending by [order], and the entries of
    every slot sorted ascending by [order].  At every level the elements
    are the ones the remote returned, each as often as it was returned:
    the days are a permutation of the listed days of the routine, the
    slots of a day a permutation of what the remote listed for that day,
    the entries of a slot a permutation of what it listed for that slot. *)
Theorem getRoutineDetails_sorted :
  forall (World : Type) (respond : World -> Request -> (Error + Response) * World)
         (hasCredentials : bool) (args : JObj) (w w' : World)
         (tree : DetailedRoutine) (log : list Exchange),
    run respond (getRoutineDetailsHandler hasCredentials args) w
    = (Returned tree, w', log) ->
    exists (routineId : Z) (rs : list Raw),
      GetRoutineDetailsSchema args = Some routineId /\
      In (Get c_day [("routine", JNum routineId); ("limit", JNum 100)], inr (RList rs))
         log /\
      (forall d : Day,
          In d (map dn_day (dr_days tree)) <->
          In (RawDay d) rs /\ day_routine d = routineId) /\
      StronglySorted (fun a b => day_order a <= day_order b)
                     (map dn_day (dr_days tree)) /\
      Forall (fun dn =>
                StronglySorted (fun a b => slot_order a <= slot_order b)
                               (map sn_slot (dn_slots dn)) /\
                Forall (fun sn =>
                          StronglySorted (fun a b => entry_order a <= entry_order b)
                                         (map en_entry (sn_entries sn)))
                       (dn_slots dn))
             (dr_days tree) /\
      Permutation (map dn_day (dr_days tree)) (days_of_routine routineId rs) /\
      Forall (fun dn =>
                exists ss : list Slot,
                  listed log
                         (Get c_slot
                              [("day", JNum (day_id (dn_day dn))); ("limit", JNum 100)])
                         (map RawSlot ss) /\
                  Permutation (map sn_slot (dn_slots dn)) ss /\
                  Forall (fun sn =>
                            exists es : list SlotEntry,
                              listed log
                                     (Get c_slot_entry
                                          [("slot", JNum (slot_id (sn_slot sn)));
                                           ("limit", JNum 100)])
                                     (map RawSlotEntry es) /\
                              Permutation (map en_entry (sn_entries sn)) es)
                         (dn_slots dn))
             (dr_days tree).
Proof.
  intros World respond creds args w w' tree log H.
  unfold getRoutineDetailsHandler in H.
  destruct creds; cbn [negb] in H; [|discriminate H].
  apply run_bind_Returned in H.
  destruct H as (routineId & w0 & l0 & l0' & Hparse & H & Hlog0).
  unfold zod_parse in Hparse.
  destruct (GetRoutineDetailsSchema args) as [rid|]; [|discriminate Hparse].
  simpl in Hparse; inversion Hparse; subst rid w0 l0; clear Hparse.
  apply run_bind_Returned in H.
  destruct H as (t & w1 & l1 & l1' & _ & H & Hlog1).
  apply run_bind_Returned in H.
  destruct H as (routine & w2 & l2 & l2' & _ & H & Hlog2).
  apply run_bind_Returned in H.
  destruct H as (daysResponse & w3 & l3 & l3' & Hdays & H & Hlog3).
  apply run_bind_Returned in H.
  destruct H as (rs & w4 & l4 & l4' & Hrs & H & Hlog4).
  apply run_bind_Returned in H.
  destruct H as (dns & w5 & l5 & l5' & Hall & H & Hlog5).
  simpl in H; inversion H; subst tree; simpl.
  rewrite run_await in Hdays.
  destruct (respond w2 _) as [[e | resp] w3'] in Hdays; [discriminate|].
  inversion Hdays; subst resp w3' l3.
  destruct daysResponse as [rs' | x |]; simpl in Hrs; try discriminate.
  inversion Hrs; subst rs'.
  pose proof (Promise_all_Returned_incl _ _ _ _ _ _ _ _ _ _ Hall) as Hlisted.
  apply Promise_all_Returned in Hall.
  assert (Hmap : map dn_day dns
                 = Array_sort (fun a b => day_order a - day_order b)
                              (days_of_routine routineId rs)).
  { apply Forall2_map_eq.
    eapply Forall2_impl; [|exact Hall].
    intros day dn (wa & wb & l & Hrun).
    eapply populateDay_Returned; exact Hrun. }
  exists routineId, rs.
  split; [reflexivity|]. split.
  { subst log l0' l1' l2'. apply in_or_app; right. apply in_or_app; right.
    apply in_or_app; right. apply in_or_app; left. left; reflexivity. }
  split; [|split; [|split; [|split]]].
  - intro d. rewrite Hmap, <- days_of_routine_In.
    split; apply Permutation_in;
      [apply Array_sort_perm | symmetry; apply Array_sort_perm].
  - rewrite Hmap. apply Array_sort_sorted.
  - clear - Hall.
    induction Hall as [|day dn days dns' (wa & wb & l & Hrun) _ IH];
      constructor; [|exact IH].
    eapply populateDay_Returned; exact Hrun.
  - rewrite Hmap. apply Array_sort_perm.
  - assert (Hincl : incl l5 log).
    { intros x Hx. subst log l0' l1' l2' l3' l4'.
      repeat (rewrite in_app_iff || cbn [In app]). tauto. }
    clear - Hlisted Hincl.
    induction Hlisted as [|day dn days dns' (wa & wb & l & Hrun & Hl) _ IH];
      constructor; [|exact IH].
    destruct (populateDay_listed _ _ _ _ _ _ _ Hrun)
      as (Hday & ss & Hss & Hperm & Hentries).
    exists ss. split; [|split].
    + rewrite Hday. apply Hincl, Hl. exact Hss.
    + exact Hperm.
    + eapply Forall_impl; [|exact Hentries].
      intros sn (es & Hes & Hp). exists es. split; [|exact Hp].
      apply Hincl, Hl. exact Hes.
Qed.

(** ** Upserts against the store *)

Lemma upsertSupplied_on_store (listing : DayListing) (st : Store)
      (slotEntryId : Z) (k : ConfigKind) (value : option Z) (u : list string) :
  exists (st1 : Store) (u1 : list string) (log : list Exchange),
    run (serve listing) (upsertSupplied slotEntryId k value u) st
    = (Returned u1, st1, log) /\
    upsert_effect slotEntryId k value st u st1 u1.
Proof.
  destruct value as [v|]; [|do 3 eexists; split; [reflexivity | constructor]].
  unfold upsertSupplied, upsertMetric.
  destruct (configs_of slotEntryId k st) as [|c0 rest] eqn:Hcfg.
  - unfold configs_of in Hcfg.
    destruct k; cbn in Hcfg |- *; rewrite Hcfg; cbn;
      do 3 eexists; (split; [reflexivity|]);
      (apply effect_created;
       [ exact Hcfg | reflexivity
       | intros k' Hk'; destruct k'; try reflexivity; contradiction
       | cbn; lia ]).
  - assert (Hin : In c0 (st_configs k st)).
    { unfold configs_of in Hcfg.
      assert (H : In c0 (c0 :: rest)) by (left; reflexivity).
      rewrite <- Hcfg in H. apply filter_In in H. tauto. }
    destruct (find (fun c => config_id c =? config_id c0) (st_configs k st))
      as [c1|] eqn:Hfind.
    2:{ exfalso. pose proof (find_none _ _ Hfind _ Hin) as H. cbn in H.
        rewrite Z.eqb_refl in H. discriminate. }
    unfold configs_of in Hcfg.
    destruct k; cbn in Hcfg, Hfind |- *; rewrite Hcfg; cbn; rewrite Hfind; cbn;
      do 3 eexists; (split; [reflexivity|]);
      (eapply effect_updated;
       [ exact Hcfg | exact Hfind | reflexivity
       | intros k' Hk'; destruct k'; try reflexivity; contradiction
       | cbn; lia ]).
Qed.

Lemma updateExercise_on_store (listing : DayListing) (st : Store) (args : JObj)
      (input : UpdateExerciseInput) :
  UpdateExerciseSchema args = Some input ->
  exists (st1 st2 st3 : Store) (u1 u2 u3 : list string) (log : list Exchange),
    run (serve listing) (updateExerciseInRoutineHandler true args) st
    = (Returned (mkUpdateResult true u3), st3, log) /\
    upsert_effect (ue_slotEntryId input) Sets (ue_sets input) st [] st1 u1 /\
    upsert_effect (ue_slotEntryId input) Repetitions (ue_reps input) st1 u1 st2 u2 /\
    upsert_effect (ue_slotEntryId input) Weight (ue_weight input) st2 u2 st3 u3.
Proof.
  intro Hschema.
  rewrite (updateExercise_refines_spec true args Store (serve listing) st).
  unfold updateExerciseInRoutine_spec, zod_parse; cbn [negb].
  rewrite Hschema; cbn [bind].
  rewrite run_bind, run_await; cbn [serve].
  destruct (upsertSupplied_on_store listing st (ue_slotEntryId input) Sets
              (ue_sets input) []) as (st1 & u1 & l1 & H1 & E1).
  destruct (upsertSupplied_on_store listing st1 (ue_slotEntryId input) Repetitions
              (ue_reps input) u1) as (st2 & u2 & l2 & H2 & E2).
  destruct (upsertSupplied_on_store listing st2 (ue_slotEntryId input) Weight
              (ue_weight input) u2) as (st3 & u3 & l3 & H3 & E3).
  rewrite run_bind, H1, run_bind, H2, run_bind, H3. cbn [run].
  exists st1, st2, st3, u1, u2, u3. eexists. split; [reflexivity|]. auto.
Qed.

Lemma labels_of_other_kind (k k0 : ConfigKind) :
  k <> k0 ->
  created_label k <> created_label k0 /\ created_label k <> updated_label k0 /\
  updated_label k <> created_label k0 /\ updated_label k <> updated_label k0.
Proof.
  intro H. destruct k, k0; try contradiction; repeat split; discriminate.
Qed.

Lemma created_is_not_updated (k : ConfigKind) : created_label k <> updated_label k.
Proof. destruct k; discriminate. Qed.

Lemma In_snoc (A : Type) (x y : A) (l : list A) :
  In x (l ++ [y]) <-> In x l \/ x = y.
Proof.
  rewrite in_app_iff. simpl. intuition congruence.
Qed.

(** An upsert of another kind leaves the configs of kind [k0] and the
    reports about [k0] as they are. *)
Lemma effect_other_kind (e : Z) (k k0 : ConfigKind) (value : option Z)
      (st st1 : Store) (u u1 : list string) :
  upsert_effect e k value st u st1 u1 ->
  k0 <> k ->
  st_configs k0 st1 = st_configs k0 st /\
  st_next_id st <= st_next_id st1 /\
  (In (created_label k0) u1 <-> In (created_label k0) u) /\
  (In (updated_label k0) u1 <-> In (updated_label k0) u).
Proof.
  intros Heff Hk.
  assert (Hk' : k <> k0) by congruence.
  destruct (labels_of_other_kind k k0 Hk') as (H1 & H2 & H3 & H4).
  destruct Heff as [st u | v st st1 u Hcfg Hnew Hframe Hid
                   | v st st1 u c0 c1 rest Hcfg Hfind Hnew Hframe Hid].
  - repeat split; auto; lia.
  - split; [auto|]. split; [assumption|].
    rewrite !In_snoc. split; split; intuition congruence.
  - split; [auto|]. split; [assumption|].
    rewrite !In_snoc. split; split; intuition congruence.
Qed.

Lemma sole_config_transfer (e : Z) (k : ConfigKind) (value : JVal) (st st1 : Store) :
  st_configs k st1 = st_configs k st ->
  sole_config e k value st -> sole_config e k value st1.
Proof.
  intros Heq (c0 & Hcfg & Hval & Huniq).
  exists c0. unfold configs_of in *. rewrite Heq. auto.
Qed.

(** The first upsert for a slot entry creates its config. *)
Lemma effect_create (e : Z) (k : ConfigKind) (v : Z)
      (st st1 : Store) (u u1 : list string) :
  upsert_effect e k (Some v) st u st1 u1 ->
  fresh_ids k st ->
  configs_of e k st = [] ->
  sole_config e k (wire_value k v) st1 /\ u1 = u ++ [created_label k].
Proof.
  intros Heff Hfresh Hnone.
  inversion Heff as [| v' st' st1' u' Hcfg Hnew Hframe Hid
                     | v' st' st1' u' c0 c1 rest Hcfg]; subst.
  2:{ rewrite Hnone in Hcfg; discriminate. }
  split; [|reflexivity].
  exists (mkConfig (st_next_id st) e 1 (wire_value k v)).
  unfold configs_of in *. rewrite Hnew, filter_app, Hnone. cbn.
  rewrite Z.eqb_refl. split; [reflexivity|]. split; [reflexivity|].
  intros x Hx Hidx. apply in_app_iff in Hx. destruct Hx as [Hx | [Hx | []]].
  - exfalso. unfold fresh_ids in Hfresh. rewrite Forall_forall in Hfresh.
    specialize (Hfresh x Hx). lia.
  - auto.
Qed.

Lemma filter_map_same_key (f : Config -> Config) (e : Z) (l : list Config) :
  (forall x, In x l -> config_slot_entry (f x) = config_slot_entry x) ->
  filter (fun c => config_slot_entry c =? e) (map f l)
  = map f (filter (fun c => config_slot_entry c =? e) l).
Proof.
  induction l as [|x l IH]; intro H; simpl; [reflexivity|].
  rewrite (H x (or_introl eq_refl)).
  destruct (config_slot_entry x =? e); simpl; rewrite IH; auto;
    intros y Hy; apply H; right; exact Hy.
Qed.

(** Every later upsert updates that config in place. *)
Lemma effect_update (e : Z) (k : ConfigKind) (v : Z) (value : JVal)
      (st st1 : Store) (u u1 : list string) :
  upsert_effect e k (Some v) st u st1 u1 ->
  sole_config e k value st ->
  sole_config e k (wire_value k v) st1 /\ u1 = u ++ [updated_label k].
Proof.
  intros Heff (c & Hsole & Hval & Huniq).
  inversion Heff as [| v' st' st1' u' Hcfg
                     | v' st' st1' u' c0 c1 rest Hcfg Hfind Hnew Hframe Hid]; subst.
  1:{ rewrite Hsole in Hcfg; discriminate. }
  split; [|reflexivity].
  rewrite Hsole in Hcfg. inversion Hcfg; subst c0 rest.
  assert (Hc1 : c1 = c).
  { apply find_some in Hfind. destruct Hfind as [Hin Hid1].
    apply Huniq; [exact Hin | apply Z.eqb_eq; exact Hid1]. }
  subst c1.
  set (c' := mkConfig (config_id c) (config_slot_entry c) (config_iteration c)
                      (wire_value k v)) in *.
  set (f := fun x => if config_id x =? config_id c then c' else x) in *.
  assert (Hkey : forall x, In x (st_configs k st) ->
                           config_slot_entry (f x) = config_slot_entry x).
  { intros x Hx. unfold f.
    destruct (Z.eqb_spec (config_id x) (config_id c)) as [Heq | Hne]; [|reflexivity].
    rewrite (Huniq x Hx Heq). reflexivity. }
  exists c'. unfold configs_of in *. rewrite Hnew.
  rewrite (filter_map_same_key f e _ Hkey), Hsole. cbn [map].
  split; [unfold f; rewrite Z.eqb_refl; reflexivity|].
  split; [reflexivity|].
  intros x Hx Hidx. apply in_map_iff in Hx. destruct Hx as (y & Hy & Hiny).
  subst x. unfold f in *.
  destruct (Z.eqb_spec (config_id y) (config_id c)) as [Heq | Hne]; [reflexivity|].
  exfalso. apply Hne. exact Hidx.
Qed.

Lemma fresh_ids_transfer (k : ConfigKind) (st st1 : Store) :
  st_configs k st1 = st_configs k st ->
  st_next_id st <= st_next_id st1 ->
  fresh_ids k st -> fresh_ids k st1.
Proof.
  unfold fresh_ids. intros Heq Hle H. rewrite Heq.
  eapply Forall_impl; [|exact H]. cbn; intros; lia.
Qed.

Lemma configs_of_transfer (e : Z) (k : ConfigKind) (st st1 : Store) :
  st_configs k st1 = st_configs k st ->
  configs_of e k st1 = configs_of e k st.
Proof. unfold configs_of. intros ->. reflexivity. Qed.

(** The store keeps its ids fresh: whatever request it serves, the ids in
    use stay below the next id. *)
Lemma patch_config_id (body : JObj) (c c' : Config) :
  patch_config body c = Some c' -> config_id c' = config_id c.
Proof.
  unfold patch_config. intro H.
  destruct (field_num body "slot_entry" _); [|discriminate].
  destruct (field_num body "iteration" _); [|discriminate].
  destruct (field_val body "value" _); [|discriminate].
  inversion H; reflexivity.
Qed.

Lemma Forall_lt_le (l : list Config) (n m : Z) :
  n <= m ->
  Forall (fun c => config_id c < n) l -> Forall (fun c => config_id c < m) l.
Proof.
  intros Hle H. eapply Forall_impl; [|exact H]. cbn; intros; lia.
Qed.

Lemma map_replace_fresh (n id : Z) (c1 c' : Config) (l : list Config) :
  In c1 l ->
  config_id c' = config_id c1 ->
  Forall (fun c => config_id c < n) l ->
  Forall (fun c => config_id c < n)
         (map (fun x => if config_id x =? id then c' else x) l).
Proof.
  intros Hin Hid Hall. apply Forall_forall. intros x Hx.
  apply in_map_iff in Hx. destruct Hx as (y & Hy & Hiny).
  rewrite Forall_forall in Hall.
  destruct (config_id y =? id); subst x.
  - rewrite Hid. apply Hall; exact Hin.
  - apply Hall; exact Hiny.
Qed.

Ltac break_match :=
  match goal with
  | |- context [match ?x with _ => _ end] => destruct x eqn:?
  end.

Lemma serve_keeps_ids_fresh (listing : DayListing) (st : Store) (r : Request)
      (k : ConfigKind) :
  fresh_ids k st -> fresh_ids k (snd (serve listing st r)).
Proof.
  unfold fresh_ids. intro H.
  destruct r as [| c params | c id | c body | c id body | c id];
    try (destruct c as [| | | | k']); cbn; try exact H;
    repeat (break_match; cbn in * ); try exact H;
    try (eapply Forall_lt_le; [|exact H]; lia).
  - match goal with
    | Hp : patch_config _ _ = Some _ |- _ =>
        apply patch_config_id in Hp; cbn in Hp
    end.
    destruct k, k'; cbn in *;
      try (eapply Forall_lt_le; [|exact H]; lia);
      (apply Forall_app; split;
       [eapply Forall_lt_le; [|exact H]; lia
       | constructor; [lia | constructor]]).
  - match goal with
    | Hp : patch_config _ _ = Some _, Hf : find _ _ = Some _ |- _ =>
        apply patch_config_id in Hp;
        apply find_some in Hf; destruct Hf as [Hin _]
    end.
    destruct k, k'; cbn in *; try exact H;
      eapply map_replace_fresh; eassumption.
Qed.

Lemma run_keeps_ids_fresh (listing : DayListing) (A : Type) (p : Prog A)
      (k : ConfigKind) :
  forall (st st' : Store) (o : Outcome A) (log : list Exchange),
    run (serve listing) p st = (o, st', log) ->
    fresh_ids k st -> fresh_ids k st'.
Proof.
  induction p as [a | e | r cont IH]; intros st st' o log Hrun Hfresh; simpl in Hrun.
  - inversion Hrun; subst; exact Hfresh.
  - inversion Hrun; subst; exact Hfresh.
  - pose proof (serve_keeps_ids_fresh listing st r k Hfresh) as Hstep.
    destruct (serve listing st r) as [[e | resp] st1]; cbn in Hstep.
    + inversion Hrun; subst; exact Hstep.
    + destruct (run (serve listing) (cont resp) st1) as [[o1 st2] l1] eqn:E.
      inversion Hrun; subst. eapply IH; eassumption.
Qed.

(** A call that supplies the metric for a slot entry without a config of
    that kind reports created and leaves exactly one config. *)
Lemma call_creates (listing : DayListing) (st : Store) (args : JObj)
      (e : Z) (k : ConfigKind) (v : Z) :
  supplies e k args v ->
  fresh_ids k st ->
  configs_of e k st = [] ->
  exists (r : UpdateResult) (st' : Store) (log : list Exchange),
    run (serve listing) (updateExerciseInRoutineHandler true args) st
    = (Returned r, st', log) /\
    reports_created k r /\
    sole_config e k (wire_value k v) st'.
Proof.
  intros (input & Hschema & He & Hmetric) Hfresh Hnone. subst e.
  destruct (updateExercise_on_store listing st args input Hschema)
    as (st1 & st2 & st3 & u1 & u2 & u3 & log & Hrun & E1 & E2 & E3).
  exists (mkUpdateResult true u3), st3, log. split; [exact Hrun|].
  unfold reports_created; cbn [ur_updates].
  pose proof (created_is_not_updated k) as Hdiff.
  destruct k; cbn [metric_of] in Hmetric; rewrite Hmetric in *.
  - destruct (effect_create _ _ _ _ _ _ _ E1 Hfresh Hnone) as [Hsole Hu1].
    apply effect_other_kind with (k0 := Sets) in E2 as (Hc2 & _ & Hl2 & Hm2);
      [|discriminate].
    apply effect_other_kind with (k0 := Sets) in E3 as (Hc3 & _ & Hl3 & Hm3);
      [|discriminate].
    split.
    + rewrite Hl3, Hl2, Hm3, Hm2, Hu1. cbn. intuition congruence.
    + apply (sole_config_transfer _ _ _ _ _ Hc3).
      apply (sole_config_transfer _ _ _ _ _ Hc2). exact Hsole.
  - apply effect_other_kind with (k0 := Repetitions) in E1 as (Hc1 & Hn1 & Hl1 & Hm1);
      [|discriminate].
    pose proof (fresh_ids_transfer _ _ _ Hc1 Hn1 Hfresh) as Hfresh1.
    rewrite <- (configs_of_transfer (ue_slotEntryId input) _ _ _ Hc1) in Hnone.
    destruct (effect_create _ _ _ _ _ _ _ E2 Hfresh1 Hnone) as [Hsole Hu2].
    apply effect_other_kind with (k0 := Repetitions) in E3 as (Hc3 & _ & Hl3 & Hm3);
      [|discriminate].
    split.
    + rewrite Hl3, Hm3, Hu2, !In_snoc, Hl1, Hm1. cbn. intuition congruence.
    + apply (sole_config_transfer _ _ _ _ _ Hc3). exact Hsole.
  - apply effect_other_kind with (k0 := Weight) in E1 as (Hc1 & Hn1 & Hl1 & Hm1);
      [|discriminate].
    apply effect_other_kind with (k0 := Weight) in E2 as (Hc2 & Hn2 & Hl2 & Hm2);
      [|discriminate].
    pose proof (fresh_ids_transfer _ _ _ Hc1 Hn1 Hfresh) as Hfresh1.
    pose proof (fresh_ids_transfer _ _ _ Hc2 Hn2 Hfresh1) as Hfresh2.
    rewrite <- (configs_of_transfer (ue_slotEntryId input) _ _ _ Hc1) in Hnone.
    rewrite <- (configs_of_transfer (ue_slotEntryId input) _ _ _ Hc2) in Hnone.
    destruct (effect_create _ _ _ _ _ _ _ E3 Hfresh2 Hnone) as [Hsole Hu3].
    split.
    + rewrite Hu3, !In_snoc, Hl2, Hm2, Hl1, Hm1. cbn. intuition congruence.
    + exact Hsole.
Qed.

(** A call that supplies the metric for a slot entry that has its one
    config of that kind reports updated and overwrites the value. *)
Lemma call_updates (listing : DayListing) (st : Store) (args : JObj)
      (e : Z) (k : ConfigKind) (v : Z) (value : JVal) :
  supplies e k args v ->
  sole_config e k value st ->
  exists (r : UpdateResult) (st' : Store) (log : list Exchange),
    run (serve listing) (updateExerciseInRoutineHandler true args) st
    = (Returned r, st', log) /\
    reports_updated k r /\
    sole_config e k (wire_value k v) st'.
Proof.
  intros (input & Hschema & He & Hmetric) Hsole0. subst e.
  destruct (updateExercise_on_store listing st args input Hschema)
    as (st1 & st2 & st3 & u1 & u2 & u3 & log & Hrun & E1 & E2 & E3).
  exists (mkUpdateResult true u3), st3, log. split; [exact Hrun|].
  unfold reports_updated; cbn [ur_updates].
  pose proof (created_is_not_updated k) as Hdiff.
  destruct k; cbn [metric_of] in Hmetric; rewrite Hmetric in *.
  - destruct (effect_update _ _ _ _ _ _ _ _ E1 Hsole0) as [Hsole Hu1].
    apply effect_other_kind with (k0 := Sets) in E2 as (Hc2 & _ & Hl2 & Hm2);
      [|discriminate].
    apply effect_other_kind with (k0 := Sets) in E3 as (Hc3 & _ & Hl3 & Hm3);
      [|discriminate].
    split.
    + rewrite Hl3, Hl2, Hm3, Hm2, Hu1. cbn. intuition congruence.
    + apply (sole_config_transfer _ _ _ _ _ Hc3).
      apply (sole_config_transfer _ _ _ _ _ Hc2). exact Hsole.
  - apply effect_other_kind with (k0 := Repetitions) in E1 as (Hc1 & Hn1 & Hl1 & Hm1);
      [|discriminate].
    pose proof (sole_config_transfer _ _ _ _ _ Hc1 Hsole0) as Hsole1.
    destruct (effect_update _ _ _ _ _ _ _ _ E2 Hsole1) as [Hsole Hu2].
    apply effect_other_kind with (k0 := Repetitions) in E3 as (Hc3 & _ & Hl3 & Hm3);
      [|discriminate].
    split.
    + rewrite Hl3, Hm3, Hu2, !In_snoc, Hl1, Hm1. cbn. intuition congruence.
    + apply (sole_config_transfer _ _ _ _ _ Hc3). exact Hsole.
  - apply effect_other_kind with (k0 := Weight) in E1 as (Hc1 & Hn1 & Hl1 & Hm1);
      [|discriminate].
    apply effect_other_kind with (k0 := Weight) in E2 as (Hc2 & Hn2 & Hl2 & Hm2);
      [|discriminate].
    pose proof (sole_config_transfer _ _ _ _ _ Hc1 Hsole0) as Hsole1.
    pose proof (sole_config_transfer _ _ _ _ _ Hc2 Hsole1) as Hsole2.
    destruct (effect_update _ _ _ _ _ _ _ _ E3 Hsole2) as [Hsole Hu3].
    split.
    + rewrite Hu3, !In_snoc, Hl2, Hm2, Hl1, Hm1. cbn. intuition congruence.
    + exact Hsole.
Qed.

Lemma last_cons_default (A : Type) (l : list A) :
  forall x d : A, last (x :: l) d = last l x.
Proof.
  induction l as [|y l IH]; intros x d; [reflexivity|].
  change (last (x :: y :: l) d) with (last (y :: l) d).
  rewrite !IH. reflexivity.
Qed.

Lemma later_calls_update (listing : DayListing) (e : Z) (k : ConfigKind)
      (calls : list JObj) (vs : list Z) :
  Forall2 (supplies e k) calls vs ->
  forall (st : Store) (v0 : Z),
    sole_config e k (wire_value k v0) st ->
    exists (rs : list UpdateResult) (st' : Store),
      run_calls listing calls st = (map Returned rs, st') /\
      Forall (reports_updated k) rs /\
      sole_config e k (wire_value k (last vs v0)) st'.
Proof.
  induction 1 as [|args v calls vs Hargs Hrest IH]; intros st v0 Hsole.
  - exists [], st. repeat split; [constructor | exact Hsole].
  - destruct (call_updates listing st args e k v _ Hargs Hsole)
      as (r & st1 & log & Hrun & Hrep & Hsole1).
    destruct (IH st1 v Hsole1) as (rs & st' & Hcalls & Hreps & Hsole').
    exists (r :: rs), st'. cbn [run_calls]. rewrite Hrun, Hcalls.
    split; [reflexivity|]. split; [constructor; assumption|].
    rewrite last_cons_default. exact Hsole'.
Qed.

(** C5: take a slot entry without a config of some kind, in a store whose
    ids of that kind lie below its next id, and any sequence of calls that
    each supply that metric for that slot entry.  Every call succeeds; the
    first reports created and every later one reports updated; afterwards
    the slot entry has exactly one config of the kind, and its value is
    the one passed to the last call. *)
Theorem upsert_created_then_updated :
  forall (listing : DayListing) (slotEntryId : Z) (k : ConfigKind) (st : Store)
         (first : JObj) (rest : list JObj) (v0 : Z) (vs : list Z),
    fresh_ids k st ->
    configs_of slotEntryId k st = [] ->
    supplies slotEntryId k first v0 ->
    Forall2 (supplies slotEntryId k) rest vs ->
    exists (r0 : UpdateResult) (rs : list UpdateResult) (st' : Store) (c : Config),
      run_calls listing (first :: rest) st = (Returned r0 :: map Returned rs, st') /\
      reports_created k r0 /\
      Forall (reports_updated k) rs /\
      configs_of slotEntryId k st' = [c] /\
      config_value c = wire_value k (last vs v0).
Proof.
  intros listing e k st first rest v0 vs Hfresh Hnone Hfirst Hrest.
  destruct (call_creates listing st first e k v0 Hfirst Hfresh Hnone)
    as (r0 & st1 & log & Hrun & Hrep & Hsole).
  destruct (later_calls_update listing e k rest vs Hrest st1 v0 Hsole)
    as (rs & st' & Hcalls & Hreps & (c & Hc & Hval & _)).
  exists r0, rs, st', c. cbn [run_calls]. rewrite Hrun, Hcalls.
  split; [reflexivity|]. split; [exact Hrep|]. split; [exact Hreps|].
  split; [exact Hc | exact Hval].
Qed.

(** ** The statements at sample inputs *)

Lemma addExercise_finds_or_creates_day_witness :
  AddExerciseToRoutineSchema args_leg_day
  = Some (mkAddExerciseToRoutineInput 1 12 3 10 (Some 50) (Some "Leg Day") None) /\
  map fst (filter (fun x => day_write (fst x))
             (snd (run (serve AllDays)
                       (addExerciseToRoutineHandler true args_leg_day)
                       store_two_routines)))
  = [Post c_day [("routine", JNum 1); ("type", JStr "custom");
                 ("name", JStr "Leg Day"); ("is_rest", JBool false);
                 ("order", JNum 1)]].
Proof.
  assert (Hschema : AddExerciseToRoutineSchema args_leg_day
                    = Some (mkAddExerciseToRoutineInput
                              1 12 3 10 (Some 50) (Some "Leg Day") None))
    by reflexivity.
  split; [exact Hschema|].
  pose proof (addExercise_finds_or_creates_day Store (serve AllDays) args_leg_day
                (mkAddExerciseToRoutineInput 1 12 3 10 (Some 50) (Some "Leg Day") None)
                store_two_routines) as H.
  remember (run (serve AllDays) (addExerciseToRoutineHandler true args_leg_day)
                store_two_routines) as R eqn:ER.
  vm_compute in ER. subst R.
  destruct (H _ _ _ Hschema eq_refl) as (desired & Hname & _ & _ & Hcases).
  rewrite (Hname "Leg Day" eq_refl ltac:(discriminate)) in Hcases.
  specialize (Hcases [RawDay (mkDay 7 2 1 "custom" "Squats" "Heavy" false)]
                     [mkDay 7 2 1 "custom" "Squats" "Heavy" false]
                     eq_refl eq_refl).
  cbn in Hcases. destruct Hcases as (reply & _ & Hwrites).
  exact Hwrites.
Defined.

Lemma getRoutineDetails_sorted_witness :
  exists (tree : DetailedRoutine) (st' : Store) (log : list Exchange),
    run (serve AllDays) (getRoutineDetailsHandler true [("routineId", JNum 1)])
        store_shuffled
    = (Returned tree, st', log) /\
    map (fun dn => day_id (dn_day dn)) (dr_days tree) = [1; 2; 3] /\
    StronglySorted (fun a b => day_order a <= day_order b)
                   (map dn_day (dr_days tree)) /\
    map (fun dn =>
           map (fun sn =>
                  (slot_id (sn_slot sn),
                   map (fun en => entry_id (en_entry en)) (sn_entries sn)))
               (dn_slots dn))
        (dr_days tree)
    = [[(12, [22; 21]); (11, [])]; []; []] /\
    Forall (fun dn =>
              exists ss : list Slot,
                listed log
                       (Get c_slot
                            [("day", JNum (day_id (dn_day dn))); ("limit", JNum 100)])
                       (map RawSlot ss) /\
                Permutation (map sn_slot (dn_slots dn)) ss /\
                Forall (fun sn =>
                          exists es : list SlotEntry,
                            listed log
                                   (Get c_slot_entry
                                        [("slot", JNum (slot_id (sn_slot sn)));
                                         ("limit", JNum 100)])
                                   (map RawSlotEntry es) /\
                            Permutation (map en_entry (sn_entries sn)) es)
                       (dn_slots dn))
           (dr_days tree).
Proof.
  pose proof (getRoutineDetails_sorted Store (serve AllDays) true
                [("routineId", JNum 1)] store_shuffled) as H.
  remember (run (serve AllDays) (getRoutineDetailsHandler true [("routineId", JNum 1)])
                store_shuffled) as R eqn:ER.
  vm_compute in ER. subst R.
  do 3 eexists. split; [reflexivity|]. split; [reflexivity|].
  destruct (H _ _ _ eq_refl)
    as (routineId & rs & _ & _ & _ & Hsorted & _ & _ & Hlisted).
  split; [exact Hsorted|]. split; [reflexivity | exact Hlisted].
Defined.

Lemma upsert_created_then_updated_witness :
  exists (r0 : UpdateResult) (rs : list UpdateResult) (st' : Store) (c : Config),
    run_calls ByRoutine
      [[("slotEntryId", JNum 5); ("weight", JNum 50)];
       [("slotEntryId", JNum 5); ("sets", JNum 3); ("weight", JNum 60)]]
      empty_store
    = (Returned r0 :: map Returned rs, st') /\
    configs_of 5 Weight st' = [c] /\
    config_value c = JStr "60".
Proof.
  destruct (upsert_created_then_updated ByRoutine 5 Weight empty_store
              [("slotEntryId", JNum 5); ("weight", JNum 50)]
              [[("slotEntryId", JNum 5); ("sets", JNum 3); ("weight", JNum 60)]]
              50 [60])
    as (r0 & rs & st' & c & Hrun & _ & _ & Hc & Hval).
  - constructor.
  - reflexivity.
  - eexists. split; [reflexivity|]. split; reflexivity.
  - constructor; [|constructor].
    eexists. split; [reflexivity|]. split; reflexivity.
  - exists r0, rs, st', c. split; [exact Hrun|]. split; [exact Hc | exact Hval].
Defined.

Lemma addExercise_aborts_without_cleanup_witness :
  exists (st' : Store) (log : list Exchange),
    run (serve_rejecting c_slot_entry)
        (addExerciseToRoutineHandler true args_leg_day) store_two_routines
    = (Thrown (ApiError 500 "Internal Server Error"), st', log) /\
    List.length log = 5%nat /\
    st_slots st' = [mkSlot 101 100 1] /\
    (forall x : Exchange, In x log -> is_delete (fst x) = false).
Proof.
  pose proof (addExercise_aborts_without_cleanup Store (serve_rejecting c_slot_entry)
                true args_leg_day store_two_routines) as H.
  remember (run (serve_rejecting c_slot_entry)
                (addExerciseToRoutineHandler true args_leg_day)
                store_two_routines) as R eqn:ER.
  vm_compute in ER. subst R.
  do 2 eexists. split; [reflexivity|].
  destruct (H _ _ _ eq_refl) as (Hrejected & _ & Hnodelete).
  split; [|split; [reflexivity | exact Hnodelete]].
  exact (proj2 (Hrejected 4%nat _ _ eq_refl)).
Defined.

Lemma updateDay_keeps_unsupplied_fields_witness :
  exists (d' : Day) (st' : Store) (log : list Exchange),
    run (serve ByRoutine) (updateDayHandler true [("dayId", JNum 7); ("name", JStr "X")])
        store_two_routines
    = (Returned d', st', log) /\
    day_name d' = "X" /\
    day_description d' = "Heavy" /\
    day_is_rest d' = false.
Proof.
  destruct (updateDay_keeps_unsupplied_fields ByRoutine store_two_routines
              [("dayId", JNum 7); ("name", JStr "X")]
              (mkUpdateDayInput 7 None None (Some "X"))
              (mkDay 7 2 1 "custom" "Squats" "Heavy" false)
              eq_refl eq_refl)
    as (d' & st' & log & body & Hrun & _ & _ & _ & _ & _ & _ & _ & _ & _
        & Hname & Hdescr & Hrest).
  exists d', st', log.
  split; [exact Hrun|]. split; [exact Hname|]. split; [exact Hdescr | exact Hrest].
Defined.


Lemma updateExercise_upserts_each_metric_witness :
  exists (st' : Store) (log : list Exchange),
    run (serve ByRoutine)
        (updateExerciseInRoutineHandler true
           [("slotEntryId", JNum 22); ("sets", JNum 4); ("reps", JNum 12);
            ("weight", JNum 55)])
        store_shuffled
    = (Returned (mkUpdateResult true
                   ["sets (updated)"; "reps (created)"; "weight (updated)"]),
       st', log) /\
    map fst log
    = [Token;
       Get (c_config Sets) [("slot_entry", JNum 22)];
       Patch (c_config Sets) 31 [("value", JNum 4)];
       Get (c_config Repetitions) [("slot_entry", JNum 22)];
       Post (c_config Repetitions)
            [("slot_entry", JNum 22); ("iteration", JNum 1); ("value", JNum 12)];
       Get (c_config Weight) [("slot_entry", JNum 22)];
       Patch (c_config Weight) 32 [("value", JStr "55")]].
Proof.
  rewrite (proj1 updateExercise_upserts_each_metric true
             [("slotEntryId", JNum 22); ("sets", JNum 4); ("reps", JNum 12);
              ("weight", JNum 55)]
             Store (serve ByRoutine) store_shuffled).
  do 2 eexists. split; vm_compute; reflexivity.
Defined.

(** The round trip of section 8 of the spec: what [addExerciseToRoutine]
    writes is what [getRoutineDetails] reads back. *)
Example tree_round_trip :
  fst (fst (run (serve ByRoutine) (getRoutineDetailsHandler true [("routineId", JNum 1)])
                (snd (fst (run (serve ByRoutine)
                               (addExerciseToRoutineHandler true args_leg_day)
                               store_two_routines)))))
  = Returned
      (mkDetailedRoutine
         (RItem (RawRoutine (mkRoutine 1 "Upper" "")))
         [mkDayNode (mkDay 100 1 1 "custom" "Leg Day" "" false)
            [mkSlotNode (mkSlot 101 100 1)
               [mkEntryNode (mkSlotEntry 102 101 12 1 "")
                  (Some (JNum 3)) (Some (JNum 10)) (Some (JStr "50"))]]]).
Proof. vm_compute. reflexivity. Qed.

(** The example of section 8 of the spec: days listed in the order of the
    ids 3, 1, 2 come back in the order 1, 2, 3, and the slots and entries
    of day 1 come back by order as well. *)
Example sort_example :
  fst (fst (run (serve ByRoutine) (getRoutineDetailsHandler true [("routineId", JNum 1)])
                store_shuffled))
  = Returned
      (mkDetailedRoutine
         (RItem (RawRoutine (mkRoutine 1 "Upper" "")))
         [mkDayNode (mkDay 1 1 1 "custom" "A" "" false)
            [mkSlotNode (mkSlot 12 1 1)
               [mkEntryNode (mkSlotEntry 22 12 41 1 "")
                  (Some (JNum 3)) None (Some (JStr "50"));
                mkEntryNode (mkSlotEntry 21 12 40 2 "") None None None];
             mkSlotNode (mkSlot 11 1 2) []];
          mkDayNode (mkDay 2 1 2 "custom" "B" "" false) [];
          mkDayNode (mkDay 3 1 3 "custom" "C" "" false) []]).
Proof. vm_compute. reflexivity. Qed.

(** * Further properties of the handlers *)

(** ** Deleting a day or a slot *)

(** X1: in every run, [deleteDay] issues nothing but the token request
    and one DELETE on the day with the given id; it reads nothing first
    and deletes nothing else.  When it returns, the DELETE was accepted
    and the result is [{success: true, id}] with the id that was passed,
    whatever the remote replied. *)
Theorem deleteDay_issues_one_delete :
  forall (World : Type) (respond : World -> Request -> (Error + Response) * World)
         (hasCredentials : bool) (args : JObj) (w w' : World)
         (o : Outcome Deleted) (log : list Exchange),
    run respond (deleteDayHandler hasCredentials args) w = (o, w', log) ->
    (forall x : Exchange,
        In x log ->
        fst x = Token \/
        exists dayId : Z, DeleteDaySchema args = Some dayId /\ fst x = Delete c_day dayId) /\
    (forall r : Deleted,
        o = Returned r ->
        exists (dayId : Z) (t resp : Response),
          DeleteDaySchema args = Some dayId /\
          r = mkDeleted true dayId /\
          log = [(Token, inr t); (Delete c_day dayId, inr resp)]).
Proof.
  intros World respond creds args w w' o log Hrun.
  unfold deleteDayHandler, zod_parse, await in Hrun.
  destruct creds; simpl in Hrun.
  2:{ inversion Hrun; subst. split; [intros x []|discriminate]. }
  destruct (DeleteDaySchema args) as [dayId|]; simpl in Hrun.
  2:{ inversion Hrun; subst. split; [intros x []|discriminate]. }
  destruct (respond w Token) as [[e | t] w1]; simpl in Hrun.
  { inversion Hrun; subst. split; [|discriminate].
    intros x [Hx | []]; subst x; auto. }
  destruct (respond w1 _) as [[e | resp] w2]; simpl in Hrun;
    inversion Hrun; subst; split.
  - intros x [Hx | [Hx | []]]; subst x; simpl; eauto.
  - discriminate.
  - intros x [Hx | [Hx | []]]; subst x; simpl; eauto.
  - intros r Hr. inversion Hr; subst. eauto 6.
Qed.

(** X2: the same for [deleteSlot]: the token request and one DELETE on
    the slot with the given id, and nothing on the slot entries or the
    configs below it. *)
Theorem deleteSlot_issues_one_delete :
  forall (World : Type) (respond : World -> Request -> (Error + Response) * World)
         (hasCredentials : bool) (args : JObj) (w w' : World)
         (o : Outcome Deleted) (log : list Exchange),
    run respond (deleteSlotHandler hasCredentials args) w = (o, w', log) ->
    (forall x : Exchange,
        In x log ->
        fst x = Token \/
        exists slotId : Z,
          DeleteSlotSchema args = Some slotId /\ fst x = Delete c_slot slotId) /\
    (forall r : Deleted,
        o = Returned r ->
        exists (slotId : Z) (t resp : Response),
          DeleteSlotSchema args = Some slotId /\
          r = mkDeleted true slotId /\
          log = [(Token, inr t); (Delete c_slot slotId, inr resp)]).
Proof.
  intros World respond creds args w w' o log Hrun.
  unfold deleteSlotHandler, zod_parse, await in Hrun.
  destruct creds; simpl in Hrun.
  2:{ inversion Hrun; subst. split; [intros x []|discriminate]. }
  destruct (DeleteSlotSchema args) as [slotId|]; simpl in Hrun.
  2:{ inversion Hrun; subst. split; [intros x []|discriminate]. }
  destruct (respond w Token) as [[e | t] w1]; simpl in Hrun.
  { inversion Hrun; subst. split; [|discriminate].
    intros x [Hx | []]; subst x; auto. }
  destruct (respond w1 _) as [[e | resp] w2]; simpl in Hrun;
    inversion Hrun; subst; split.
  - intros x [Hx | [Hx | []]]; subst x; simpl; eauto.
  - discriminate.
  - intros x [Hx | [Hx | []]]; subst x; simpl; eauto.
  - intros r Hr. inversion Hr; subst. eauto 6.
Qed.

(** ** Updating a day, for every remote *)

(** X3: [updateDay] issues the token request and one PATCH on the day
    with the given id, whose body holds the supplied fields and nothing
    else; with only the id passed the body is empty and the PATCH is sent
    all the same.  What it returns is the day the remote replied with,
    not the values that were passed. *)
Theorem updateDay_returns_the_reply :
  forall (World : Type) (respond : World -> Request -> (Error + Response) * World)
         (hasCredentials : bool) (args : JObj) (w w' : World)
         (o : Outcome Day) (log : list Exchange),
    run respond (updateDayHandler hasCredentials args) w = (o, w', log) ->
    (forall x : Exchange,
        In x log ->
        fst x = Token \/
        exists input : UpdateDayInput,
          UpdateDaySchema args = Some input /\
          fst x = Patch c_day (ud_dayId input)
                    (obj [("description", option_map JStr (ud_description input));
                          ("is_rest", option_map JBool (ud_is_rest input));
                          ("name", option_map JStr (ud_name input))]) /\
          (ud_description input = None -> ud_is_rest input = None ->
           ud_name input = None -> fst x = Patch c_day (ud_dayId input) [])) /\
    (forall d : Day,
        o = Returned d ->
        exists (input : UpdateDayInput) (t : Response) (body : JObj),
          UpdateDaySchema args = Some input /\
          log = [(Token, inr t);
                 (Patch c_day (ud_dayId input) body, inr (RItem (RawDay d)))]).
Proof.
  intros World respond creds args w w' o log Hrun.
  unfold updateDayHandler, zod_parse, await in Hrun.
  destruct creds; simpl in Hrun.
  2:{ inversion Hrun; subst. split; [intros x []|discriminate]. }
  destruct (UpdateDaySchema args) as [input|]; simpl in Hrun.
  2:{ inversion Hrun; subst. split; [intros x []|discriminate]. }
  destruct (respond w Token) as [[e | t] w1]; simpl in Hrun.
  { inversion Hrun; subst. split; [|discriminate].
    intros x [Hx | []]; subst x; auto. }
  assert (Hpatch : forall reply,
             exists input0 : UpdateDayInput,
               Some input = Some input0 /\
               fst (Patch c_day (ud_dayId input)
                      (obj [("description", option_map JStr (ud_description input));
                            ("is_rest", option_map JBool (ud_is_rest input));
                            ("name", option_map JStr (ud_name input))]),
                    reply : Error + Response)
               = Patch c_day (ud_dayId input0)
                   (obj [("description", option_map JStr (ud_description input0));
                         ("is_rest", option_map JBool (ud_is_rest input0));
                         ("name", option_map JStr (ud_name input0))]) /\
               (ud_description input0 = None -> ud_is_rest input0 = None ->
                ud_name input0 = None ->
                fst (Patch c_day (ud_dayId input)
                       (obj [("description", option_map JStr (ud_description input));
                             ("is_rest", option_map JBool (ud_is_rest input));
                             ("name", option_map JStr (ud_name input))]),
                     reply)
                = Patch c_day (ud_dayId input0) [])).
  { intro reply. exists input. split; [reflexivity|]. split; [reflexivity|].
    intros H1 H2 H3. rewrite H1, H2, H3. reflexivity. }
  destruct (respond w1 _) as [[e | resp] w2]; simpl in Hrun.
  - inversion Hrun; subst. split; [|discriminate].
    intros x [Hx | [Hx | []]]; subst x; [left; reflexivity | right; apply Hpatch].
  - destruct (run respond (parse DaySchema resp) w2) as [[o2 w3] l2] eqn:E.
    assert (Hl2 : l2 = [] /\ forall d, o2 = Returned d -> resp = RItem (RawDay d)).
    { destruct resp as [rs | [| d' | | | |] |]; simpl in E; inversion E; subst;
        split; try reflexivity; intros d Hd; inversion Hd; reflexivity. }
    destruct Hl2 as [-> Hret].
    inversion Hrun; subst. split.
    + intros x [Hx | [Hx | []]]; subst x; [left; reflexivity | right; apply Hpatch].
    + intros d Hd. rewrite (Hret d Hd). eauto 6.
Qed.

(** ** Reading a routine: what is requested *)

Lemma AllCalls_Promise_all (P : Request -> Prop) (A B : Type)
      (f : A -> Prog B) (xs : list A) :
  (forall x, AllCalls P (f x)) -> AllCalls P (Promise_all f xs).
Proof.
  intro Hf. induction xs as [|x xs IH]; simpl; [constructor|].
  apply AllCalls_bind; [apply Hf | intro y].
  apply AllCalls_bind; [exact IH | intro ys; constructor].
Qed.

Lemma AllCalls_results_as (P : Request -> Prop) (A : Type)
      (decode : Raw -> option A) (resp : Response) :
  AllCalls P (results_as decode resp).
Proof.
  unfold results_as. apply AllCalls_bind; [apply AllCalls_results | intro rs].
  destruct (decode_all decode rs); constructor.
Qed.

Lemma getRoutineDetails_calls (P : Request -> Prop) (hasCredentials : bool)
      (args : JObj) :
  P Token ->
  (forall c params, P (Get c params)) ->
  (forall c id, P (GetOne c id)) ->
  AllCalls P (getRoutineDetailsHandler hasCredentials args).
Proof.
  intros Htoken Hget Hone.
  assert (Hentry : forall entry, AllCalls P (populateEntry entry)).
  { intro entry. unfold populateEntry, first_value.
    repeat first
      [ apply AllCalls_Ret
      | apply AllCalls_results
      | apply AllCalls_await; auto
      | apply AllCalls_bind; [|intro] ]. }
  assert (Hslot : forall slot, AllCalls P (populateSlot slot)).
  { intro slot. unfold populateSlot.
    apply AllCalls_bind; [apply AllCalls_await; auto | intro].
    apply AllCalls_bind; [apply AllCalls_results_as | intro].
    apply AllCalls_bind; [apply AllCalls_Promise_all; exact Hentry | intro].
    constructor. }
  assert (Hday : forall day, AllCalls P (populateDay day)).
  { intro day. unfold populateDay.
    apply AllCalls_bind; [apply AllCalls_await; auto | intro].
    apply AllCalls_bind; [apply AllCalls_results_as | intro].
    apply AllCalls_bind; [apply AllCalls_Promise_all; exact Hslot | intro].
    constructor. }
  unfold getRoutineDetailsHandler, zod_parse.
  destruct hasCredentials; cbn [negb]; [|constructor].
  apply AllCalls_bind;
    [destruct (GetRoutineDetailsSchema args); constructor | intro routineId].
  apply AllCalls_bind; [apply AllCalls_await; auto | intro].
  apply AllCalls_bind; [apply AllCalls_await; auto | intro].
  apply AllCalls_bind; [apply AllCalls_await; auto | intro].
  apply AllCalls_bind; [apply AllCalls_results | intro].
  apply AllCalls_bind; [apply AllCalls_Promise_all; exact Hday | intro].
  constructor.
Qed.

(** X4: [getRoutineDetails] only reads.  In every run, whatever the
    remote answers and whether the run succeeds or fails, each request is
    the token request or a GET; no create, update or delete is issued. *)
Theorem getRoutineDetails_only_reads :
  forall (World : Type) (respond : World -> Request -> (Error + Response) * World)
         (hasCredentials : bool) (args : JObj) (w w' : World)
         (o : Outcome DetailedRoutine) (log : list Exchange),
    run respond (getRoutineDetailsHandler hasCredentials args) w = (o, w', log) ->
    forall x : Exchange, In x log -> is_read (fst x) = true.
Proof.
  intros World respond creds args w w' o log Hrun.
  apply Forall_forall.
  exact (AllCalls_run World respond (fun r => is_read r = true) _ _
           (getRoutineDetails_calls _ creds args eq_refl
              (fun _ _ => eq_refl) (fun _ _ => eq_refl))
           w w' o log Hrun).
Qed.

Section RequestCount.
Variable World : Type.
Variable respond : World -> Request -> (Error + Response) * World.

Lemma await_Returned (r : Request) (w w' : World) (resp : Response)
      (log : list Exchange) :
  run respond (await r) w = (Returned resp, w', log) -> log = [(r, inr resp)].
Proof.
  rewrite run_await. destruct (respond w r) as [[e | resp0] w1]; intro H;
    inversion H; reflexivity.
Qed.

Lemma first_value_Returned (resp : Response) (w w' : World) (v : option JVal)
      (log : list Exchange) :
  run respond (first_value resp) w = (Returned v, w', log) -> log = [].
Proof.
  unfold first_value. destruct resp; simpl; intro H; inversion H; reflexivity.
Qed.

Lemma Promise_all_log_length (A B : Type) (f : A -> Prog B) (cost : B -> nat)
      (xs : list A) :
  (forall x w w' y l,
      run respond (f x) w = (Returned y, w', l) -> List.length l = cost y) ->
  forall (w w' : World) (ys : list B) (log : list Exchange),
    run respond (Promise_all f xs) w = (Returned ys, w', log) ->
    List.length log = list_sum (map cost ys).
Proof.
  intro Hcost. induction xs as [|x xs IH]; intros w w' ys log Hrun; simpl in Hrun.
  - inversion Hrun; reflexivity.
  - apply run_bind_Returned in Hrun.
    destruct Hrun as (y & w1 & l1 & l2 & Hx & Hrest & ->).
    apply run_bind_Returned in Hrest.
    destruct Hrest as (ys' & w2 & l3 & l4 & Hys & Hret & ->).
    simpl in Hret; inversion Hret; subst.
    rewrite !length_app. simpl.
    rewrite (Hcost _ _ _ _ _ Hx), (IH _ _ _ _ Hys). lia.
Qed.

Lemma populateEntry_log_length (entry : SlotEntry) (w w' : World)
      (en : EntryNode) (log : list Exchange) :
  run respond (populateEntry entry) w = (Returned en, w', log) ->
  List.length log = 3%nat.
Proof.
  unfold populateEntry. intro H.
  apply run_bind_Returned in H. destruct H as (r1 & w1 & l1 & l1' & H1 & H & ->).
  apply run_bind_Returned in H. destruct H as (r2 & w2 & l2 & l2' & H2 & H & ->).
  apply run_bind_Returned in H. destruct H as (r3 & w3 & l3 & l3' & H3 & H & ->).
  apply run_bind_Returned in H. destruct H as (v1 & w4 & l4 & l4' & H4 & H & ->).
  apply run_bind_Returned in H. destruct H as (v2 & w5 & l5 & l5' & H5 & H & ->).
  apply run_bind_Returned in H. destruct H as (v3 & w6 & l6 & l6' & H6 & H & ->).
  apply await_Returned in H1, H2, H3.
  apply first_value_Returned in H4, H5, H6.
  simpl in H. inversion H; subst. reflexivity.
Qed.

Lemma populateSlot_log_length (slot : Slot) (w w' : World)
      (sn : SlotNode) (log : list Exchange) :
  run respond (populateSlot slot) w = (Returned sn, w', log) ->
  List.length log = slot_requests sn.
Proof.
  unfold populateSlot. intro H.
  apply run_bind_Returned in H. destruct H as (r1 & w1 & l1 & l1' & H1 & H & ->).
  apply run_bind_Returned in H. destruct H as (es & w2 & l2 & l2' & H2 & H & ->).
  apply run_bind_Returned in H. destruct H as (ens & w3 & l3 & l3' & H3 & H & ->).
  apply await_Returned in H1. apply results_as_Returned in H2.
  apply (Promise_all_log_length _ _ populateEntry (fun _ => 3%nat)) in H3;
    [|intros; eapply populateEntry_log_length; eassumption].
  simpl in H. inversion H; subst. unfold slot_requests; simpl.
  rewrite length_app, H3. simpl.
  clear. induction ens as [|en ens IH]; simpl; lia.
Qed.

Lemma populateDay_log_length (day : Day) (w w' : World)
      (dn : DayNode) (log : list Exchange) :
  run respond (populateDay day) w = (Returned dn, w', log) ->
  List.length log = day_requests dn.
Proof.
  unfold populateDay. intro H.
  apply run_bind_Returned in H. destruct H as (r1 & w1 & l1 & l1' & H1 & H & ->).
  apply run_bind_Returned in H. destruct H as (ss & w2 & l2 & l2' & H2 & H & ->).
  apply run_bind_Returned in H. destruct H as (sns & w3 & l3 & l3' & H3 & H & ->).
  apply await_Returned in H1. apply results_as_Returned in H2.
  apply (Promise_all_log_length _ _ populateSlot slot_requests) in H3;
    [|intros; eapply populateSlot_log_length; eassumption].
  simpl in H. inversion H; subst. unfold day_requests; simpl.
  rewrite length_app, H3. simpl. lia.
Qed.
End RequestCount.

(** X5: the number of round trips of a successful [getRoutineDetails]:
    the token, the routine and the day list, then one request per day of
    the tree, one per slot and three per entry.  The days that the remote
    listed for other routines cost nothing further. *)
Theorem getRoutineDetails_round_trips :
  forall (World : Type) (respond : World -> Request -> (Error + Response) * World)
         (hasCredentials : bool) (args : JObj) (w w' : World)
         (tree : DetailedRoutine) (log : list Exchange),
    run respond (getRoutineDetailsHandler hasCredentials args) w
    = (Returned tree, w', log) ->
    List.length log = tree_requests tree.
Proof.
  intros World respond creds args w w' tree log H.
  unfold getRoutineDetailsHandler in H.
  destruct creds; cbn [negb] in H; [|discriminate H].
  apply run_bind_Returned in H. destruct H as (rid & w0 & l0 & l0' & H0 & H & ->).
  unfold zod_parse in H0.
  destruct (GetRoutineDetailsSchema args); [|discriminate H0].
  simpl in H0; inversion H0; subst.
  apply run_bind_Returned in H. destruct H as (t & w1 & l1 & l1' & H1 & H & ->).
  apply run_bind_Returned in H. destruct H as (rt & w2 & l2 & l2' & H2 & H & ->).
  apply run_bind_Returned in H. destruct H as (ds & w3 & l3 & l3' & H3 & H & ->).
  apply run_bind_Returned in H. destruct H as (rs & w4 & l4 & l4' & H4 & H & ->).
  apply run_bind_Returned in H. destruct H as (dns & w5 & l5 & l5' & H5 & H & ->).
  apply await_Returned in H1, H2, H3.
  assert (l4 = []) by (destruct ds; simpl in H4; inversion H4; reflexivity).
  apply (Promise_all_log_length _ respond _ _ populateDay day_requests) in H5;
    [|intros; eapply populateDay_log_length; eassumption].
  simpl in H. inversion H; subst. unfold tree_requests; simpl.
  rewrite length_app, H5. simpl. lia.
Qed.

(** ** Updating metrics: the report and the requests *)

Lemma upsertSupplied_Returned :
  forall (World : Type) (respond : World -> Request -> (Error + Response) * World)
         (slotEntryId : Z) (k : ConfigKind) (value : option Z) (u u1 : list string)
         (w w' : World) (log : list Exchange),
    run respond (upsertSupplied slotEntryId k value u) w = (Returned u1, w', log) ->
    exists l : list string,
      u1 = u ++ l /\
      metric_report k value l /\
      List.length log = (if is_some value then 2 else 0)%nat.
Proof.
  intros World respond e k value u u1 w w' log Hrun.
  destruct value as [v|]; simpl in Hrun.
  2:{ inversion Hrun; subst. exists []. rewrite app_nil_r. repeat split. }
  unfold upsertMetric, await in Hrun; simpl in Hrun.
  destruct (respond w _) as [[err | [rs | x |]] w1]; simpl in Hrun; try discriminate.
  destruct rs as [|r0 rs]; simpl in Hrun.
  - destruct (respond w1 _) as [[err | resp] w2]; simpl in Hrun; [discriminate|].
    inversion Hrun; subst. exists [created_label k]. repeat split. left; reflexivity.
  - destruct (as_Config r0); simpl in Hrun; [|discriminate].
    destruct (respond w1 _) as [[err | resp] w2]; simpl in Hrun; [discriminate|].
    inversion Hrun; subst. exists [updated_label k]. repeat split. right; reflexivity.
Qed.

(** X6: when [updateExerciseInRoutine] returns, [success] is true and
    [updates] lists the supplied metrics in the order sets, reps, weight,
    each once and marked created or updated; a metric that was not
    supplied is neither fetched nor reported, and with no metric supplied
    the call still succeeds, with an empty report.  The call made the
    token request and two requests per supplied metric. *)
Theorem updateExercise_reports_supplied_metrics :
  forall (World : Type) (respond : World -> Request -> (Error + Response) * World)
         (hasCredentials : bool) (args : JObj) (w w' : World)
         (r : UpdateResult) (log : list Exchange),
    run respond (updateExerciseInRoutineHandler hasCredentials args) w
    = (Returned r, w', log) ->
    exists (input : UpdateExerciseInput) (l1 l2 l3 : list string),
      UpdateExerciseSchema args = Some input /\
      ur_success r = true /\
      ur_updates r = l1 ++ l2 ++ l3 /\
      metric_report Sets (ue_sets input) l1 /\
      metric_report Repetitions (ue_reps input) l2 /\
      metric_report Weight (ue_weight input) l3 /\
      List.length log = (1 + 2 * count_supplied input)%nat.
Proof.
  intros World respond creds args w w' r log H.
  rewrite (updateExercise_refines_spec creds args World respond w) in H.
  unfold updateExerciseInRoutine_spec, zod_parse in H.
  destruct creds; cbn [negb] in H; [|discriminate H].
  destruct (UpdateExerciseSchema args) as [input|]; [|discriminate H].
  cbn [bind] in H.
  apply run_bind_Returned in H. destruct H as (t & w0 & l0 & l0' & H0 & H & ->).
  apply run_bind_Returned in H. destruct H as (u1 & w1 & la & la' & H1 & H & ->).
  apply run_bind_Returned in H. destruct H as (u2 & w2 & lb & lb' & H2 & H & ->).
  apply run_bind_Returned in H. destruct H as (u3 & w3 & lc & lc' & H3 & H & ->).
  apply await_Returned in H0.
  apply upsertSupplied_Returned in H1, H2, H3.
  destruct H1 as (l1 & -> & Hr1 & Hn1).
  destruct H2 as (l2 & -> & Hr2 & Hn2).
  destruct H3 as (l3 & -> & Hr3 & Hn3).
  simpl in H. inversion H; subst.
  exists input, l1, l2, l3. split; [reflexivity|]. split; [reflexivity|].
  split; [simpl; rewrite <- app_assoc; reflexivity|].
  split; [exact Hr1|]. split; [exact Hr2|]. split; [exact Hr3|].
  rewrite !length_app, Hn1, Hn2, Hn3. unfold count_supplied.
  destruct (ue_sets input), (ue_reps input), (ue_weight input); reflexivity.
Qed.

Lemma upsertSupplied_calls (slotEntryId : Z) (k : ConfigKind) (value : option Z)
      (u : list string) :
  AllCalls (config_request slotEntryId) (upsertSupplied slotEntryId k value u).
Proof.
  destruct value as [v|]; simpl; [|constructor].
  constructor.
  { right. exists k. left. reflexivity. }
  intros [rs | x |]; simpl; try constructor.
  destruct rs as [|r0 rs]; simpl.
  - constructor; [|intro; constructor].
    right. exists k. right. left. eexists. reflexivity.
  - destruct (as_Config r0); simpl; [|constructor].
    constructor; [|intro; constructor].
    right. exists k. right. right. do 2 eexists. reflexivity.
Qed.

(** X7: [updateExerciseInRoutine] touches only the three config
    collections: every request of every run is the token request, a fetch
    filtered by the given slot entry, a create for that slot entry with
    iteration 1, or a partial update that carries nothing but a value.  It
    never deletes a config and never reads or writes a slot or a slot
    entry, so the slot entry id itself is not checked. *)
Theorem updateExercise_touches_only_configs :
  forall (World : Type) (respond : World -> Request -> (Error + Response) * World)
         (hasCredentials : bool) (args : JObj) (w w' : World)
         (o : Outcome UpdateResult) (log : list Exchange),
    run respond (updateExerciseInRoutineHandler hasCredentials args) w = (o, w', log) ->
    forall x : Exchange,
      In x log ->
      exists input : UpdateExerciseInput,
        UpdateExerciseSchema args = Some input /\
        config_request (ue_slotEntryId input) (fst x).
Proof.
  intros World respond creds args w w' o log H.
  rewrite (updateExercise_refines_spec creds args World respond w) in H.
  unfold updateExerciseInRoutine_spec, zod_parse in H.
  destruct creds; cbn [negb] in H; [|inversion H; subst; intros x []].
  destruct (UpdateExerciseSchema args) as [input|];
    [|inversion H; subst; intros x []].
  cbn [bind] in H.
  intros x Hx. exists input. split; [reflexivity|].
  revert x Hx. apply Forall_forall.
  refine (AllCalls_run World respond (config_request (ue_slotEntryId input)) _ _ _
            w w' o log H).
  apply AllCalls_bind; [apply AllCalls_await; left; reflexivity | intros _].
  apply AllCalls_bind; [apply upsertSupplied_calls | intro].
  apply AllCalls_bind; [apply upsertSupplied_calls | intro].
  apply AllCalls_bind; [apply upsertSupplied_calls | intro].
  constructor.
Qed.

(** ** Adding an exercise: the chain of creates *)

Lemma await_parse_Returned :
  forall (World : Type) (respond : World -> Request -> (Error + Response) * World)
         (A B : Type) (r : Request) (schema : Raw -> option A) (rest : A -> Prog B)
         (w w' : World) (b : B) (log : list Exchange),
    run respond (bind (await r) (fun x => bind (parse schema x) rest)) w
    = (Returned b, w', log) ->
    exists (item : Raw) (a : A) (w1 : World) (l : list Exchange),
      schema item = Some a /\
      run respond (rest a) w1 = (Returned b, w', l) /\
      log = (r, inr (RItem item)) :: l.
Proof.
  intros World respond A B r schema rest w w' b log H.
  unfold await in H; simpl in H.
  destruct (respond w r) as [[e | resp] w1]; [discriminate|].
  destruct (run respond (bind (parse schema resp) rest) w1) as [[o2 w2] l2] eqn:E.
  inversion H; subst.
  destruct resp as [rs | item |]; simpl in E; try discriminate.
  destruct (schema item) as [a|] eqn:Hs; simpl in E; [|discriminate].
  exists item, a, w1, l2. auto.
Qed.

Lemma ConfigSchema_item (k : ConfigKind) (item : Raw) (c : Config) :
  ConfigSchema k item = Some c -> item = RawConfig c.
Proof.
  destruct item as [| | | | c' |]; simpl; try discriminate.
  destruct k, (config_value c'); intro H; inversion H; reflexivity.
Qed.

(** X8: a call of [addExerciseToRoutine] that returns has, after
    resolving the day, created exactly a slot, a slot entry, a sets config
    and a repetitions config, in that order, and a weight config exactly
    when a weight was supplied (a weight of 0 included).  Each create
    carries the id that the remote assigned in the reply before it: the
    slot points to the resolved day, the entry to the new slot, the
    configs to the new entry; slot and entry get order 1, an absent
    comment is sent as the empty string, and the result holds the entry
    and the ids of the configs as the remote returned them. *)
Theorem addExercise_threads_ids :
  forall (World : Type) (respond : World -> Request -> (Error + Response) * World)
         (hasCredentials : bool) (args : JObj) (w w' : World)
         (r : AddExerciseResult) (log : list Exchange),
    run respond (addExerciseToRoutineHandler hasCredentials args) w
    = (Returned r, w', log) ->
    exists (input : AddExerciseToRoutineInput) (t : Response) (w1 w2 : World)
           (dayLog weightLog : list Exchange) (day : Day) (slot : Slot)
           (sc rc : Config),
      AddExerciseToRoutineSchema args = Some input /\
      run respond (findOrCreateDay (ae_routineId input)
                     (or_else (ae_dayName input) "Workout Day")) w1
      = (Returned day, w2, dayLog) /\
      log = (Token, inr t) :: dayLog ++
            [(Post c_slot [("day", JNum (day_id day)); ("order", JNum 1)],
              inr (RItem (RawSlot slot)));
             (Post c_slot_entry
                [("slot", JNum (slot_id slot));
                 ("exercise", JNum (ae_exerciseId input));
                 ("order", JNum 1);
                 ("comment", JStr (or_else (ae_comment input) ""))],
              inr (RItem (RawSlotEntry (ar_slotEntry r))));
             (Post (c_config Sets)
                [("slot_entry", JNum (entry_id (ar_slotEntry r)));
                 ("iteration", JNum 1);
                 ("value", JNum (ae_sets input))],
              inr (RItem (RawConfig sc)));
             (Post (c_config Repetitions)
                [("slot_entry", JNum (entry_id (ar_slotEntry r)));
                 ("iteration", JNum 1);
                 ("value", JNum (ae_reps input))],
              inr (RItem (RawConfig rc)))] ++ weightLog /\
      ar_setsConfigId r = config_id sc /\
      ar_repsConfigId r = config_id rc /\
      match ae_weight input with
      | None => weightLog = [] /\ ar_weightConfigId r = None
      | Some weight =>
          exists wc : Config,
            weightLog =
              [(Post (c_config Weight)
                  [("slot_entry", JNum (entry_id (ar_slotEntry r)));
                   ("iteration", JNum 1);
                   ("value", JStr (Number_toString weight))],
                inr (RItem (RawConfig wc)))] /\
            ar_weightConfigId r = Some (config_id wc)
      end.
Proof.
  intros World respond creds args w w' r log H.
  unfold addExerciseToRoutineHandler in H.
  destruct creds; cbn [negb] in H; [|discriminate H].
  destruct (AddExerciseToRoutineSchema args) as [input|]; [|discriminate H].
  cbn [bind] in H.
  apply run_bind_Returned in H. destruct H as (t & w1 & l0 & l0' & H0 & H & ->).
  apply await_Returned in H0. subst l0.
  apply run_bind_Returned in H. destruct H as (day & w2 & dayLog & l1 & Hday & H & ->).
  unfold createExerciseChain in H.
  apply await_parse_Returned in H.
  destruct H as (i1 & slot & w3 & l2 & Hs1 & H & ->).
  apply await_parse_Returned in H.
  destruct H as (i2 & entry & w4 & l3 & Hs2 & H & ->).
  apply await_parse_Returned in H.
  destruct H as (i3 & sc & w5 & l4 & Hs3 & H & ->).
  apply await_parse_Returned in H.
  destruct H as (i4 & rc & w6 & l5 & Hs4 & H & ->).
  apply run_bind_Returned in H. destruct H as (wcfg & w7 & l6 & l7 & Hw & H & ->).
  simpl in H. inversion H; subst r w7 l7. cbn [ar_slotEntry ar_setsConfigId
    ar_repsConfigId ar_weightConfigId].
  destruct i1 as [| | s1 | | |]; simpl in Hs1; try discriminate.
  inversion Hs1; subst s1.
  destruct i2 as [| | | e2 | |]; simpl in Hs2; try discriminate.
  inversion Hs2; subst e2.
  apply ConfigSchema_item in Hs3, Hs4. subst i3 i4.
  exists input, t, w1, w2, dayLog, l6, day, slot, sc, rc.
  split; [reflexivity|]. split; [exact Hday|].
  split; [simpl; rewrite app_nil_r; reflexivity|].
  split; [reflexivity|]. split; [reflexivity|].
  destruct (ae_weight input) as [weight|].
  - apply await_parse_Returned in Hw.
    destruct Hw as (i5 & wc & w8 & l8 & Hs5 & Hw & ->).
    simpl in Hw; inversion Hw; subst.
    apply ConfigSchema_item in Hs5. subst i5.
    exists wc. split; reflexivity.
  - simpl in Hw; inversion Hw; subst. split; reflexivity.
Qed.

(** ** Adding days and exercises against the store *)

Lemma decode_all_RawDay (ds : list Day) :
  decode_all DaySchema (map RawDay ds) = Some ds.
Proof.
  induction ds as [|d ds IH]; simpl; [reflexivity|]. rewrite IH. reflexivity.
Qed.

Lemma filter_twice (A : Type) (f : A -> bool) (l : list A) :
  filter f (filter f l) = filter f l.
Proof.
  induction l as [|x l IH]; simpl; [reflexivity|].
  destruct (f x) eqn:E; simpl; [rewrite E, IH|]; auto.
Qed.

Lemma find_app_none (A : Type) (f : A -> bool) (l l' : list A) :
  find f l = None -> find f (l ++ l') = find f l'.
Proof.
  induction l as [|x l IH]; simpl; [reflexivity|].
  destruct (f x); [discriminate | exact IH].
Qed.

Lemma find_app_some (A : Type) (f : A -> bool) (l l' : list A) (a : A) :
  find f l = Some a -> find f (l ++ l') = Some a.
Proof.
  induction l as [|x l IH]; simpl; [discriminate|].
  destruct (f x); [auto | exact IH].
Qed.

(** Step 1 against the store: the day found, or the day appended. *)
Lemma findOrCreateDay_on_store (listing : DayListing) (st : Store)
      (routineId : Z) (name : string) :
  exists (day : Day) (st1 : Store) (log : list Exchange),
    run (serve listing) (findOrCreateDay routineId name) st = (Returned day, st1, log) /\
    match day_named name routineId st with
    | Some d => day = d /\ st1 = st
    | None =>
        day = mkDay (st_next_id st) routineId
                    (Z.of_nat (List.length (days_in routineId st)) + 1)
                    "custom" name "" false /\
        st1 = bump (set_days (st_days st ++ [day]) st)
    end.
Proof.
  unfold findOrCreateDay, day_named, days_in, parse_all.
  destruct listing; cbn; rewrite decode_all_RawDay; cbn;
    rewrite ?filter_twice;
    destruct (find _ (filter _ (st_days st))) as [d|]; cbn;
    do 3 eexists; split; try reflexivity; split; reflexivity.
Qed.

(** Steps 2 to 6 against the store: every create is accepted. *)
Lemma createExerciseChain_on_store (listing : DayListing) (st : Store)
      (input : AddExerciseToRoutineInput) (day : Day) :
  exists (r : AddExerciseResult) (st' : Store) (log : list Exchange),
    run (serve listing) (createExerciseChain input day) st = (Returned r, st', log) /\
    st_days st' = st_days st /\
    st_routines st' = st_routines st /\
    st_slots st' = st_slots st ++ [new_slot st day] /\
    st_entries st' =
      st_entries st ++
      [mkSlotEntry (st_next_id st + 1) (st_next_id st) (ae_exerciseId input) 1
                   (or_else (ae_comment input) "")] /\
    ar_slotEntry r =
      mkSlotEntry (st_next_id st + 1) (st_next_id st) (ae_exerciseId input) 1
                  (or_else (ae_comment input) "") /\
    st_sets st' =
      st_sets st ++ [mkConfig (st_next_id st + 1 + 1) (st_next_id st + 1) 1
                              (JNum (ae_sets input))] /\
    st_reps st' =
      st_reps st ++ [mkConfig (st_next_id st + 1 + 1 + 1) (st_next_id st + 1) 1
                              (JNum (ae_reps input))] /\
    st_weights st' =
      st_weights st ++
      match ae_weight input with
      | Some weight =>
          [mkConfig (st_next_id st + 1 + 1 + 1 + 1) (st_next_id st + 1) 1
                    (JStr (Number_toString weight))]
      | None => []
      end /\
    st_next_id st < st_next_id st'.
Proof.
  unfold createExerciseChain, new_slot.
  destruct (ae_weight input) as [weight|]; cbn;
    do 3 eexists; (split; [reflexivity|]); cbn;
    rewrite ?app_nil_r; repeat split; try reflexivity; lia.
Qed.

Lemma addExercise_on_store (listing : DayListing) (st : Store) (args : JObj)
      (input : AddExerciseToRoutineInput) :
  AddExerciseToRoutineSchema args = Some input ->
  exists (day : Day) (st1 : Store) (r : AddExerciseResult) (st' : Store)
         (log : list Exchange),
    run (serve listing) (addExerciseToRoutineHandler true args) st
    = (Returned r, st', log) /\
    match day_named (or_else (ae_dayName input) "Workout Day") (ae_routineId input) st with
    | Some d => day = d /\ st1 = st
    | None =>
        day = mkDay (st_next_id st) (ae_routineId input)
                    (Z.of_nat (List.length (days_in (ae_routineId input) st)) + 1)
                    "custom" (or_else (ae_dayName input) "Workout Day") "" false /\
        st1 = bump (set_days (st_days st ++ [day]) st)
    end /\
    st_days st' = st_days st1 /\
    st_slots st' = st_slots st ++ [new_slot st1 day] /\
    entry_slot (ar_slotEntry r) = st_next_id st1 /\
    In (ar_slotEntry r) (st_entries st') /\
    st_next_id st1 < st_next_id st'.
Proof.
  intro Hschema.
  destruct (findOrCreateDay_on_store listing st (ae_routineId input)
              (or_else (ae_dayName input) "Workout Day"))
    as (day & st1 & l1 & Hday & Hcase).
  destruct (createExerciseChain_on_store listing st1 input day)
    as (r & st' & l2 & Hchain & Hdays & _ & Hslots & Hentries & Hentry & _ & _ & _
        & Hnext).
  exists day, st1, r, st'. eexists.
  split.
  { unfold addExerciseToRoutineHandler; cbn [negb]. rewrite Hschema; cbn [bind].
    rewrite run_bind, run_await; cbn [serve].
    rewrite run_bind, Hday, Hchain. reflexivity. }
  split; [exact Hcase|]. split; [exact Hdays|].
  assert (Hsl : st_slots st1 = st_slots st).
  { destruct (day_named _ _ st); destruct Hcase as [_ ->]; reflexivity. }
  split; [rewrite Hslots, Hsl; reflexivity|].
  split; [rewrite Hentry; reflexivity|].
  split; [|exact Hnext].
  rewrite Hentries, Hentry. apply in_or_app. right. left. reflexivity.
Qed.

Lemma day_named_same_days (name : string) (routineId : Z) (a b : Store) :
  st_days a = st_days b -> day_named name routineId a = day_named name routineId b.
Proof. unfold day_named, days_in. intros ->. reflexivity. Qed.

Lemma day_named_after_append (name : string) (routineId : Z) (st st1 : Store)
      (day : Day) :
  st_days st1 = st_days st ++ [day] ->
  day_named name routineId st = None ->
  day_routine day = routineId ->
  day_name day = name ->
  day_named name routineId st1 = Some day.
Proof.
  unfold day_named, days_in. intros -> Hnone Hr Hn.
  rewrite filter_app, (find_app_none _ _ _ _ Hnone). cbn.
  rewrite Hr, Z.eqb_refl. cbn. rewrite Hn, String.eqb_refl. reflexivity.
Qed.

(** X9: day resolution is idempotent and slots are never reused.  Two
    calls of [addExerciseToRoutine] for the same routine and the same day
    name, one after the other against the store, both succeed and resolve
    to the same day: the first creates it at most once, the second
    creates no day.  Each call appends a slot of its own under that day,
    and both slots carry order 1. *)
Theorem addExercise_twice_same_day :
  forall (listing : DayListing) (st : Store) (args1 args2 : JObj)
         (input1 input2 : AddExerciseToRoutineInput),
    AddExerciseToRoutineSchema args1 = Some input1 ->
    AddExerciseToRoutineSchema args2 = Some input2 ->
    ae_routineId input2 = ae_routineId input1 ->
    or_else (ae_dayName input2) "Workout Day"
    = or_else (ae_dayName input1) "Workout Day" ->
    exists (day : Day) (r1 r2 : AddExerciseResult) (st1 st2 : Store)
           (log1 log2 : list Exchange),
      run (serve listing) (addExerciseToRoutineHandler true args1) st
      = (Returned r1, st1, log1) /\
      run (serve listing) (addExerciseToRoutineHandler true args2) st1
      = (Returned r2, st2, log2) /\
      (st_days st1 = st_days st \/ st_days st1 = st_days st ++ [day]) /\
      In day (st_days st1) /\
      st_days st2 = st_days st1 /\
      st_slots st2 =
        st_slots st ++
        [mkSlot (entry_slot (ar_slotEntry r1)) (day_id day) 1;
         mkSlot (entry_slot (ar_slotEntry r2)) (day_id day) 1] /\
      entry_slot (ar_slotEntry r1) < entry_slot (ar_slotEntry r2).
Proof.
  intros listing st args1 args2 input1 input2 H1 H2 Hr Hn.
  destruct (addExercise_on_store listing st args1 input1 H1)
    as (day & sta & r1 & st1 & log1 & Hrun1 & Hcase1 & Hdays1 & Hslots1 & Hid1 & _
        & Hnext1).
  destruct (addExercise_on_store listing st1 args2 input2 H2)
    as (day2 & stb & r2 & st2 & log2 & Hrun2 & Hcase2 & Hdays2 & Hslots2 & Hid2 & _
        & Hnext2).
  rewrite Hr, Hn in Hcase2.
  assert (Hfound : day_named (or_else (ae_dayName input1) "Workout Day")
                             (ae_routineId input1) st1 = Some day
                   /\ (st_days st1 = st_days st \/ st_days st1 = st_days st ++ [day])
                   /\ In day (st_days st1)).
  { destruct (day_named _ _ st) as [d|] eqn:Hd.
    - destruct Hcase1 as [-> ->].
      split; [rewrite (day_named_same_days _ _ st1 st Hdays1); exact Hd|].
      split; [left; exact Hdays1|].
      rewrite Hdays1. unfold day_named, days_in in Hd.
      apply find_some in Hd. destruct Hd as [Hin _].
      apply filter_In in Hin. tauto.
    - destruct Hcase1 as [Hday ->].
      assert (Hd1 : st_days st1 = st_days st ++ [day]) by (rewrite Hdays1; reflexivity).
      split; [|split; [right; exact Hd1|rewrite Hd1; apply in_or_app; right; left; reflexivity]].
      apply (day_named_after_append _ _ st st1 day Hd1 Hd); rewrite Hday; reflexivity. }
  destruct Hfound as (Hfound & Hgrow & Hin).
  rewrite Hfound in Hcase2. destruct Hcase2 as [-> ->].
  exists day, r1, r2, st1, st2, log1, log2.
  split; [exact Hrun1|]. split; [exact Hrun2|]. split; [exact Hgrow|].
  split; [exact Hin|]. split; [exact Hdays2|].
  split.
  - rewrite Hslots2, Hslots1, <- app_assoc. unfold new_slot.
    rewrite Hid1, Hid2. reflexivity.
  - rewrite Hid1, Hid2. exact Hnext1.
Qed.

Lemma substring_whole (s : string) :
  forall n : nat, (String.length s <= n)%nat -> substring 0 n s = s.
Proof.
  induction s as [|c s IH]; intros n Hn.
  - destruct n; reflexivity.
  - destruct n as [|n]; simpl in *; [lia|]. rewrite IH by lia. reflexivity.
Qed.

Lemma addDay_on_store (listing : DayListing) (st : Store) (args : JObj)
      (input : AddDayInput) :
  AddDaySchema args = Some input ->
  exists (d : Day) (log : list Exchange),
    run (serve listing) (addDayToRoutineHandler true args) st
    = (Returned d, bump (set_days (st_days st ++ [d]) st), log) /\
    day_routine d = ad_routineId input /\
    day_id d = st_next_id st /\
    forall D : string,
      ad_description input = Some D -> D <> "" -> day_name d = substring 0 50 D.
Proof.
  intro Hschema.
  unfold addDayToRoutineHandler, zod_parse; rewrite Hschema.
  destruct listing, (ad_description input) as [descr|] eqn:Hd;
    cbn; rewrite Hd; cbn; rewrite ?length_map;
    do 2 eexists; (split; [reflexivity|]); (split; [reflexivity|]);
    (split; [reflexivity|]); intros D HD Hne; inversion HD; subst; cbn;
    apply or_else_nonempty;
    intro H; apply substring_prefix_empty in H; contradiction.
Qed.

(** X10: a day added by [addDay] is picked up by [addExerciseToRoutine]
    when the day name passed there is the description given to [addDay],
    provided the description is non-empty, at most 50 characters long, and
    no day of the routine had that name already: the second call creates
    no day and puts its slot under the day that the first call created. *)
Theorem addDay_then_addExercise_reuses_day :
  forall (listing : DayListing) (st : Store) (dayArgs exArgs : JObj)
         (dayInput : AddDayInput) (exInput : AddExerciseToRoutineInput)
         (D : string),
    AddDaySchema dayArgs = Some dayInput ->
    ad_description dayInput = Some D ->
    D <> "" ->
    (String.length D <= 50)%nat ->
    AddExerciseToRoutineSchema exArgs = Some exInput ->
    ae_routineId exInput = ad_routineId dayInput ->
    ae_dayName exInput = Some D ->
    day_named D (ad_routineId dayInput) st = None ->
    exists (d : Day) (r : AddExerciseResult) (st1 st2 : Store)
           (log1 log2 : list Exchange),
      run (serve listing) (addDayToRoutineHandler true dayArgs) st
      = (Returned d, st1, log1) /\
      run (serve listing) (addExerciseToRoutineHandler true exArgs) st1
      = (Returned r, st2, log2) /\
      day_name d = D /\
      st_days st2 = st_days st ++ [d] /\
      st_slots st2 = st_slots st ++ [mkSlot (entry_slot (ar_slotEntry r)) (day_id d) 1].
Proof.
  intros listing st dayArgs exArgs dayInput exInput D Hds Hdescr Hne Hlen
         Hes Hr Hname Hnone.
  destruct (addDay_on_store listing st dayArgs dayInput Hds)
    as (d & log1 & Hrun1 & Hroutine & _ & Hdname).
  specialize (Hdname D Hdescr Hne). rewrite (substring_whole D 50 Hlen) in Hdname.
  set (st1 := bump (set_days (st_days st ++ [d]) st)) in *.
  destruct (addExercise_on_store listing st1 exArgs exInput Hes)
    as (day & sta & r & st2 & log2 & Hrun2 & Hcase & Hdays & Hslots & Hid & _ & _).
  assert (Hdesired : or_else (ae_dayName exInput) "Workout Day" = D)
    by (rewrite Hname; apply or_else_nonempty; exact Hne).
  rewrite Hdesired, Hr in Hcase.
  rewrite (day_named_after_append D (ad_routineId dayInput) st st1 d
             eq_refl Hnone Hroutine Hdname) in Hcase.
  destruct Hcase as [-> ->].
  exists d, r, st1, st2, log1, log2.
  split; [exact Hrun1|]. split; [exact Hrun2|]. split; [exact Hdname|].
  split; [rewrite Hdays; reflexivity|].
  rewrite Hslots, Hid. reflexivity.
Qed.



(** ** A failure half way through an update *)

(** X12: the metrics are written one after the other and nothing is
    undone.  For a slot entry without configs, against a remote that
    rejects the create of a repetitions config, a call that supplies sets
    and reps throws the remote's error; the sets config it created
    before is in the store, the weight is never attempted, and the five
    requests are the token, and a fetch and a create for sets and for
    reps. *)
Theorem updateExercise_keeps_partial_work :
  forall (st : Store) (args : JObj) (input : UpdateExerciseInput) (sets reps : Z),
    UpdateExerciseSchema args = Some input ->
    ue_sets input = Some sets ->
    ue_reps input = Some reps ->
    configs_of (ue_slotEntryId input) Sets st = [] ->
    configs_of (ue_slotEntryId input) Repetitions st = [] ->
    exists (st' : Store) (log : list Exchange),
      run (serve_rejecting (c_config Repetitions))
          (updateExerciseInRoutineHandler true args) st
      = (Thrown (ApiError 500 "Internal Server Error"), st', log) /\
      configs_of (ue_slotEntryId input) Sets st'
      = [mkConfig (st_next_id st) (ue_slotEntryId input) 1 (JNum sets)] /\
      st_reps st' = st_reps st /\
      st_weights st' = st_weights st /\
      map fst log
      = [Token;
         Get (c_config Sets) [("slot_entry", JNum (ue_slotEntryId input))];
         Post (c_config Sets)
              [("slot_entry", JNum (ue_slotEntryId input)); ("iteration", JNum 1);
               ("value", JNum sets)];
         Get (c_config Repetitions) [("slot_entry", JNum (ue_slotEntryId input))];
         Post (c_config Repetitions)
              [("slot_entry", JNum (ue_slotEntryId input)); ("iteration", JNum 1);
               ("value", JNum reps)]].
Proof.
  intros st args [e s0 r0 w0] sets reps Hschema Hs Hr Hsets Hreps.
  rewrite (updateExercise_refines_spec true args Store
             (serve_rejecting (c_config Repetitions)) st).
  cbn in Hs, Hr, Hsets, Hreps. subst s0 r0.
  cbn [ue_slotEntryId].
  unfold updateExerciseInRoutine_spec, zod_parse; cbn [negb].
  rewrite Hschema. unfold configs_of in *. cbn in Hsets, Hreps.
  cbn. rewrite Hsets. cbn. rewrite Hreps. cbn.
  do 2 eexists. split; [reflexivity|]. cbn.
  rewrite filter_app, Hsets. cbn. rewrite Z.eqb_refl.
  repeat split; reflexivity.
Qed.

(** ** The tool registry and [call_tool] *)

Section Registry.
Variable R : Type.

Lemma Map_get_set (m : ToolMap R) (k k' : string) (v : Registered R) :
  Map_get (Map_set m k v) k'
  = if String.eqb k k' then Some v else Map_get m k'.
Proof.
  induction m as [|[k0 v0] m IH]; simpl.
  - reflexivity.
  - destruct (String.eqb k0 k) eqn:E0; simpl.
    + apply String.eqb_eq in E0. subst k0.
      destruct (String.eqb k k'); reflexivity.
    + destruct (String.eqb k0 k') eqn:E1.
      * apply String.eqb_eq in E1. subst k0.
        rewrite String.eqb_sym, E0. reflexivity.
      * exact IH.
Qed.

Lemma Map_set_length (m : ToolMap R) (k : string) (v : Registered R) :
  List.length (Map_set m k v)
  = if is_some (Map_get m k) then List.length m else S (List.length m).
Proof.
  induction m as [|[k0 v0] m IH]; simpl.
  - reflexivity.
  - destruct (String.eqb k0 k); simpl; [reflexivity|].
    rewrite IH. destruct (is_some (Map_get m k)); reflexivity.
Qed.

Lemma Map_set_new (m : ToolMap R) (k : string) (v : Registered R) :
  ~ In k (map fst m) -> Map_set m k v = m ++ [(k, v)].
Proof.
  induction m as [|[k0 v0] m IH]; simpl; intros Hnew.
  - reflexivity.
  - destruct (String.eqb k0 k) eqn:E0.
    + apply String.eqb_eq in E0. exfalso. apply Hnew. left. exact E0.
    + rewrite IH; [reflexivity|]. intros Hin. apply Hnew. right. exact Hin.
Qed.

Lemma Map_get_absent (m : ToolMap R) (k : string) :
  ~ In k (map fst m) -> Map_get m k = None.
Proof.
  induction m as [|[k0 v0] m IH]; simpl; intros Hnew.
  - reflexivity.
  - destruct (String.eqb k0 k) eqn:E0.
    + apply String.eqb_eq in E0. exfalso. apply Hnew. left. exact E0.
    + apply IH. intros Hin. apply Hnew. right. exact Hin.
Qed.

Lemma Map_get_present (m : ToolMap R) (k : string) (v : Registered R) :
  NoDup (map fst m) -> In (k, v) m -> Map_get m k = Some v.
Proof.
  induction m as [|[k0 v0] m IH]; simpl; intros Hnd Hin.
  - contradiction.
  - inversion Hnd as [|? ? Hk0 Hnd']; subst.
    destruct Hin as [Heq | Hin].
    + inversion Heq; subst. rewrite String.eqb_refl. reflexivity.
    + destruct (String.eqb k0 k) eqn:E0.
      * apply String.eqb_eq in E0. subst k0. exfalso. apply Hk0.
        apply (in_map fst) in Hin. exact Hin.
      * apply IH; assumption.
Qed.

Lemma Map_set_keys (m : ToolMap R) (k : string) (v : Registered R) :
  forall k', In k' (map fst (Map_set m k v)) <-> k' = k \/ In k' (map fst m).
Proof.
  induction m as [|[k0 v0] m IH]; simpl; intros k'.
  - split; [intros [H|[]]; left; symmetry; exact H
           | intros [H|[]]; left; symmetry; exact H].
  - destruct (String.eqb k0 k) eqn:E0; simpl.
    + apply String.eqb_eq in E0. subst k0.
      split; [intros [H|H]; [left; symmetry; exact H | right; right; exact H]
             | intros [H|[H|H]]; [left; symmetry; exact H | left; exact H
                                 | right; exact H]].
    + rewrite IH.
      split; [intros [H|[H|H]]; [right; left; exact H | left; exact H
                                | right; right; exact H]
             | intros [H|[H|H]]; [right; left; exact H | left; exact H
                                 | right; right; exact H]].
Qed.

(** Registering one after the other tools of pairwise different names
    gives the registry that lists them in that order. *)
Lemma register_all_distinct (l : list (Tool * ToolHandler R)) :
  NoDup (map (fun t => tool_name (fst t)) l) ->
  fold_left (fun tools t => registerTool tools (fst t) (snd t)) l []
  = map (fun t => (tool_name (fst t), mkRegistered (fst t) (snd t))) l.
Proof.
  intros Hnd.
  assert (Hgen : forall (m : ToolMap R),
             NoDup (map fst m ++ map (fun t => tool_name (fst t)) l) ->
             fold_left (fun tools t => registerTool tools (fst t) (snd t)) l m
             = m ++ map (fun t => (tool_name (fst t), mkRegistered (fst t) (snd t))) l).
  { clear Hnd. induction l as [|t l IH]; simpl; intros m Hm.
    - rewrite app_nil_r. reflexivity.
    - unfold registerTool at 2. rewrite Map_set_new.
      + rewrite IH.
        * rewrite <- app_assoc. reflexivity.
        * rewrite map_app. simpl. rewrite <- app_assoc. exact Hm.
      + apply NoDup_remove_2 in Hm. intros Hin. apply Hm.
        apply in_or_app. left. exact Hin. }
  rewrite (Hgen [] Hnd). reflexivity.
Qed.
End Registry.

Lemma run_fmap {World A B : Type}
      (respond : World -> Request -> (Error + Response) * World)
      (f : A -> B) (p : Prog A) (w : World) :
  run respond (fmap f p) w
  = match run respond p w with
    | (Returned a, w', log) => (Returned (f a), w', log)
    | (Thrown e, w', log) => (Thrown e, w', log)
    end.
Proof.
  unfold fmap. rewrite run_bind.
  destruct (run respond p w) as [[[a|e] w'] log]; simpl.
  - rewrite app_nil_r. reflexivity.
  - reflexivity.
Qed.

(** A handler that lacks credentials or whose schema rejects the
    arguments throws before its first request. *)
Lemma handler_stops_early {World : Type}
      (respond : World -> Request -> (Error + Response) * World)
      (op : Operation) (hasCredentials : bool) (args : JObj) (w : World) :
  hasCredentials = false \/ accepts op args = false ->
  exists e : Error,
    run respond (handler op hasCredentials args) w = (Thrown e, w, []) /\
    (hasCredentials = false -> exists message, e = AuthenticationError message) /\
    (hasCredentials = true -> e = rejection op).
Proof.
  intros Hstop.
  destruct hasCredentials.
  - destruct Hstop as [Hc | Hrej]; [discriminate|].
    exists (rejection op). split; [|split; [discriminate | reflexivity]].
    destruct op; simpl in *; unfold fmap.
    + unfold addDayToRoutineHandler, zod_parse; simpl.
      destruct (AddDaySchema args); [discriminate | reflexivity].
    + unfold updateDayHandler, zod_parse; simpl.
      destruct (UpdateDaySchema args); [discriminate | reflexivity].
    + unfold deleteDayHandler, zod_parse; simpl.
      destruct (DeleteDaySchema args); [discriminate | reflexivity].
    + unfold addExerciseToRoutineHandler; simpl.
      destruct (AddExerciseToRoutineSchema args); [discriminate | reflexivity].
    + unfold updateExerciseInRoutineHandler, zod_parse; simpl.
      destruct (UpdateExerciseSchema args); [discriminate | reflexivity].
    + unfold deleteSlotHandler, zod_parse; simpl.
      destruct (DeleteSlotSchema args); [discriminate | reflexivity].
    + unfold getRoutineDetailsHandler, zod_parse; simpl.
      destruct (GetRoutineDetailsSchema args); [discriminate | reflexivity].
  - destruct op; simpl; eexists; (split; [reflexivity|]);
      (split; [intros _; eexists; reflexivity | discriminate]).
Qed.

(** X13.  Registering a tool makes the registry answer its name with the
    new definition and handler, whatever was registered under that name
    before, and leaves every other name as it was; the tool count grows
    by one when the name is new and stays when the name was taken. *)
Theorem registerTool_replaces :
  forall (R : Type) (tools : ToolMap R) (tool : Tool) (h : ToolHandler R),
    Map_get (registerTool tools tool h) (tool_name tool)
    = Some (mkRegistered tool h) /\
    (forall name : string,
        name <> tool_name tool ->
        Map_get (registerTool tools tool h) name = Map_get tools name) /\
    getToolCount (registerTool tools tool h)
    = (if is_some (Map_get tools (tool_name tool))
       then getToolCount tools
       else S (getToolCount tools)).
Proof.
  intros R tools tool h. unfold registerTool, getToolCount.
  split; [|split].
  - rewrite Map_get_set, String.eqb_refl. reflexivity.
  - intros name Hname. rewrite Map_get_set.
    destruct (String.eqb (tool_name tool) name) eqn:E; [|reflexivity].
    apply String.eqb_eq in E. exfalso. apply Hname. symmetry. exact E.
  - apply Map_set_length.
Qed.

(** X14.  A call to a registered routine tool that lacks credentials, or
    whose arguments its schema rejects, comes back as an error result
    ([isError: true], text ["Error: " ++ message]) and no request has
    gone to the remote; a call without an [arguments] object is such a
    call, for each of the seven tools. *)
Theorem call_tool_reports_early_failure :
  forall (R : Type) (stringify : R -> string)
         (getUserFriendlyMessage : Error -> string)
         (World : Type) (respond : World -> Request -> (Error + Response) * World)
         (inject : ToolResult -> R)
         (tools : ToolMap R) (name : string) (tool : Tool)
         (op : Operation) (hasCredentials : bool)
         (arguments : option JObj) (w : World),
    Map_get tools name
    = Some (mkRegistered tool
              (fun args => fmap inject (handler op hasCredentials args))) ->
    hasCredentials = false \/ arguments = None \/
    (exists args, arguments = Some args /\ accepts op args = false) ->
    exists e : Error,
      call_tool stringify getUserFriendlyMessage respond
                tools name arguments w
      = (mkCallToolResult (String.append "Error: " (getUserFriendlyMessage e))
                          (Some true), w, []) /\
      (hasCredentials = false -> exists message, e = AuthenticationError message) /\
      (hasCredentials = true -> e = rejection op).
Proof.
  intros R stringify msg World respond inject tools name tool op creds
         arguments w Hreg Hstop.
  unfold call_tool. rewrite Hreg. cbn [tool_handler].
  rewrite run_fmap.
  set (args := match arguments with Some a => a | None => [] end).
  assert (Hearly : creds = false \/ accepts op args = false).
  { destruct Hstop as [Hc | [Hnone | [a [Ha Hrej]]]].
    - left. exact Hc.
    - right. subst arguments. destruct op; reflexivity.
    - right. subst arguments. exact Hrej. }
  destruct (handler_stops_early respond op creds args w Hearly)
    as [e [Hrun [Hauth Hzod]]].
  exists e. rewrite Hrun. split; [reflexivity|]. split; assumption.
Qed.

(** X15.  The server that [createServer] builds does not register
    [delete_slot] (unless one of the tools of the absent modules bears
    that name): a call to it is answered with the error result
    ["Unknown tool: delete_slot"], whatever the arguments, and no
    request goes to the remote. *)
Theorem createServer_lacks_delete_slot :
  forall (Other : Type)
         (listCategories listMuscles listEquipment searchExercises
          getExerciseDetails createWorkout getUserRoutines diagnose
          : Tool * (JObj -> Prog Other))
         (stringify : ToolResult + Other -> string)
         (getUserFriendlyMessage : Error -> string)
         (World : Type) (respond : World -> Request -> (Error + Response) * World)
         (hasCredentials : bool) (arguments : option JObj) (w : World),
    Forall (fun t => tool_name (fst t) <> tool_name deleteSlotTool)
           (absent_tools listCategories listMuscles listEquipment
                         searchExercises getExerciseDetails createWorkout
                         getUserRoutines diagnose) ->
    call_tool stringify getUserFriendlyMessage respond
              (createServer listCategories listMuscles listEquipment
                            searchExercises getExerciseDetails createWorkout
                            getUserRoutines diagnose hasCredentials)
              "delete_slot" arguments w
    = (mkCallToolResult "Unknown tool: delete_slot" (Some true), w, []).
Proof.
  intros Other t1 t2 t3 t4 t5 t6 t7 t8 stringify msg World respond creds
         arguments w Habsent.
  unfold absent_tools in Habsent.
  repeat match goal with
         | H : Forall _ (_ :: _) |- _ =>
             let Hx := fresh "Hx" in
             inversion H as [|? ? Hx ?]; subst; clear H
         end.
  unfold call_tool, createServer, register_absent, register_present, registerTool.
  repeat (rewrite Map_get_set;
          match goal with
          | |- context [String.eqb ?a "delete_slot"] =>
              let E := fresh "E" in
              destruct (String.eqb a "delete_slot") eqn:E;
              [ first [ discriminate E
                      | apply String.eqb_eq in E; simpl in *; congruence ] | ]
          end).
  reflexivity.
Qed.

(** X16.  When the fourteen tools that [createServer] registers bear
    pairwise different names, the server lists them in the order of
    registration, counts fourteen, and answers the name of each of the
    six routine tools it imports with that tool's own handler. *)
Theorem createServer_registers_fourteen :
  forall (Other : Type)
         (listCategories listMuscles listEquipment searchExercises
          getExerciseDetails createWorkout getUserRoutines diagnose
          : Tool * (JObj -> Prog Other))
         (hasCredentials : bool),
    let server := createServer listCategories listMuscles listEquipment
                               searchExercises getExerciseDetails createWorkout
                               getUserRoutines diagnose hasCredentials in
    let definitions :=
      [fst listCategories; fst listMuscles; fst listEquipment;
       fst searchExercises; fst getExerciseDetails; fst createWorkout;
       addExerciseToRoutineTool; fst getUserRoutines; getRoutineDetailsTool;
       addDayToRoutineTool; updateDayTool; deleteDayTool;
       updateExerciseInRoutineTool; fst diagnose] in
    NoDup (map tool_name definitions) ->
    list_tools server = definitions /\
    getToolCount server = 14%nat /\
    (forall op : Operation,
        op <> deleteSlot ->
        Map_get server (tool_name (tool_of op))
        = Some (mkRegistered (tool_of op)
                  (fun args => fmap inl (handler op hasCredentials args)))).
Proof.
  intros Other t1 t2 t3 t4 t5 t6 t7 t8 creds server definitions Hnd.
  pose (lift := fun t : Tool * (JObj -> Prog Other) =>
                  (fst t, fun args : JObj =>
                            fmap (@inr ToolResult Other) (snd t args))).
  pose (own := fun op : Operation =>
                 (tool_of op, fun args : JObj =>
                                fmap (@inl ToolResult Other) (handler op creds args))).
  pose (regs := [lift t1; lift t2; lift t3; lift t4; lift t5; lift t6;
                 own addExerciseToRoutine; lift t7; own getRoutineDetails;
                 own addDay; own updateDay; own deleteDay;
                 own updateExerciseInRoutine; lift t8]).
  assert (Hfold : server
                  = fold_left (fun tools t => registerTool tools (fst t) (snd t))
                              regs []) by reflexivity.
  assert (Hnd' : NoDup (map (fun t => tool_name (fst t)) regs)) by exact Hnd.
  rewrite (register_all_distinct (ToolResult + Other) regs Hnd') in Hfold.
  split; [|split].
  - rewrite Hfold. reflexivity.
  - rewrite Hfold. reflexivity.
  - intros op Hop.
    assert (Hkeys : NoDup (map fst server)).
    { rewrite Hfold, map_map. exact Hnd'. }
    apply (Map_get_present (ToolResult + Other) server _ _ Hkeys).
    rewrite Hfold. cbn [map regs lift own fst snd].
    destruct op; try (exfalso; apply Hop; reflexivity);
      cbn [In]; tauto.
Qed.

(** ** Declared input schemas and the schemas the handlers parse with *)

Ltac by_property :=
  repeat match goal with
         | |- context [prop ?a ?k] =>
             destruct (prop a k) as [[? | ? | ? | ] | ]; cbn in *
         | H : context [prop ?a ?k] |- _ =>
             destruct (prop a k) as [[? | ? | ? | ] | ]; cbn in *
         end.

(** X17.  For the six tools whose zod schema is in the source, arguments
    that are an instance of the declared [inputSchema] are accepted by
    the schema the handler parses with, and except for
    [add_day_to_routine] the two accept the same arguments.  There the
    declaration is the stricter one: it requires [description], which
    the handler's schema leaves optional. *)
Theorem declared_schema_is_accepted :
  forall (op : Operation) (args : JObj),
    op <> addExerciseToRoutine ->
    (conforms (tool_of op) args = true -> accepts op args = true) /\
    (op <> addDay -> conforms (tool_of op) args = accepts op args) /\
    (op = addDay ->
     conforms (tool_of op) args
     = accepts op args && is_some (prop args "description")).
Proof.
  intros op args Hop.
  destruct op; try (exfalso; apply Hop; reflexivity);
    (split; [|split]); try (intros H; try discriminate H; exfalso; apply H; reflexivity);
    unfold conforms, accepts, instance_of; cbn;
    unfold AddDaySchema, UpdateDaySchema, DeleteDaySchema, DeleteSlotSchema,
           GetRoutineDetailsSchema, UpdateExerciseSchema,
           zNumber, zNumberOptional, zStringOptional, zBooleanDefaultFalse,
           zBooleanOptional; cbn; intros;
    by_property; try discriminate; try reflexivity; try congruence.
Qed.

(** ** The further properties on sample stores *)

Ltac on_run :=
  match goal with
  | |- context [run ?respond ?p ?w] =>
      let R := fresh "R" in
      let ER := fresh "ER" in
      remember (run respond p w) as R eqn:ER; vm_compute in ER; subst R
  end.

Lemma deleteDay_issues_one_delete_witness :
  exists (st' : Store) (log : list Exchange),
    run (serve ByRoutine) (deleteDayHandler true [("dayId", JNum 7)])
        store_two_routines
    = (Returned (mkDeleted true 7), st', log) /\
    exists t resp : Response,
      log = [(Token, inr t); (Delete c_day 7, inr resp)].
Proof.
  pose proof (deleteDay_issues_one_delete Store (serve ByRoutine) true
                [("dayId", JNum 7)] store_two_routines) as H.
  on_run.
  destruct (H _ _ _ eq_refl) as [_ Hret].
  destruct (Hret _ eq_refl) as (dayId & t & resp & Hs & _ & Hlog).
  vm_compute in Hs. injection Hs as <-.
  do 2 eexists. split; [reflexivity|]. exists t, resp. exact Hlog.
Defined.

Lemma deleteSlot_issues_one_delete_witness :
  exists (st' : Store) (log : list Exchange),
    run (serve ByRoutine) (deleteSlotHandler true [("slotId", JNum 11)])
        store_shuffled
    = (Returned (mkDeleted true 11), st', log) /\
    exists t resp : Response,
      log = [(Token, inr t); (Delete c_slot 11, inr resp)].
Proof.
  pose proof (deleteSlot_issues_one_delete Store (serve ByRoutine) true
                [("slotId", JNum 11)] store_shuffled) as H.
  on_run.
  destruct (H _ _ _ eq_refl) as [_ Hret].
  destruct (Hret _ eq_refl) as (slotId & t & resp & Hs & _ & Hlog).
  vm_compute in Hs. injection Hs as <-.
  do 2 eexists. split; [reflexivity|]. exists t, resp. exact Hlog.
Defined.

Lemma updateDay_returns_the_reply_witness :
  exists (d : Day) (st' : Store) (log : list Exchange),
    run (serve ByRoutine)
        (updateDayHandler true [("dayId", JNum 7); ("name", JStr "Legs")])
        store_two_routines
    = (Returned d, st', log) /\
    exists (t : Response) (body : JObj),
      log = [(Token, inr t); (Patch c_day 7 body, inr (RItem (RawDay d)))].
Proof.
  pose proof (updateDay_returns_the_reply Store (serve ByRoutine) true
                [("dayId", JNum 7); ("name", JStr "Legs")] store_two_routines) as H.
  on_run.
  destruct (H _ _ _ eq_refl) as [_ Hret].
  destruct (Hret _ eq_refl) as (input & t & body & Hs & Hlog).
  vm_compute in Hs. injection Hs as <-.
  do 3 eexists. split; [reflexivity|]. exists t, body. exact Hlog.
Defined.

Lemma getRoutineDetails_only_reads_witness :
  exists (tree : DetailedRoutine) (st' : Store) (log : list Exchange),
    run (serve AllDays) (getRoutineDetailsHandler true [("routineId", JNum 1)])
        store_shuffled
    = (Returned tree, st', log) /\
    forall x : Exchange, In x log -> is_read (fst x) = true.
Proof.
  pose proof (getRoutineDetails_only_reads Store (serve AllDays) true
                [("routineId", JNum 1)] store_shuffled) as H.
  on_run.
  do 3 eexists. split; [reflexivity|]. exact (H _ _ _ eq_refl).
Defined.

Lemma getRoutineDetails_round_trips_witness :
  exists (tree : DetailedRoutine) (st' : Store) (log : list Exchange),
    run (serve AllDays) (getRoutineDetailsHandler true [("routineId", JNum 1)])
        store_shuffled
    = (Returned tree, st', log) /\
    List.length log = tree_requests tree /\
    tree_requests tree = 14%nat.
Proof.
  pose proof (getRoutineDetails_round_trips Store (serve AllDays) true
                [("routineId", JNum 1)] store_shuffled) as H.
  on_run.
  do 3 eexists. split; [reflexivity|].
  split; [exact (H _ _ _ eq_refl) | reflexivity].
Defined.

Lemma updateExercise_reports_supplied_metrics_witness :
  exists (r : UpdateResult) (st' : Store) (log : list Exchange),
    run (serve ByRoutine)
        (updateExerciseInRoutineHandler true args_update_sets_weight)
        store_shuffled
    = (Returned r, st', log) /\
    ur_success r = true /\
    List.length (ur_updates r) = 2%nat /\
    List.length log = 5%nat.
Proof.
  pose proof (updateExercise_reports_supplied_metrics Store (serve ByRoutine) true
                args_update_sets_weight store_shuffled) as H.
  on_run.
  destruct (H _ _ _ eq_refl)
    as (input & l1 & l2 & l3 & Hs & Hok & Hup & H1 & H2 & H3 & Hlen).
  vm_compute in Hs. injection Hs as <-.
  do 3 eexists. split; [reflexivity|].
  split; [exact Hok|]. split; [|exact Hlen].
  rewrite Hup. cbn in H1, H2, H3. subst l2.
  destruct H1 as [-> | ->], H3 as [-> | ->]; reflexivity.
Defined.

Lemma updateExercise_touches_only_configs_witness :
  exists (o : Outcome UpdateResult) (st' : Store) (log : list Exchange),
    run (serve ByRoutine)
        (updateExerciseInRoutineHandler true args_update_sets_weight)
        store_shuffled
    = (o, st', log) /\
    forall x : Exchange, In x log -> config_request 22 (fst x).
Proof.
  pose proof (updateExercise_touches_only_configs Store (serve ByRoutine) true
                args_update_sets_weight store_shuffled) as H.
  on_run.
  do 3 eexists. split; [reflexivity|].
  intros x Hx.
  destruct (H _ _ _ eq_refl x Hx) as (input & Hs & Hreq).
  vm_compute in Hs. injection Hs as <-. exact Hreq.
Defined.

Lemma addExercise_threads_ids_witness :
  exists (r : AddExerciseResult) (st' : Store) (log : list Exchange),
    run (serve AllDays) (addExerciseToRoutineHandler true args_leg_day)
        store_two_routines
    = (Returned r, st', log) /\
    exists wc : Config, ar_weightConfigId r = Some (config_id wc).
Proof.
  pose proof (addExercise_threads_ids Store (serve AllDays) true
                args_leg_day store_two_routines) as H.
  on_run.
  destruct (H _ _ _ eq_refl)
    as (input & t & w1 & w2 & dayLog & weightLog & day & slot & sc & rc
        & Hs & _ & _ & _ & _ & Hweight).
  vm_compute in Hs. injection Hs as <-.
  cbn [ae_weight] in Hweight. destruct Hweight as (wc & _ & Hid).
  do 3 eexists. split; [reflexivity|]. exists wc. exact Hid.
Defined.

Lemma addExercise_twice_same_day_witness :
  exists (day : Day) (r1 r2 : AddExerciseResult) (st1 st2 : Store)
         (log1 log2 : list Exchange),
    run (serve AllDays) (addExerciseToRoutineHandler true args_leg_day)
        store_two_routines
    = (Returned r1, st1, log1) /\
    run (serve AllDays) (addExerciseToRoutineHandler true args_leg_day) st1
    = (Returned r2, st2, log2) /\
    (st_days st1 = st_days store_two_routines \/
     st_days st1 = st_days store_two_routines ++ [day]) /\
    In day (st_days st1) /\
    st_days st2 = st_days st1 /\
    st_slots st2 =
      st_slots store_two_routines ++
      [mkSlot (entry_slot (ar_slotEntry r1)) (day_id day) 1;
       mkSlot (entry_slot (ar_slotEntry r2)) (day_id day) 1] /\
    entry_slot (ar_slotEntry r1) < entry_slot (ar_slotEntry r2).
Proof.
  apply (addExercise_twice_same_day AllDays store_two_routines
           args_leg_day args_leg_day
           (mkAddExerciseToRoutineInput 1 12 3 10 (Some 50) (Some "Leg Day") None)
           (mkAddExerciseToRoutineInput 1 12 3 10 (Some 50) (Some "Leg Day") None));
    reflexivity.
Defined.

Lemma addDay_then_addExercise_reuses_day_witness :
  exists (d : Day) (r : AddExerciseResult) (st1 st2 : Store)
         (log1 log2 : list Exchange),
    run (serve AllDays)
        (addDayToRoutineHandler true
           [("routineId", JNum 1); ("description", JStr "Leg Day")])
        store_two_routines
    = (Returned d, st1, log1) /\
    run (serve AllDays) (addExerciseToRoutineHandler true args_leg_day) st1
    = (Returned r, st2, log2) /\
    day_name d = "Leg Day" /\
    st_days st2 = st_days store_two_routines ++ [d] /\
    st_slots st2
    = st_slots store_two_routines ++
      [mkSlot (entry_slot (ar_slotEntry r)) (day_id d) 1].
Proof.
  apply (addDay_then_addExercise_reuses_day AllDays store_two_routines
           [("routineId", JNum 1); ("description", JStr "Leg Day")] args_leg_day
           (mkAddDayInput 1 (Some "Leg Day") false)
           (mkAddExerciseToRoutineInput 1 12 3 10 (Some 50) (Some "Leg Day") None)
           "Leg Day");
    try reflexivity.
  - discriminate.
  - simpl. lia.
Defined.


Lemma updateExercise_keeps_partial_work_witness :
  exists (st' : Store) (log : list Exchange),
    run (serve_rejecting (c_config Repetitions))
        (updateExerciseInRoutineHandler true args_update_sets_reps) store_shuffled
    = (Thrown (ApiError 500 "Internal Server Error"), st', log) /\
    configs_of 21 Sets st' = [mkConfig 100 21 1 (JNum 3)] /\
    st_reps st' = st_reps store_shuffled /\
    st_weights st' = st_weights store_shuffled /\
    map fst log
    = [Token;
       Get (c_config Sets) [("slot_entry", JNum 21)];
       Post (c_config Sets)
            [("slot_entry", JNum 21); ("iteration", JNum 1); ("value", JNum 3)];
       Get (c_config Repetitions) [("slot_entry", JNum 21)];
       Post (c_config Repetitions)
            [("slot_entry", JNum 21); ("iteration", JNum 1); ("value", JNum 10)]].
Proof.
  apply (updateExercise_keeps_partial_work store_shuffled args_update_sets_reps
           (mkUpdateExerciseInput 21 (Some 3) (Some 10) None) 3 10);
    reflexivity.
Defined.

Lemma call_tool_reports_early_failure_witness :
  call_tool sample_stringify sample_message (serve ByRoutine)
            (sample_server true) "update_day" None store_two_routines
  = (mkCallToolResult "Error: ZodError" (Some true), store_two_routines, []).
Proof.
  destruct (call_tool_reports_early_failure
              (ToolResult + unit)%type sample_stringify sample_message
              Store (serve ByRoutine) inl
              (sample_server true) "update_day" updateDayTool updateDay true
              None store_two_routines eq_refl (or_intror (or_introl eq_refl)))
    as (e & Hcall & _ & Hzod).
  rewrite Hcall, (Hzod eq_refl). reflexivity.
Defined.

Lemma createServer_lacks_delete_slot_witness :
  call_tool sample_stringify sample_message (serve ByRoutine)
            (sample_server true) "delete_slot" (Some [("slotId", JNum 11)])
            store_shuffled
  = (mkCallToolResult "Unknown tool: delete_slot" (Some true), store_shuffled, []).
Proof.
  apply (createServer_lacks_delete_slot unit
           (named_tool "list_categories") (named_tool "list_muscles")
           (named_tool "list_equipment") (named_tool "search_exercises")
           (named_tool "get_exercise_details") (named_tool "create_workout")
           (named_tool "get_user_routines") (named_tool "diagnose")
           sample_stringify sample_message Store (serve ByRoutine) true
           (Some [("slotId", JNum 11)]) store_shuffled).
  repeat constructor; discriminate.
Defined.

Lemma createServer_registers_fourteen_witness :
  map tool_name (list_tools (sample_server true))
  = ["list_categories"; "list_muscles"; "list_equipment"; "search_exercises";
     "get_exercise_details"; "create_workout"; "add_exercise_to_routine";
     "get_user_routines"; "get_routine_details"; "add_day_to_routine";
     "update_day"; "delete_day"; "update_exercise_in_routine"; "diagnose"] /\
  getToolCount (sample_server true) = 14%nat.
Proof.
  destruct (createServer_registers_fourteen unit
              (named_tool "list_categories") (named_tool "list_muscles")
              (named_tool "list_equipment") (named_tool "search_exercises")
              (named_tool "get_exercise_details") (named_tool "create_workout")
              (named_tool "get_user_routines") (named_tool "diagnose") true)
    as (Hlist & Hcount & _).
  - cbn. repeat (constructor; [cbn; intuition discriminate|]). constructor.
  - split; [|exact Hcount].
    unfold sample_server. rewrite Hlist. reflexivity.
Defined.

Lemma declared_schema_is_accepted_witness :
  conforms updateDayTool [("dayId", JNum 7); ("name", JStr "Legs")] = true /\
  accepts updateDay [("dayId", JNum 7); ("name", JStr "Legs")] = true.
Proof.
  destruct (declared_schema_is_accepted updateDay
              [("dayId", JNum 7); ("name", JStr "Legs")]) as (Himp & _ & _).
  - discriminate.
  - split; [reflexivity|]. apply Himp. reflexivity.
Defined.
